(** * Market-data provider routing: a shallow embedding

    The development embeds the provider-orchestration core of the
    repository — [connectors/crypto_binance.py],
    [connectors/crypto_kraken_rest.py], [connectors/crypto_coinbase.py],
    [connectors/crypto_router.py], [connectors/stocks_router.py] and
    [connectors/mock_stock_data.py] — and states the properties of the
    specification over the embedded functions.

    Conventions of the embedding.
    - Python [int] is [Z]; [//] is [Z.div] (floor division, as in Python)
      and a zero divisor is an explicit [Raised] outcome.
    - Python [float] values that are only carried around (prices, volumes)
      and the wall clock are idealised as rationals [Q].
    - Python [str] is a list of characters.  Module [PyStr] embeds it on
      ASCII text (code points below 128), where [str.upper]/[str.lower]
      change the twenty-six letters only; statements about letter case
      carry the hypothesis [is_ascii].  Module [Unicode] embeds the Binance
      normaliser on lists of code points, for text of ASCII characters and
      the Kelvin sign U+212A.
    - A [dict] whose iteration order matters is an association list kept in
      insertion order; the health tables are [gmap string bool].
    - Every upstream HTTP exchange is an oracle supplied by the environment;
      a coroutine that may raise returns an [outcome], whose [Raised]
      stands for an exception of class [Exception]. *)

From Stdlib Require Import ZArith QArith Qminmax Qround Lqa Ascii String List Sorted.
From stdpp Require Import base list gmap strings.

Local Open Scope Z_scope.

(* ===================================================================== *)
(** * Part I — definitions                                               *)
(* ===================================================================== *)

(** ** Python strings *)

Module PyStr.

Definition str := list ascii.

(** A string literal of the source. *)
Definition lit (s : string) : str := list_ascii_of_string s.

(** [c.upper()] for one ASCII character (a code point below 128); on
    the other values of [ascii] it is not Python's mapping. *)
Definition upper_char (c : ascii) : ascii :=
  let n := N_of_ascii c in
  if ((97 <=? n) && (n <=? 122))%N then ascii_of_N (n - 32) else c.

(** [c.lower()] for one ASCII character (a code point below 128); on
    the other values of [ascii] it is not Python's mapping. *)
Definition lower_char (c : ascii) : ascii :=
  let n := N_of_ascii c in
  if ((65 <=? n) && (n <=? 90))%N then ascii_of_N (n + 32) else c.

(** [s.upper()], [s.lower()] for ASCII text. *)
Definition upper (s : str) : str := map upper_char s.
Definition lower (s : str) : str := map lower_char s.

(** [s.isascii()]: every character is a code point below 128. *)
Definition is_ascii (s : str) : bool := forallb (fun c => (N_of_ascii c <? 128)%N) s.

Definition char_eqb (a b : ascii) : bool := Ascii.eqb a b.

Fixpoint str_eqb (a b : str) : bool :=
  match a, b with
  | [], [] => true
  | x :: a', y :: b' => char_eqb x y && str_eqb a' b'
  | _, _ => false
  end.

(** [s.startswith(p)]. *)
Fixpoint startswith (p s : str) : bool :=
  match p, s with
  | [], _ => true
  | x :: p', y :: s' => char_eqb x y && startswith p' s'
  | _ :: _, [] => false
  end.

(** [s.endswith(p)]. *)
Definition endswith (p s : str) : bool := startswith (rev p) (rev s).

(** [c in s] for a one-character needle. *)
Definition contains_char (c : ascii) (s : str) : bool := existsb (char_eqb c) s.

(** [s.replace(old, new)] for a non-empty [old]: occurrences are replaced
    left to right without overlap.  [skip] counts the characters of a
    matched occurrence that are still to be consumed. *)
Fixpoint replace_from (old new : str) (skip : nat) (s : str) : str :=
  match s with
  | [] => []
  | c :: r =>
      match skip with
      | S k => replace_from old new k r
      | O =>
          if startswith old s
          then new ++ replace_from old new (Nat.pred (length old)) r
          else c :: replace_from old new O r
      end
  end.

Definition replace (old new s : str) : str := replace_from old new O s.

(** [s.split(sep, 1)] for a one-character separator, as the pair
    (text before the first separator, text after it).  The source only
    calls it under the guard [sep in s], where the result has exactly two
    parts; without a separator the second part is empty. *)
Fixpoint split_once (sep : ascii) (s : str) : str * str :=
  match s with
  | [] => ([], [])
  | c :: r =>
      if char_eqb sep c then ([], r)
      else let '(a, b) := split_once sep r in (c :: a, b)
  end.

(** ASCII whitespace, as removed by [str.strip()]. *)
Definition is_space (c : ascii) : bool :=
  let n := N_of_ascii c in
  (((9 <=? n) && (n <=? 13)) || ((28 <=? n) && (n <=? 32)))%N.

Fixpoint lstrip (s : str) : str :=
  match s with
  | [] => []
  | c :: r => if is_space c then lstrip r else s
  end.

(** [s.strip()]. *)
Definition strip (s : str) : str := rev (lstrip (rev (lstrip s))).

(** [d.get(k)] on a literal [dict] of strings. *)
Fixpoint dict_get {V : Type} (k : str) (d : list (str * V)) : option V :=
  match d with
  | [] => None
  | (k', v) :: d' => if str_eqb k k' then Some v else dict_get k d'
  end.

(** [s in (a, b, ...)]. *)
Definition in_tuple (s : str) (t : list str) : bool := existsb (str_eqb s) t.

End PyStr.

(** ** Symbol normalisation and interval mapping of the two exchanges *)

Module Binance.
Import PyStr.

(** The [mappings] table of [_to_binance_symbol]. *)
Definition mappings : list (str * str) :=
  [ (lit "XBTUSD", lit "BTCUSDT");
    (lit "XBTUSDT", lit "BTCUSDT");
    (lit "BTCUSD", lit "BTCUSDT");
    (lit "ETHUSD", lit "ETHUSDT");
    (lit "ADAUSD", lit "ADAUSDT");
    (lit "SOLUSD", lit "SOLUSDT");
    (lit "DOTUSD", lit "DOTUSDT");
    (lit "LINKUSD", lit "LINKUSDT");
    (lit "UNIUSD", lit "UNIUSDT");
    (lit "MATICUSD", lit "MATICUSDT");
    (lit "AVAXUSD", lit "AVAXUSDT");
    (lit "LTCUSD", lit "LTCUSDT");
    (lit "BCHUSD", lit "BCHUSDT") ].

(** [_to_binance_symbol] (crypto_binance.py, lines 13-59). *)
Definition _to_binance_symbol (symbol : str) : str :=
  match symbol with
  | [] => []
  | _ =>
      let s := replace (lit "_") [] (replace (lit "-") [] (replace (lit "/") [] (upper symbol))) in
      match dict_get s mappings with
      | Some v => v
      | None =>
          if endswith (lit "USD") s && negb (endswith (lit "USDT") s)
          then replace (lit "USD") (lit "USDT") s
          else if contains_char "/"%char symbol then
            let '(base, quote) := split_once "/"%char symbol in
            let base := strip (upper base) in
            let quote := strip (upper quote) in
            let quote := if str_eqb quote (lit "USD") then lit "USDT"
                         else if str_eqb quote (lit "BTC") then lit "BTC"
                         else quote in
            base ++ quote
          else s
      end
  end.

(** [_interval_to_binance] (crypto_binance.py, lines 61-77). *)
Definition _interval_to_binance (interval : Z) : string :=
  if interval <=? 1 then "1m"%string
  else if interval <=? 3 then "3m"%string
  else if interval <=? 5 then "5m"%string
  else if interval <=? 15 then "15m"%string
  else if interval <=? 30 then "30m"%string
  else if interval <=? 60 then "1h"%string
  else if interval <=? 120 then "2h"%string
  else if interval <=? 240 then "4h"%string
  else if interval <=? 360 then "6h"%string
  else if interval <=? 480 then "8h"%string
  else if interval <=? 720 then "12h"%string
  else if interval <=? 1440 then "1d"%string
  else if interval <=? 4320 then "3d"%string
  else if interval <=? 10080 then "1w"%string
  else "1M"%string.

(** The resolutions Binance names by these codes, in minutes.  The
    calendar month ["1M"] is counted at its shortest, 28 days. *)
Definition resolutions : list (Z * string) :=
  [ (1, "1m"); (3, "3m"); (5, "5m"); (15, "15m"); (30, "30m"); (60, "1h");
    (120, "2h"); (240, "4h"); (360, "6h"); (480, "8h"); (720, "12h");
    (1440, "1d"); (4320, "3d"); (10080, "1w"); (40320, "1M") ]%string.

End Binance.

Module Kraken.
Import PyStr.

(** [_to_kraken_pair] (crypto_kraken_rest.py, lines 9-58). *)
Definition _to_kraken_pair (symbol : str) : str :=
  match symbol with
  | [] => []
  | _ =>
      let s := replace (lit "/") [] (replace (lit "-") [] (upper symbol)) in
      if in_tuple s [lit "BTCUSD"; lit "XBTUSD"; lit "BTC/USD"; lit "XBT/USD"] then lit "XBTUSD"
      else if in_tuple s [lit "BTCEUR"; lit "XBTEUR"; lit "BTC/EUR"; lit "XBT/EUR"] then lit "XBTEUR"
      else if in_tuple s [lit "ETHUSD"; lit "ETH/USD"] then lit "ETHUSD"
      else if in_tuple s [lit "ETHEUR"; lit "ETH/EUR"] then lit "ETHEUR"
      else if in_tuple s [lit "ETHBTC"; lit "ETH/BTC"; lit "ETHXBT"; lit "ETH/XBT"] then lit "ETHXBT"
      else if in_tuple s [lit "ADAUSD"; lit "ADA/USD"] then lit "ADAUSD"
      else if in_tuple s [lit "DOTUSD"; lit "DOT/USD"] then lit "DOTUSD"
      else if in_tuple s [lit "SOLUSD"; lit "SOL/USD"] then lit "SOLUSD"
      else if in_tuple s [lit "LINKUSD"; lit "LINK/USD"] then lit "LINKUSD"
      else if in_tuple s [lit "UNIUSD"; lit "UNI/USD"] then lit "UNIUSD"
      else if in_tuple s [lit "MATICUSD"; lit "MATIC/USD"] then lit "MATICUSD"
      else if contains_char "/"%char symbol then
        let '(base, quote) := split_once "/"%char symbol in
        let base := strip (upper base) in
        let quote := strip (upper quote) in
        let quote := if str_eqb quote (lit "BTC") then lit "XBT" else quote in
        base ++ quote
      else s
  end.

(** The characters [_is_valid_symbol] accepts: [A-Z], [0-9] and ["/"]. *)
Definition allowed_char (c : ascii) : bool :=
  let n := N_of_ascii c in
  (((65 <=? n) && (n <=? 90)) || ((48 <=? n) && (n <=? 57)) || (n =? 47))%N.

(** [_is_valid_symbol] (crypto_kraken_rest.py, lines 60-67). *)
Definition _is_valid_symbol (symbol : str) : bool :=
  if (length symbol <? 3)%nat then false
  else forallb allowed_char (upper symbol).

(** [_interval_to_kraken] (crypto_kraken_rest.py, lines 69-79). *)
Definition _interval_to_kraken (interval : Z) : Z :=
  if interval <=? 1 then 1
  else if interval <=? 5 then 5
  else if interval <=? 15 then 15
  else if interval <=? 30 then 30
  else if interval <=? 60 then 60
  else if interval <=? 240 then 240
  else if interval <=? 1440 then 1440
  else if interval <=? 10080 then 10080
  else 21600.

(** The resolutions the mapper can return, in minutes. *)
Definition resolutions : list Z := [1; 5; 15; 30; 60; 240; 1440; 10080; 21600].

End Kraken.

(** ** The Binance normaliser on code points *)

Module Unicode.

(** Operations of [str] that only compare characters, for any alphabet. *)
Section Text.
Variable A : Type.
Variable eqb : A -> A -> bool.

Fixpoint text_eqb (a b : list A) : bool :=
  match a, b with
  | [], [] => true
  | x :: a', y :: b' => eqb x y && text_eqb a' b'
  | _, _ => false
  end.

Fixpoint startswith (p s : list A) : bool :=
  match p, s with
  | [], _ => true
  | x :: p', y :: s' => eqb x y && startswith p' s'
  | _ :: _, [] => false
  end.

Definition endswith (p s : list A) : bool := startswith (rev p) (rev s).

Definition contains (c : A) (s : list A) : bool := existsb (eqb c) s.

(** [s.replace(old, new)] for a non-empty [old], as [PyStr.replace_from]. *)
Fixpoint replace_from (old new : list A) (skip : nat) (s : list A) : list A :=
  match s with
  | [] => []
  | c :: r =>
      match skip with
      | S k => replace_from old new k r
      | O =>
          if startswith old s
          then new ++ replace_from old new (Nat.pred (length old)) r
          else c :: replace_from old new O r
      end
  end.

Definition replace (old new s : list A) : list A := replace_from old new O s.

(** [s.split(sep, 1)] under the guard [sep in s]. *)
Fixpoint split_once (sep : A) (s : list A) : list A * list A :=
  match s with
  | [] => ([], [])
  | c :: r =>
      if eqb sep c then ([], r)
      else let '(a, b) := split_once sep r in (c :: a, b)
  end.

Fixpoint dict_get {V : Type} (k : list A) (d : list (list A * V)) : option V :=
  match d with
  | [] => None
  | (k', v) :: d' => if text_eqb k k' then Some v else dict_get k d'
  end.

End Text.

Arguments text_eqb {A} eqb a b.
Arguments startswith {A} eqb p s.
Arguments endswith {A} eqb p s.
Arguments contains {A} eqb c s.
Arguments replace_from {A} eqb old new skip s.
Arguments replace {A} eqb old new s.
Arguments split_once {A} eqb sep s.
Arguments dict_get {A} eqb {V} k d.

(** A Python string as the list of its code points. *)
Definition ustr : Type := list N.

(** The code points of an ASCII string, and of a literal of the source. *)
Definition of_ascii (s : PyStr.str) : ustr := map N_of_ascii s.
Definition lit (s : string) : ustr := of_ascii (PyStr.lit s).

(** KELVIN SIGN, U+212A: an upper-case letter whose lower case is ["k"]. *)
Definition KELVIN_SIGN : N := 8490.

(** The code points on which case mapping and white space are embedded:
    the ASCII characters and the Kelvin sign. *)
Definition covered (c : N) : bool := ((c <? 128) || (c =? KELVIN_SIGN))%N.

(** [c.upper()] on a covered code point: the Kelvin sign is upper case. *)
Definition upper_cp (c : N) : N :=
  if ((97 <=? c) && (c <=? 122))%N then (c - 32)%N else c.

(** [c.lower()] on a covered code point: the Kelvin sign becomes ["k"]. *)
Definition lower_cp (c : N) : N :=
  if ((65 <=? c) && (c <=? 90))%N then (c + 32)%N
  else if (c =? KELVIN_SIGN)%N then 107%N
  else c.

Definition upper (s : ustr) : ustr := map upper_cp s.
Definition lower (s : ustr) : ustr := map lower_cp s.

(** White space among the covered code points, as removed by [strip()]. *)
Definition is_space (c : N) : bool :=
  (((9 <=? c) && (c <=? 13)) || ((28 <=? c) && (c <=? 32)))%N.

Fixpoint lstrip (s : ustr) : ustr :=
  match s with
  | [] => []
  | c :: r => if is_space c then lstrip r else s
  end.

Definition strip (s : ustr) : ustr := rev (lstrip (rev (lstrip s))).

Definition mappings : list (ustr * ustr) :=
  map (fun kv => (of_ascii (fst kv), of_ascii (snd kv))) Binance.mappings.

(** [_to_binance_symbol] (crypto_binance.py, lines 13-59) on code points;
    [None] for a symbol with a code point that is not covered, on which
    the normaliser is not embedded. *)
Definition _to_binance_symbol (symbol : ustr) : option ustr :=
  if negb (forallb covered symbol) then None
  else
    match symbol with
    | [] => Some []
    | _ =>
        let s := replace N.eqb (lit "_") []
                   (replace N.eqb (lit "-") []
                      (replace N.eqb (lit "/") [] (upper symbol))) in
        match dict_get N.eqb s mappings with
        | Some v => Some v
        | None =>
            if endswith N.eqb (lit "USD") s && negb (endswith N.eqb (lit "USDT") s)
            then Some (replace N.eqb (lit "USD") (lit "USDT") s)
            else if contains N.eqb 47%N symbol then
              let '(base, quote) := split_once N.eqb 47%N symbol in
              let base := strip (upper base) in
              let quote := strip (upper quote) in
              let quote := if text_eqb N.eqb quote (lit "USD") then lit "USDT"
                           else if text_eqb N.eqb quote (lit "BTC") then lit "BTC"
                           else quote in
              Some (base ++ quote)
            else Some s
        end
    end.

End Unicode.

(** ** The ceiling policy of the interval mappers *)

Module Ceiling.

(** [result] is the smallest element of [supported] that is at least
    [request]. *)
Definition is_ceiling (supported : list Z) (request result : Z) : Prop :=
  In result supported /\ request <= result /\
  forall r, In r supported -> request <= r -> result <= r.

(** The same for a provider that names its resolutions by codes. *)
Definition is_ceiling_code (table : list (Z * string)) (request : Z) (code : string) : Prop :=
  exists m, In (m, code) table /\ request <= m /\
  forall m' c', In (m', c') table -> request <= m' -> m <= m'.

End Ceiling.

(** ** Canonical bars and raw provider rows *)

Module Bars.

(** The canonical OHLCV record every adapter produces. *)
Record Bar : Type := mkBar
  { ts : Z; open : Q; high : Q; low : Q; close : Q; volume : Q }.

(** One cell of a decoded JSON row: a number (or numeric text), text that
    [float()] rejects with [ValueError], or a value such as [null] that it
    rejects with [TypeError]. *)
Inductive cell : Type :=
| CNum (q : Q)
| CBad
| CNull.

(** What a failed conversion raises: the exceptions the per-row handler
    [except (ValueError, IndexError)] catches, and every other one. *)
Inductive exc : Type :=
| ValueError
| OtherError.

Definition conv (A : Type) : Type := exc + A.

Definition bind {A B : Type} (c : conv A) (k : A -> conv B) : conv B :=
  match c with
  | inl e => inl e
  | inr a => k a
  end.

(** [float(c)]. *)
Definition to_float (c : cell) : conv Q :=
  match c with
  | CNum q => inr q
  | CBad => inl ValueError
  | CNull => inl OtherError
  end.

(** [int(c)]: truncation towards zero. *)
Definition to_int (c : cell) : conv Z :=
  match c with
  | CNum q => inr (Z.quot (Qnum q) (Zpos (Qden q)))
  | CBad => inl ValueError
  | CNull => inl OtherError
  end.

(** [int(float(c))]. *)
Definition to_int_of_float (c : cell) : conv Z :=
  bind (to_float c) (fun q => inr (Z.quot (Qnum q) (Zpos (Qden q)))).

(** What awaiting an adapter gives its caller: an exception, or a list
    of bars.  [Raised] stands for an exception of class [Exception], the
    ones the handlers [except Exception] of the routers catch; a
    cancellation ([asyncio.CancelledError]) or another [BaseException]
    passes through those handlers and is outside the embedding. *)
Inductive outcome : Type :=
| Raised
| Returned (bars : list Bar).

(** [row[i]] once the length of the row has been checked. *)
Definition item (row : list cell) (i : nat) : cell := nth i row CNull.

(** ** Python list and dict operations used by the merges *)

(** [l[start:]] with Python's treatment of a negative or too large start. *)
Definition py_slice_from {A : Type} (start : Z) (l : list A) : list A :=
  let n := Z.of_nat (length l) in
  let s := if start <? 0 then Z.max (start + n) 0 else Z.min start n in
  drop (Z.to_nat s) l.

(** [l[:stop]], likewise. *)
Definition py_slice_to {A : Type} (stop : Z) (l : list A) : list A :=
  let n := Z.of_nat (length l) in
  let s := if stop <? 0 then Z.max (stop + n) 0 else Z.min stop n in
  take (Z.to_nat s) l.

(** [l[-m:]]. *)
Definition py_slice_last {A : Type} (m : Z) (l : list A) : list A :=
  py_slice_from (- m) l.

(** [d[k] = v] on a dict kept in insertion order: an existing key keeps
    its position and takes the new value, a new key goes to the end. *)
Fixpoint dict_set {V : Type} (d : list (Z * V)) (k : Z) (v : V) : list (Z * V) :=
  match d with
  | [] => [(k, v)]
  | (k', v') :: d' =>
      if k' =? k then (k, v) :: d' else (k', v') :: dict_set d' k v
  end.

Fixpoint dict_find {V : Type} (k : Z) (d : list (Z * V)) : option V :=
  match d with
  | [] => None
  | (k', v) :: d' => if k' =? k then Some v else dict_find k d'
  end.

(** [{item["ts"]: item for item in l}]. *)
Definition dict_by_ts (l : list Bar) : list (Z * Bar) :=
  fold_left (fun d b => dict_set d (ts b) b) l [].

(** [sorted(l, key=key)]: a stable sort. *)
Fixpoint insert_sorted {A : Type} (key : A -> Z) (x : A) (l : list A) : list A :=
  match l with
  | [] => [x]
  | y :: r => if key x <=? key y then x :: l else y :: insert_sorted key x r
  end.

Fixpoint py_sorted {A : Type} (key : A -> Z) (l : list A) : list A :=
  match l with
  | [] => []
  | x :: r => insert_sorted key x (py_sorted key r)
  end.

End Bars.

(** ** The Binance history adapter *)

Module BinanceRest.
Import PyStr Bars.

(** What one [GET /klines] exchange gives the adapter. *)
Inductive reply : Type :=
| TransportError                      (* the request, [raise_for_status] or [json()] raised *)
| NotAList                            (* a JSON body that is not a list *)
| Klines (rows : list (list cell)).

(** The upstream exchange: native symbol, interval code and limit of the
    request, and the number of requests issued before it by this call. *)
Definition upstream : Type := nat -> str -> string -> Z -> reply.

(** The dict literal of lines 188-195, evaluated field by field. *)
Definition parse_candle (candle : list cell) : conv Bar :=
  bind (to_int (item candle 0)) (fun t =>
  bind (to_float (item candle 1)) (fun o =>
  bind (to_float (item candle 2)) (fun h =>
  bind (to_float (item candle 3)) (fun l =>
  bind (to_float (item candle 4)) (fun c =>
  bind (to_float (item candle 5)) (fun v =>
  inr (mkBar (t / 1000) o h l c v))))))).

(** The loop of lines 181-198: short candles and candles that raise
    [ValueError] are skipped; any other exception leaves the loop. *)
Fixpoint parse_candles (data : list (list cell)) (result : list Bar) : conv (list Bar) :=
  match data with
  | [] => inr result
  | candle :: rest =>
      if (length candle <? 6)%nat then parse_candles rest result
      else match parse_candle candle with
           | inr b => parse_candles rest (result ++ [b])
           | inl ValueError => parse_candles rest result
           | inl OtherError => inl OtherError
           end
  end.

(** [fetch_binance_ohlc] (crypto_binance.py, lines 143-214); [k] is the
    number of requests issued so far. *)
Definition fetch_binance_ohlc (http : upstream) (k : nat)
    (symbol : str) (interval limit : Z) : list Bar :=
  let binance_symbol := Binance._to_binance_symbol symbol in
  match binance_symbol with
  | [] => []
  | _ =>
      let binance_interval := Binance._interval_to_binance interval in
      match http k binance_symbol binance_interval (Z.min limit 1000) with
      | TransportError => []
      | NotAList => []
      | Klines data =>
          match parse_candles data [] with
          | inr result => result
          | inl _ => []
          end
      end
  end.

(** One turn of the [for i in range(requests_needed)] loop. *)
Inductive turn : Type :=
| BreakUnsent                          (* [limit <= 0]: left before any request *)
| BreakEmpty                           (* [not batch]: left after an empty page *)
| Continue (all_data : list Bar).

(** The body of the loop of [fetch_binance_ohlc_days] (lines 239-256). *)
Definition days_page (http : upstream) (symbol : str) (interval : Z)
    (total_bars_needed : Z) (i : nat) (all_data : list Bar) : turn :=
  let limit := Z.min 1000 (total_bars_needed - Z.of_nat (length all_data)) in
  if limit <=? 0 then BreakUnsent
  else match fetch_binance_ohlc http i symbol interval limit with
       | [] => BreakEmpty
       | batch => Continue (all_data ++ batch)
       end.

(** The loop itself, [n] turns from turn [i] on.  The result is the
    accumulated list and the number of requests sent upstream. *)
Fixpoint days_loop (http : upstream) (symbol : str) (interval : Z)
    (total_bars_needed : Z) (n i : nat) (all_data : list Bar) : list Bar * nat :=
  match n with
  | O => (all_data, O)
  | S n' =>
      match days_page http symbol interval total_bars_needed i all_data with
      | BreakUnsent => (all_data, O)
      | BreakEmpty => (all_data, 1%nat)
      | Continue all_data' =>
          let '(final, sent) :=
            days_loop http symbol interval total_bars_needed n' (S i) all_data' in
          (final, S sent)
      end
  end.

(** Lines 258-262: remove duplicates, sort, keep the most recent. *)
Definition merge (max_bars : Z) (all_data : list Bar) : list Bar :=
  match all_data with
  | [] => []
  | _ =>
      let unique_data := dict_by_ts all_data in
      let all_data := py_sorted ts (map snd unique_data) in
      py_slice_last max_bars all_data
  end.

Definition total_bars_needed (interval days max_bars : Z) : Z :=
  Z.min (days * ((24 * 60) / interval)) max_bars.

Definition requests_needed (interval days max_bars : Z) : Z :=
  (total_bars_needed interval days max_bars + 999) / 1000.

(** [fetch_binance_ohlc_days] (crypto_binance.py, lines 216-265).  The
    only exception it lets out is the [ZeroDivisionError] of
    [(24 * 60) // interval]. *)
Definition fetch_binance_ohlc_days (http : upstream)
    (symbol : str) (interval days max_bars : Z) : outcome :=
  if interval =? 0 then Raised
  else
    let total := total_bars_needed interval days max_bars in
    let n := Z.to_nat (requests_needed interval days max_bars) in
    let all_data := fst (days_loop http symbol interval total n O []) in
    Returned (merge max_bars all_data).

(** The number of requests that call sends upstream. *)
Definition requests_sent (http : upstream)
    (symbol : str) (interval days max_bars : Z) : nat :=
  let total := total_bars_needed interval days max_bars in
  let n := Z.to_nat (requests_needed interval days max_bars) in
  snd (days_loop http symbol interval total n O []).

End BinanceRest.

(** ** The Kraken history adapter *)

Module KrakenRest.
Import PyStr Bars.

(** The decoded body of one [GET /OHLC] answer: whether [data["error"]]
    is a non-empty list, the first list-valued entry of [result] other
    than ["last"] (empty when there is none), and [result.get("last")]. *)
Record body : Type := mkBody
  { has_error : bool; series : list (list cell); last : option Z }.

Inductive reply : Type :=
| TransportError                      (* the request, [raise_for_status] or [json()] raised *)
| Json (b : body).

(** The upstream exchange: pair, interval and [since] cursor of the
    request, and the attempt number. *)
Definition upstream : Type := nat -> str -> Z -> Z -> reply.

(** The dict literal of lines 209-216. *)
Definition parse_row (row : list cell) : conv Bar :=
  bind (to_int_of_float (item row 0)) (fun t =>
  bind (to_float (item row 1)) (fun o =>
  bind (to_float (item row 2)) (fun h =>
  bind (to_float (item row 3)) (fun l =>
  bind (to_float (item row 4)) (fun c =>
  bind (to_float (item row 6)) (fun v =>
  inr (mkBar t o h l c v))))))).

(** The loop of lines 206-219 appends to [out] in place.  The flag tells
    whether a row raised something the per-row handler does not catch;
    the rows appended before it stay in [out]. *)
Fixpoint parse_rows (rows : list (list cell)) (out : list Bar) : list Bar * bool :=
  match rows with
  | [] => (out, false)
  | row :: rest =>
      if (7 <=? length row)%nat then
        match parse_row row with
        | inr b => parse_rows rest (out ++ [b])
        | inl ValueError => parse_rows rest out
        | inl OtherError => (out, true)
        end
      else parse_rows rest out
  end.

(** One turn of the safety loop. *)
Inductive turn : Type :=
| Break (out : list Bar)
| Continue (out : list Bar) (new_last : Z).

(** Lines 225-230: [if not new_last or new_last == last: break]. *)
Definition cursor_check (new_last : option Z) (last : Z) (out : list Bar) : turn :=
  match new_last with
  | None => Break out
  | Some nl => if (nl =? 0) || (nl =? last) then Break out else Continue out nl
  end.

(** The body of the loop of [fetch_ohlc_days_kraken] (lines 182-241). *)
Definition days_page (http : upstream) (pair : str) (intr max_bars : Z)
    (attempt : nat) (last : Z) (out : list Bar) : turn :=
  match http attempt pair intr last with
  | TransportError => Break out
  | Json data =>
      if has_error data then Break out
      else
        let new_last := data.(KrakenRest.last) in
        match series data with
        | [] => cursor_check new_last last out
        | rows =>
            let '(out', fault) := parse_rows rows out in
            if fault then Break out'
            else if max_bars <=? Z.of_nat (length out') then Break out'
            else cursor_check new_last last out'
        end
  end.

(** [for attempt in range(20)], [n] turns from [attempt] on.  The result
    is [out] and the number of requests sent upstream. *)
Fixpoint days_loop (http : upstream) (pair : str) (intr max_bars : Z)
    (n attempt : nat) (last : Z) (out : list Bar) : list Bar * nat :=
  match n with
  | O => (out, O)
  | S n' =>
      match days_page http pair intr max_bars attempt last out with
      | Break out' => (out', 1%nat)
      | Continue out' new_last =>
          let '(final, sent) :=
            days_loop http pair intr max_bars n' (S attempt) new_last out' in
          (final, S sent)
      end
  end.

(** Lines 246-250: deduplicate, sort, keep the most recent. *)
Definition merge (max_bars : Z) (out : list Bar) : list Bar :=
  match out with
  | [] => []
  | _ =>
      let uniq := dict_by_ts out in
      let out := omap (fun k => dict_find k uniq) (py_sorted id (map fst uniq)) in
      py_slice_last max_bars out
  end.

(** [fetch_ohlc_days_kraken] (crypto_kraken_rest.py, lines 156-256);
    [now] is [int(time.time())]. *)
Definition fetch_ohlc_days_kraken (http : upstream) (now : Z)
    (symbol : str) (interval days max_bars : Z) : list Bar :=
  if negb (Kraken._is_valid_symbol symbol) then []
  else
    let pair := Kraken._to_kraken_pair symbol in
    match pair with
    | [] => []
    | _ =>
        let intr := Kraken._interval_to_kraken interval in
        let since := now - days * 86400 in
        let out := fst (days_loop http pair intr max_bars 20 O since []) in
        merge max_bars out
    end.

(** The number of requests that call sends upstream. *)
Definition requests_sent (http : upstream) (now : Z)
    (symbol : str) (interval days max_bars : Z) : nat :=
  if negb (Kraken._is_valid_symbol symbol) then O
  else
    let pair := Kraken._to_kraken_pair symbol in
    match pair with
    | [] => O
    | _ =>
        let intr := Kraken._interval_to_kraken interval in
        let since := now - days * 86400 in
        snd (days_loop http pair intr max_bars 20 O since [])
    end.

End KrakenRest.

(** ** The Coinbase history adapter *)

Module CoinbaseRest.
Import PyStr Bars.

(** The [mappings] table of [_to_coinbase_symbol]. *)
Definition mappings : list (str * str) :=
  [ (lit "XBTUSD", lit "BTC-USD");
    (lit "XBT/USD", lit "BTC-USD");
    (lit "BTC/USD", lit "BTC-USD");
    (lit "ETH/USD", lit "ETH-USD");
    (lit "ADA/USD", lit "ADA-USD");
    (lit "SOL/USD", lit "SOL-USD");
    (lit "DOT/USD", lit "DOT-USD");
    (lit "LINK/USD", lit "LINK-USD");
    (lit "UNI/USD", lit "UNI-USD");
    (lit "MATIC/USD", lit "MATIC-USD");
    (lit "AVAX/USD", lit "AVAX-USD");
    (lit "LTC/USD", lit "LTC-USD") ].

(** [_to_coinbase_symbol] (crypto_coinbase.py, lines 13-46). *)
Definition _to_coinbase_symbol (symbol : str) : str :=
  match symbol with
  | [] => []
  | _ =>
      let s := upper symbol in
      match dict_get s mappings with
      | Some v => v
      | None =>
          if contains_char "/"%char symbol then replace (lit "/") (lit "-") (upper symbol)
          else if negb (contains_char "-"%char symbol) && (3 <=? length symbol)%nat
               then upper symbol ++ lit "-USD"
               else upper symbol
      end
  end.

(** [_interval_to_seconds]. *)
Definition _interval_to_seconds (interval : Z) : Z := interval * 60.

Inductive reply : Type :=
| TransportError
| NotAList
| Candles (rows : list (list cell)).

(** The upstream exchange: product and granularity of the request. *)
Definition upstream : Type := str -> Z -> reply.

(** The dict literal of lines 145-152: a Coinbase row is
    [timestamp, low, high, open, close, volume]. *)
Definition parse_candle (candle : list cell) : conv Bar :=
  bind (to_int (item candle 0)) (fun t =>
  bind (to_float (item candle 3)) (fun o =>
  bind (to_float (item candle 2)) (fun h =>
  bind (to_float (item candle 1)) (fun l =>
  bind (to_float (item candle 4)) (fun c =>
  bind (to_float (item candle 5)) (fun v =>
  inr (mkBar t o h l c v))))))).

Fixpoint parse_candles (data : list (list cell)) (result : list Bar) : conv (list Bar) :=
  match data with
  | [] => inr result
  | candle :: rest =>
      if (length candle <? 6)%nat then parse_candles rest result
      else match parse_candle candle with
           | inr b => parse_candles rest (result ++ [b])
           | inl ValueError => parse_candles rest result
           | inl OtherError => inl OtherError
           end
  end.

(** [fetch_coinbase_ohlc] (crypto_coinbase.py, lines 108-171): the rows
    are sorted by timestamp; nothing removes a repeated timestamp. *)
Definition fetch_coinbase_ohlc (http : upstream)
    (symbol : str) (interval limit : Z) : list Bar :=
  let coinbase_symbol := _to_coinbase_symbol symbol in
  match coinbase_symbol with
  | [] => []
  | _ =>
      let granularity := _interval_to_seconds interval in
      match http coinbase_symbol granularity with
      | TransportError => []
      | NotAList => []
      | Candles data =>
          match parse_candles (py_slice_to limit data) [] with
          | inr result => py_sorted ts result
          | inl _ => []
          end
      end
  end.

End CoinbaseRest.

(** ** The synthetic bar generator *)

Module MockStockData.
Import PyStr Bars.

(** What the generator takes from its surroundings: the timestamp of the
    market close it starts from (computed from [datetime.now()]), and the
    stream of [random.uniform(a, b)] draws that follows
    [random.seed(hash(symbol) % 1000)], by position in the stream. *)
Record env : Type := mkEnv
  { market_close : Z; uniform : str -> nat -> Q -> Q -> Q }.

Definition symbol_prices : list (str * Q) :=
  [
    (lit "AAPL", 150%Q); (lit "MSFT", 300%Q); (lit "GOOGL", 2500%Q); (lit "AMZN", 3000%Q);
    (lit "TSLA", 800%Q); (lit "META", 250%Q); (lit "NVDA", 400%Q); (lit "SPY", 420%Q);
    (lit "QQQ", 350%Q); (lit "JPM", 140%Q); (lit "V", 220%Q); (lit "JNJ", 160%Q);
    (lit "WMT", 140%Q); (lit "PG", 145%Q); (lit "HD", 300%Q); (lit "MA", 350%Q);
    (lit "DIS", 90%Q); (lit "ADBE", 500%Q); (lit "NFLX", 400%Q); (lit "KO", 60%Q);
    (lit "PEP", 170%Q); (lit "INTC", 30%Q); (lit "CSCO", 50%Q); (lit "VZ", 40%Q);
    (lit "T", 18%Q); (lit "XOM", 100%Q); (lit "CVX", 150%Q); (lit "BAC", 35%Q);
    (lit "WFC", 45%Q); (lit "UNH", 450%Q); (lit "PFE", 50%Q); (lit "ABT", 110%Q);
    (lit "TMO", 550%Q); (lit "LLY", 500%Q); (lit "IWM", 180%Q); (lit "DIA", 340%Q);
    (lit "VTI", 200%Q); (lit "VOO", 380%Q); (lit "BND", 80%Q); (lit "RGTI", 5%Q);
    (lit "RGT", 25%Q); (lit "GME", 20%Q); (lit "AMC", 8%Q); (lit "BB", 6%Q);
    (lit "NOK", 4%Q) ].

(** [round(x)], to the nearest integer and to the even one on a tie. *)
Definition round_half_even (q : Q) : Z :=
  let f := Qfloor q in
  let r := (q - inject_Z f)%Q in
  match (r ?= 1 # 2)%Q with
  | Lt => f
  | Gt => f + 1
  | Eq => if Z.even f then f else f + 1
  end.

(** [round(x, 2)]. *)
Definition round2 (q : Q) : Q := (inject_Z (round_half_even (q * 100)) / 100)%Q.

(** [int(x)]. *)
Definition int_of (q : Q) : Z := Z.quot (Qnum q) (Zpos (Qden q)).

Definition volatility (symbol : str) : Q :=
  if in_tuple symbol [lit "GME"; lit "AMC"; lit "BB"; lit "RGTI"; lit "RGT"] then 5 # 100
  else if in_tuple symbol [lit "TSLA"; lit "NVDA"] then 3 # 100
  else 2 # 100.

Definition base_volume (symbol : str) : Z :=
  if in_tuple symbol [lit "AAPL"; lit "MSFT"; lit "TSLA"; lit "SPY"; lit "QQQ"] then 50000000
  else if in_tuple symbol [lit "RGTI"; lit "RGT"; lit "BB"; lit "NOK"] then 100000
  else 1000000.

(** The body of [for i in range(count)] (lines 63-114): the bar of turn
    [i] and the price carried to the next turn. *)
Definition make_bar (e : env) (symbol : str) (interval : Z)
    (current_time : Z) (i : nat) (current_price : Q) : Bar * Q :=
  let vol := volatility symbol in
  let draw k a b := uniform e symbol (4 * i + k)%nat a b in
  let price_change_pct := draw 0%nat (- vol)%Q vol in
  let price_change := (current_price * price_change_pct)%Q in
  let new_close := Qmax (1 # 100) (current_price + price_change) in
  let high_extra := (draw 1%nat 0%Q (vol * (1 # 2)) * new_close)%Q in
  let low_extra := (draw 2%nat 0%Q (vol * (1 # 2)) * new_close)%Q in
  let open_price := current_price in
  let high_price := (Qmax open_price new_close + high_extra)%Q in
  let low_price := (Qmin open_price new_close - low_extra)%Q in
  let close_price := new_close in
  let high_price := Qmax (Qmax high_price open_price) close_price in
  let low_price := Qmin (Qmin low_price open_price) close_price in
  let volume_multiplier := draw 3%nat (3 # 10) 2%Q in
  let volume := int_of (inject_Z (base_volume symbol) * volume_multiplier) in
  (mkBar (current_time + Z.of_nat i * interval * 60)
         (round2 open_price) (round2 high_price) (round2 low_price)
         (round2 close_price) (inject_Z volume),
   close_price).

Fixpoint bars_from (e : env) (symbol : str) (interval current_time : Z)
    (n i : nat) (current_price : Q) : list Bar :=
  match n with
  | O => []
  | S n' =>
      let '(bar, next_price) := make_bar e symbol interval current_time i current_price in
      bar :: bars_from e symbol interval current_time n' (S i) next_price
  end.

(** [generate_realistic_ohlcv] (mock_stock_data.py, lines 10-116). *)
Definition generate_realistic_ohlcv (e : env) (symbol : str)
    (interval count : Z) (base_price : Q) : list Bar :=
  let current_time := market_close e in
  let current_price :=
    match dict_get symbol symbol_prices with
    | Some p => p
    | None => base_price
    end in
  bars_from e symbol interval current_time (Z.to_nat count) O current_price.

End MockStockData.

(** ** The crypto router *)

Module CryptoRouter.
Import PyStr Bars.

Definition PROVIDER_PRIORITY : list string :=
  ["binance"; "kraken"; "coinbase"; "yfinance"]%string.

(** Seconds between two requests to one provider. *)
Definition MIN_REQUEST_INTERVAL : Q := 2.

(** The module-level state, the wall clock, and the record of the
    provider attempts made so far — each with the time at which
    [_fetch_from_provider] let it through — oldest first. *)
Record state : Type := mkState
  { PROVIDER_HEALTH : gmap string bool;
    LAST_REQUEST_TIME : gmap string Q;
    clock : Q;
    attempts : list (string * Q) }.

(** The state in which the module is loaded. *)
Definition loaded (now : Q) : state :=
  mkState (list_to_map [("binance", true); ("kraken", true);
                        ("coinbase", true); ("yfinance", true)]%string)
          ∅ now [].

(** What the surroundings do during one request: the outcome of each
    adapter when awaited, how long the call to each provider takes, and by
    how much [asyncio.sleep] oversleeps while the request waits for it. *)
Record world : Type := mkWorld
  { binance_days : str -> Z -> Z -> outcome;        (* fetch_binance_ohlc_days *)
    kraken_days : str -> Z -> Z -> outcome;         (* fetch_ohlc_days_kraken *)
    coinbase_ohlc : option (str -> Z -> Z -> outcome);  (* fetch_coinbase_ohlc; [None]: ImportError *)
    yf_recent_ohlc : str -> Z -> Z -> outcome;      (* stocks_yfinance.fetch_recent_ohlc *)
    call_duration : string -> Q;
    sleep_overshoot : string -> Q }.

Definition yf_mappings : list (str * str) :=
  [ (lit "BTC/USD", lit "BTC-USD");
    (lit "ETH/USD", lit "ETH-USD");
    (lit "ADA/USD", lit "ADA-USD");
    (lit "SOL/USD", lit "SOL1-USD");
    (lit "DOT/USD", lit "DOT1-USD");
    (lit "LINK/USD", lit "LINK-USD");
    (lit "UNI/USD", lit "UNI3-USD");
    (lit "MATIC/USD", lit "MATIC-USD");
    (lit "AVAX/USD", lit "AVAX-USD");
    (lit "LTC/USD", lit "LTC-USD");
    (lit "XBT/USD", lit "BTC-USD");
    (lit "BCH/USD", lit "BCH-USD");
    (lit "ATOM/USD", lit "ATOM1-USD");
    (lit "ALGO/USD", lit "ALGO-USD");
    (lit "FIL/USD", lit "FIL-USD") ].

(** [_to_yfinance_crypto_symbol] (lines 123-152). *)
Definition _to_yfinance_crypto_symbol (symbol : str) : str :=
  let s := upper symbol in
  match dict_get s yf_mappings with
  | Some v => v
  | None =>
      if contains_char "/"%char symbol then replace (lit "/") (lit "-") (upper symbol)
      else upper symbol ++ lit "-USD"
  end.

(** [_fetch_yfinance_crypto] (lines 101-121): every exception inside the
    [try] becomes an empty list. *)
Definition _fetch_yfinance_crypto (w : world) (symbol : str) (interval days : Z) : outcome :=
  let yf_symbol := _to_yfinance_crypto_symbol symbol in
  if interval =? 0 then Returned []
  else
    let bars_per_day := 1440 / interval in
    let limit := days * bars_per_day in
    match yf_recent_ohlc w yf_symbol interval limit with
    | Returned data => Returned data
    | Raised => Returned []
    end.

(** The provider dispatch of [_fetch_from_provider] (lines 70-99). *)
Definition dispatch (w : world) (symbol : str) (interval days : Z) (provider : string) : outcome :=
  if String.eqb provider "binance" then binance_days w symbol interval days
  else if String.eqb provider "kraken" then kraken_days w symbol interval days
  else if String.eqb provider "coinbase" then
    match coinbase_ohlc w with
    | None => Returned []
    | Some fetch_coinbase_ohlc =>
        if interval =? 0 then Raised
        else
          let bars_needed := Z.min (days * (1440 / interval)) 300 in
          fetch_coinbase_ohlc symbol interval bars_needed
    end
  else if String.eqb provider "yfinance" then _fetch_yfinance_crypto w symbol interval days
  else Raised.

(** [a < b] on the clock. *)
Definition Qltb (a b : Q) : bool := negb (Qle_bool b a).

(** [await asyncio.sleep(wait_time)], waking [late] seconds after the
    requested time. *)
Definition sleep (wait_time late : Q) (st : state) : state :=
  mkState (PROVIDER_HEALTH st) (LAST_REQUEST_TIME st)
          (clock st + wait_time + late)%Q (attempts st).

(** [_fetch_from_provider] (lines 56-99). *)
Definition _fetch_from_provider (w : world) (symbol : str) (interval days : Z)
    (provider : string) (st : state) : outcome * state :=
  let now := clock st in
  let last_request := default 0%Q (LAST_REQUEST_TIME st !! provider) in
  let st :=
    if Qltb (now - last_request) MIN_REQUEST_INTERVAL then
      let wait_time := (MIN_REQUEST_INTERVAL - (now - last_request))%Q in
      sleep wait_time (sleep_overshoot w provider) st
    else st in
  let issued := clock st in
  let result := dispatch w symbol interval days provider in
  (result,
   mkState (PROVIDER_HEALTH st)
           (<[provider := issued]> (LAST_REQUEST_TIME st))
           (issued + call_duration w provider)%Q
           (attempts st ++ [(provider, issued)])).

(** [PROVIDER_HEALTH[prov] = True]. *)
Definition mark_healthy (prov : string) (st : state) : state :=
  mkState (<[prov := true]> (PROVIDER_HEALTH st)) (LAST_REQUEST_TIME st)
          (clock st) (attempts st).

(** The loop [for prov in healthy_providers] (lines 31-54); its handler
    [except Exception] catches every [Raised]. *)
Fixpoint try_providers (w : world) (symbol : str) (interval days : Z)
    (providers : list string) (st : state) : outcome * state :=
  match providers with
  | [] => (Returned [], st)
  | prov :: rest =>
      match _fetch_from_provider w symbol interval days prov st with
      | (Returned (b :: data), st') => (Returned (b :: data), mark_healthy prov st')
      | (Returned [], st') => try_providers w symbol interval days rest st'
      | (Raised, st') => try_providers w symbol interval days rest st'
      end
  end.

(** [[p for p in PROVIDER_PRIORITY if PROVIDER_HEALTH.get(p, True)]]. *)
Definition healthy_providers (st : state) : list string :=
  List.filter (fun p => default true (PROVIDER_HEALTH st !! p)) PROVIDER_PRIORITY.

(** [fetch_history_crypto] (lines 18-54). *)
Definition fetch_history_crypto (w : world) (symbol : str) (interval days : Z)
    (provider : string) (st : state) : outcome * state :=
  if negb (String.eqb provider "auto") then
    _fetch_from_provider w symbol interval days provider st
  else
    try_providers w symbol interval days (healthy_providers st) st.

(** [get_provider_health]: a copy of the table. *)
Definition get_provider_health (st : state) : gmap string bool := PROVIDER_HEALTH st.

(** [reset_provider_health]: [{p: True for p in PROVIDER_PRIORITY}]. *)
Definition reset_provider_health (st : state) : state :=
  mkState (list_to_map (map (fun p => (p, true)) PROVIDER_PRIORITY))
          (LAST_REQUEST_TIME st) (clock st) (attempts st).

(** The operations the router offers, and time passing between them. *)
Inductive request : Type :=
| FetchHistory (w : world) (symbol : str) (interval days : Z) (provider : string)
| GetProviderHealth
| ResetProviderHealth
| Elapse (seconds : Q).

Inductive response : Type :=
| History (o : outcome)
| Health (table : gmap string bool)
| Nothing.

Definition serve (r : request) (st : state) : response * state :=
  match r with
  | FetchHistory w symbol interval days provider =>
      let '(o, st') := fetch_history_crypto w symbol interval days provider st in
      (History o, st')
  | GetProviderHealth => (Health (get_provider_health st), st)
  | ResetProviderHealth => (Nothing, reset_provider_health st)
  | Elapse seconds =>
      (Nothing,
       mkState (PROVIDER_HEALTH st) (LAST_REQUEST_TIME st)
               (clock st + seconds)%Q (attempts st))
  end.

(** The state after a sequence of operations, one after the other. *)
Definition run (rs : list request) (st : state) : state :=
  fold_left (fun st r => snd (serve r st)) rs st.

(** The world in which the four adapters are the embedded ones, each on
    its own upstream exchange, called as the router calls them (with the
    default [max_bars] of 5000). *)
Definition exchanges (binance : BinanceRest.upstream) (kraken : KrakenRest.upstream)
    (now : Z) (coinbase : CoinbaseRest.upstream) (yf : str -> Z -> Z -> outcome)
    (duration late : string -> Q) : world :=
  mkWorld
    (fun symbol interval days =>
       BinanceRest.fetch_binance_ohlc_days binance symbol interval days 5000)
    (fun symbol interval days =>
       Returned (KrakenRest.fetch_ohlc_days_kraken kraken now symbol interval days 5000))
    (Some (fun symbol interval limit =>
             Returned (CoinbaseRest.fetch_coinbase_ohlc coinbase symbol interval limit)))
    yf duration late.

End CryptoRouter.

(** ** The stocks router *)

Module StocksRouter.
Import PyStr Bars.

Definition STOCK_PROVIDER_PRIORITY : list string :=
  ["polygon"; "yfinance_improved"; "finnhub"; "alpaca"; "yfinance"; "alpha_vantage"]%string.

Definition US_STOCK_SYMBOLS : list str :=
  [
    lit "AAPL"; lit "GOOGL"; lit "GOOG"; lit "AMZN"; lit "META"; lit "MSFT"; lit "NFLX"; lit "NVDA";
    lit "TSLA"; lit "ADBE"; lit "CRM"; lit "ORCL"; lit "IBM"; lit "INTC"; lit "AMD"; lit "QCOM";
    lit "CSCO"; lit "NOW"; lit "PYPL"; lit "SQ"; lit "SPOT"; lit "UBER"; lit "LYFT"; lit "ZOOM";
    lit "DOCU"; lit "ROKU"; lit "TWTR"; lit "SNAP"; lit "PINS"; lit "SHOP"; lit "JPM"; lit "BAC";
    lit "WFC"; lit "GS"; lit "MS"; lit "C"; lit "AXP"; lit "V"; lit "MA"; lit "BRK.A";
    lit "BRK.B"; lit "BLK"; lit "SCHW"; lit "USB"; lit "PNC"; lit "TFC"; lit "COF"; lit "DFS";
    lit "SYF"; lit "PYPL"; lit "JNJ"; lit "PFE"; lit "ABT"; lit "LLY"; lit "MRK"; lit "TMO";
    lit "DHR"; lit "BMY"; lit "AZN"; lit "NVS"; lit "UNH"; lit "CVS"; lit "ANTM"; lit "CI";
    lit "HUM"; lit "GILD"; lit "AMGN"; lit "BIIB"; lit "REGN"; lit "VRTX"; lit "MRNA"; lit "BA";
    lit "CAT"; lit "DE"; lit "GE"; lit "HON"; lit "MMM"; lit "UTX"; lit "RTX"; lit "LMT";
    lit "NOC"; lit "GD"; lit "TXT"; lit "EMR"; lit "ETN"; lit "PH"; lit "ROK"; lit "DOV";
    lit "ITW"; lit "CMI"; lit "FTV"; lit "WMT"; lit "HD"; lit "PG"; lit "KO"; lit "PEP";
    lit "NKE"; lit "MCD"; lit "SBUX"; lit "DIS"; lit "COST"; lit "TGT"; lit "LOW"; lit "TJX";
    lit "ROST"; lit "ULTA"; lit "LULU"; lit "RH"; lit "BBY"; lit "ETSY"; lit "W"; lit "CHWY";
    lit "XOM"; lit "CVX"; lit "COP"; lit "SLB"; lit "EOG"; lit "PXD"; lit "KMI"; lit "WMB";
    lit "OKE"; lit "VLO"; lit "MPC"; lit "PSX"; lit "HES"; lit "DVN"; lit "FANG"; lit "NEE";
    lit "DUK"; lit "SO"; lit "D"; lit "AEP"; lit "EXC"; lit "XEL"; lit "AMT"; lit "PLD";
    lit "CCI"; lit "EQIX"; lit "SPG"; lit "O"; lit "WELL"; lit "AVB"; lit "EQR"; lit "UDR";
    lit "ESS"; lit "MAA"; lit "CPT"; lit "AIV"; lit "EXR"; lit "PSA"; lit "CUBE"; lit "LIFE";
    lit "ACC"; lit "PEAK"; lit "SPY"; lit "QQQ"; lit "IWM"; lit "DIA"; lit "VTI"; lit "VTV";
    lit "VUG"; lit "VOO"; lit "VEA"; lit "VWO"; lit "BND"; lit "IEFA"; lit "IEMG"; lit "AGG";
    lit "LQD"; lit "HYG"; lit "JNK"; lit "TIP"; lit "VTEB"; lit "MUB"; lit "SHY"; lit "IEF";
    lit "TLT"; lit "NEM"; lit "FCX"; lit "VALE"; lit "RIO"; lit "BHP"; lit "AA"; lit "X";
    lit "CLF"; lit "NUE"; lit "STLD"; lit "RS"; lit "CF"; lit "MOS"; lit "FMC"; lit "LIN";
    lit "APD"; lit "ECL"; lit "SHW"; lit "PPG"; lit "NTR"; lit "IFF"; lit "UPS"; lit "FDX";
    lit "LUV"; lit "DAL"; lit "AAL"; lit "UAL"; lit "ALK"; lit "JBLU"; lit "SAVE"; lit "CSX";
    lit "UNP"; lit "NSC"; lit "KSU"; lit "CP"; lit "CNI"; lit "CHRW"; lit "EXPD"; lit "XPO";
    lit "ODFL"; lit "SAIA"; lit "T"; lit "VZ"; lit "TMUS"; lit "CHTR"; lit "CMCSA"; lit "DIS";
    lit "NFLX"; lit "FOXA"; lit "FOX"; lit "CBS"; lit "VIAC"; lit "DISC"; lit "DISCA"; lit "DISCK";
    lit "WBD"; lit "PARA"; lit "LYV"; lit "MSG"; lit "MSGS"; lit "RBLX" ].

Definition POPULAR_SMALL_MID_CAPS : list str :=
  [
    lit "PLTR"; lit "BB"; lit "NOK"; lit "AMC"; lit "GME"; lit "WISH"; lit "CLOV"; lit "SPCE";
    lit "DKNG"; lit "PENN"; lit "MGM"; lit "WYNN"; lit "LVS"; lit "CZR"; lit "BYD"; lit "F";
    lit "GM"; lit "LCID"; lit "RIVN"; lit "NIO"; lit "XPEV"; lit "LI" ].

Definition ALL_US_STOCKS : list str := US_STOCK_SYMBOLS ++ POPULAR_SMALL_MID_CAPS.

Definition is_upper_letter (c : ascii) : bool :=
  let n := N_of_ascii c in ((65 <=? n) && (n <=? 90))%N.

(** The text a pattern ending in [$] has to match in full: [$] also
    matches just before one final newline. *)
Definition before_final_newline (s : str) : str :=
  match rev s with
  | c :: r => if char_eqb c "010"%char then rev r else s
  | [] => s
  end.

(** [re.match(r'^[A-Z]{1,5}$', s)]. *)
Definition match_letters_1_5 (s : str) : bool :=
  let body := before_final_newline s in
  (1 <=? length body)%nat && (length body <=? 5)%nat && forallb is_upper_letter body.

(** [re.match(r'^[A-Z]{1,4}\.[A-Z]$', s)]. *)
Definition match_class_suffix (s : str) : bool :=
  let body := before_final_newline s in
  let '(stem, class) := split_once "."%char body in
  contains_char "."%char body
  && (1 <=? length stem)%nat && (length stem <=? 4)%nat && forallb is_upper_letter stem
  && (length class =? 1)%nat && forallb is_upper_letter class.

(** [_is_valid_stock_symbol] (lines 259-280). *)
Definition _is_valid_stock_symbol (symbol : str) : bool :=
  match symbol with
  | [] => false
  | _ =>
      let clean_symbol := fst (split_once "."%char (upper symbol)) in
      if in_tuple clean_symbol ALL_US_STOCKS then true
      else if match_letters_1_5 clean_symbol then true
      else if match_class_suffix (upper symbol) then true
      else false
  end.

(** The module-level state, the wall clock, and the record of the
    provider attempts made so far, oldest first.  The module keeps no
    time of last request. *)
Record state : Type := mkState
  { STOCK_PROVIDER_HEALTH : gmap string bool;
    clock : Q;
    attempts : list (string * Q) }.

Definition loaded (now : Q) : state :=
  mkState (list_to_map (map (fun p => (p, true)) STOCK_PROVIDER_PRIORITY)) now [].

(** What the surroundings do during one request: the outcome of the
    adapter of each provider when awaited, how long the call takes, and
    what the synthetic generator reads. *)
Record world : Type := mkWorld
  { adapter : string -> str -> Z -> Z -> outcome;
    call_duration : string -> Q;
    mock : MockStockData.env }.

Definition known_provider (provider : string) : bool :=
  existsb (String.eqb provider)
          ["yfinance_improved"; "finnhub"; "polygon"; "alpaca"; "yfinance"; "alpha_vantage"]%string.

(** The provider dispatch of [_fetch_from_stock_provider] (lines 152-182):
    the adapter of a known provider, [ValueError] for any other name. *)
Definition dispatch (w : world) (symbol : str) (interval days : Z) (provider : string) : outcome :=
  if known_provider provider then adapter w provider symbol interval days
  else Raised.

(** [_fetch_from_stock_provider] (lines 149-182). *)
Definition _fetch_from_stock_provider (w : world) (symbol : str) (interval days : Z)
    (provider : string) (st : state) : outcome * state :=
  let issued := clock st in
  let result := dispatch w symbol interval days provider in
  (result,
   mkState (STOCK_PROVIDER_HEALTH st)
           (issued + call_duration w provider)%Q
           (attempts st ++ [(provider, issued)])).

Definition mark_healthy (prov : string) (st : state) : state :=
  mkState (<[prov := true]> (STOCK_PROVIDER_HEALTH st)) (clock st) (attempts st).

(** The loop [for prov in healthy_providers] (lines 109-123); its handler
    [except Exception] catches every [Raised]; [None] when the loop runs
    out of providers. *)
Fixpoint try_providers (w : world) (symbol : str) (interval days : Z)
    (providers : list string) (st : state) : option (list Bar) * state :=
  match providers with
  | [] => (None, st)
  | prov :: rest =>
      match _fetch_from_stock_provider w symbol interval days prov st with
      | (Returned (b :: data), st') => (Some (b :: data), mark_healthy prov st')
      | (Returned [], st') => try_providers w symbol interval days rest st'
      | (Raised, st') => try_providers w symbol interval days rest st'
      end
  end.

Definition healthy_providers (st : state) : list string :=
  List.filter (fun p => default true (STOCK_PROVIDER_HEALTH st !! p)) STOCK_PROVIDER_PRIORITY.

(** The final fallback (lines 127-147). *)
Definition mock_fallback (w : world) (symbol : str) (interval days : Z) : list Bar :=
  let trading_minutes_per_day := 390 in
  if interval <? 1440 then
    if interval =? 0 then []
    else
      let bars_per_day := trading_minutes_per_day / interval in
      let bars_needed := Z.min (days * bars_per_day) 1000 in
      MockStockData.generate_realistic_ohlcv (mock w) symbol interval bars_needed 100
  else
    let bars_needed := Z.min days 1000 in
    MockStockData.generate_realistic_ohlcv (mock w) symbol interval bars_needed 100.

(** [fetch_stock_history] (lines 83-147). *)
Definition fetch_stock_history (w : world) (symbol : str) (interval days : Z)
    (provider : string) (st : state) : outcome * state :=
  if negb (_is_valid_stock_symbol symbol) then (Returned [], st)
  else if negb (String.eqb provider "auto") then
    _fetch_from_stock_provider w symbol interval days provider st
  else
    match try_providers w symbol interval days (healthy_providers st) st with
    | (Some data, st') => (Returned data, st')
    | (None, st') => (Returned (mock_fallback w symbol interval days), st')
    end.

(** The state after a sequence of history requests, one after the other. *)
Definition run (rs : list (world * str * Z * Z * string)) (st : state) : state :=
  fold_left (fun st '(w, symbol, interval, days, provider) =>
               snd (fetch_stock_history w symbol interval days provider st)) rs st.

End StocksRouter.

(** ** Vocabulary of the statements about merged pages *)

Module Merged.
Import Bars.

(** The last bar of [l] that carries timestamp [t]: with [l] the pages in
    the order they were fetched, the bar of the latest page that has one. *)
Fixpoint latest (t : Z) (l : list Bar) : option Bar :=
  match l with
  | [] => None
  | b :: r =>
      match latest t r with
      | Some x => Some x
      | None => if ts b =? t then Some b else None
      end
  end.

(** Adjacent bars have strictly increasing timestamps. *)
Definition adjacent_ascending (l : list Bar) : Prop :=
  forall (i : nat) (a b : Bar),
    l !! i = Some a -> l !! S i = Some b -> ts a < ts b.

(** P1 of the specification: strictly ascending, no timestamp twice. *)
Definition strictly_ascending (l : list Bar) : Prop :=
  adjacent_ascending l /\ NoDup (map ts l).

(** [R] is the last-write-wins merge of [all_data]: ascending by
    timestamp, and holding exactly the latest bar of every timestamp. *)
Definition last_write_wins (all_data R : list Bar) : Prop :=
  StronglySorted (fun a b => ts a < ts b) R /\
  forall b, In b R <-> latest (ts b) all_data = Some b.

(** A dict is well keyed when its keys are distinct and every bar sits
    under its own timestamp. *)
Definition well_keyed (d : list (Z * Bar)) : Prop :=
  NoDup (map fst d) /\ Forall (fun kv => ts (snd kv) = fst kv) d.

(** An adapter call that gives the router nothing: it raised, or it
    returned an empty list. *)
Definition no_data (o : outcome) : Prop := o = Raised \/ o = Returned [].

(** The bars an outcome carries. *)
Definition bars_of (o : outcome) : list Bar :=
  match o with
  | Returned bars => bars
  | Raised => []
  end.

End Merged.

(** ** Concrete upstream behaviours used in the examples *)

Module Scenario.
Import PyStr Bars.

(** A Kraken row [time, open, high, low, close, vwap, volume, count]. *)
Definition kraken_row (t close : Z) : list cell :=
  [ CNum (inject_Z t); CNum 99; CNum 110; CNum 95; CNum (inject_Z close);
    CNum 100; CNum 12; CNum 3 ].

(** Kraken answers every request with one page of two bars and no cursor. *)
Definition kraken_one_page : KrakenRest.upstream :=
  fun _ _ _ _ =>
    KrakenRest.Json (KrakenRest.mkBody false [kraken_row 1000 100; kraken_row 1060 101] None).

(** Two pages that both carry a bar at [ts = 1000]: the first with close
    100, the second, fetched later, with close 105. *)
Definition kraken_overlap : KrakenRest.upstream :=
  fun attempt _ _ _ =>
    match attempt with
    | O => KrakenRest.Json (KrakenRest.mkBody false [kraken_row 1000 100] (Some 1000))
    | _ => KrakenRest.Json
             (KrakenRest.mkBody false [kraken_row 1000 105; kraken_row 1060 106] None)
    end.

(** An empty first page whose cursor advances, then a page with one bar. *)
Definition kraken_gap : KrakenRest.upstream :=
  fun attempt _ _ _ =>
    match attempt with
    | O => KrakenRest.Json (KrakenRest.mkBody false [] (Some 7))
    | _ => KrakenRest.Json (KrakenRest.mkBody false [kraken_row 1000 100] None)
    end.

(** A Coinbase row [timestamp, low, high, open, close, volume]. *)
Definition coinbase_row (t close : Z) : list cell :=
  [ CNum (inject_Z t); CNum 95; CNum 110; CNum 99; CNum (inject_Z close); CNum 12 ].

(** Coinbase answers with two candles that carry the same timestamp. *)
Definition coinbase_repeats : CoinbaseRest.upstream :=
  fun _ _ => CoinbaseRest.Candles [coinbase_row 100 50; coinbase_row 100 51].

(** A Binance row [open time (ms), open, high, low, close, volume]. *)
Definition binance_row (t_ms close : Z) : list cell :=
  [ CNum (inject_Z t_ms); CNum 99; CNum 110; CNum 95; CNum (inject_Z close); CNum 12 ].

(** Binance answers every request with a page of one bar. *)
Definition binance_trickle : BinanceRest.upstream :=
  fun k _ _ _ => BinanceRest.Klines [binance_row (Z.of_nat k * 60000) 100].

Definition binance_down : BinanceRest.upstream := fun _ _ _ _ => BinanceRest.TransportError.
Definition kraken_down : KrakenRest.upstream := fun _ _ _ _ => KrakenRest.TransportError.

(** Binance and Kraken are unreachable, Coinbase answers as above, Yahoo
    has nothing; calls take no time. *)
Definition only_coinbase : CryptoRouter.world :=
  CryptoRouter.exchanges binance_down kraken_down 0 coinbase_repeats
                         (fun _ _ _ => Returned []) (fun _ => 0%Q) (fun _ => 0%Q).

(** Every crypto adapter fails: the first two raise, Coinbase returns
    nothing, Yahoo raises. *)
Definition crypto_all_down : CryptoRouter.world :=
  CryptoRouter.mkWorld (fun _ _ _ => Raised) (fun _ _ _ => Raised)
                       (Some (fun _ _ _ => Returned [])) (fun _ _ _ => Raised)
                       (fun _ => 0%Q) (fun _ => 0%Q).

Definition a_bar (t : Z) : Bar := mkBar t 99 110 95 100 12.

(** A generator environment: a fixed market close, and every draw at the
    lower end of its interval. *)
Definition mock_env : MockStockData.env :=
  MockStockData.mkEnv 1700000000 (fun _ _ a _ => a).

(** Every stock adapter returns twelve bars five minutes apart. *)
Definition stocks_up : StocksRouter.world :=
  StocksRouter.mkWorld
    (fun _ _ _ _ => Returned (map (fun k => a_bar (1000 + 300 * Z.of_nat k)) (seq 0 12)))
    (fun _ => 0%Q) mock_env.

(** Polygon raises, the improved Yahoo adapter returns twelve bars. *)
Definition stocks_second : StocksRouter.world :=
  StocksRouter.mkWorld
    (fun provider _ _ _ =>
       if String.eqb provider "polygon" then Raised
       else Returned (map (fun k => a_bar (1000 + 300 * Z.of_nat k)) (seq 0 12)))
    (fun _ => 0%Q) mock_env.

(** Every stock adapter raises. *)
Definition stocks_all_down : StocksRouter.world :=
  StocksRouter.mkWorld (fun _ _ _ _ => Raised) (fun _ => 0%Q) mock_env.

End Scenario.

(** ** Vocabulary of the statements about the pagination loops *)

Module Paging.
Import PyStr Bars.

(** The attempt number, cursor and accumulated bars with which the Kraken
    loop starts its [k]-th turn after the given one, when no turn before
    it left the loop. *)
Fixpoint kraken_reach (http : KrakenRest.upstream) (pair : str) (intr max_bars : Z)
    (k attempt : nat) (last : Z) (out : list Bar) : option (nat * Z * list Bar) :=
  match k with
  | O => Some (attempt, last, out)
  | S k' =>
      match KrakenRest.days_page http pair intr max_bars attempt last out with
      | KrakenRest.Continue out' new_last =>
          kraken_reach http pair intr max_bars k' (S attempt) new_last out'
      | KrakenRest.Break _ => None
      end
  end.

(** What makes a turn of the Kraken loop the last one: a failed exchange,
    an error list in the body, a non-empty page that raises while it is
    decoded or brings the accumulated count to [max_bars], or a cursor
    that is missing, zero or unchanged. *)
Definition kraken_leaves (r : KrakenRest.reply) (max_bars last : Z) (out : list Bar) : Prop :=
  match r with
  | KrakenRest.TransportError => True
  | KrakenRest.Json data =>
      KrakenRest.has_error data = true
      \/ (KrakenRest.series data <> []
          /\ (snd (KrakenRest.parse_rows (KrakenRest.series data) out) = true
              \/ max_bars <= Z.of_nat (length (fst (KrakenRest.parse_rows (KrakenRest.series data) out)))))
      \/ KrakenRest.last data = None
      \/ KrakenRest.last data = Some 0
      \/ KrakenRest.last data = Some last
  end.

(** The same for the Binance loop: turn number and accumulated bars. *)
Fixpoint binance_reach (http : BinanceRest.upstream) (symbol : str) (interval total : Z)
    (k i : nat) (all_data : list Bar) : option (nat * list Bar) :=
  match k with
  | O => Some (i, all_data)
  | S k' =>
      match BinanceRest.days_page http symbol interval total i all_data with
      | BinanceRest.Continue all_data' =>
          binance_reach http symbol interval total k' (S i) all_data'
      | _ => None
      end
  end.

End Paging.

(** ** Vocabulary of the statements about request spacing *)

Module Spacing.

(** In a record of attempts, oldest first, any two attempts on one
    provider lie at least [gap] seconds apart. *)
Definition spaced (gap : Q) (l : list (string * Q)) : Prop :=
  forall (i j : nat) (p : string) (t1 t2 : Q),
    (i < j)%nat -> l !! i = Some (p, t1) -> l !! j = Some (p, t2) -> (t1 + gap <= t2)%Q.

(** [asyncio.sleep] never wakes a request of the crypto router early. *)
Definition punctual (r : CryptoRouter.request) : Prop :=
  match r with
  | CryptoRouter.FetchHistory w _ _ _ _ =>
      forall p, (0 <= CryptoRouter.sleep_overshoot w p)%Q
  | _ => True
  end.

(** The record of attempts agrees with the times of last request: it is
    spaced, and no attempt on a provider is later than the time recorded
    for that provider. *)
Definition consistent (st : CryptoRouter.state) : Prop :=
  spaced CryptoRouter.MIN_REQUEST_INTERVAL (CryptoRouter.attempts st) /\
  forall p t, In (p, t) (CryptoRouter.attempts st) ->
              exists t', CryptoRouter.LAST_REQUEST_TIME st !! p = Some t' /\ (t <= t')%Q.

End Spacing.

(** ** Symbol validation of the crypto router, and market detection *)

Module CryptoSymbols.
Import PyStr.

Definition MAJOR_CRYPTO_BASES : list str :=
  [
    lit "BTC"; lit "XBT"; lit "ETH"; lit "BNB"; lit "ADA"; lit "SOL"; lit "XRP"; lit "DOT";
    lit "DOGE"; lit "AVAX"; lit "SHIB"; lit "MATIC"; lit "LTC"; lit "UNI"; lit "LINK"; lit "BCH";
    lit "ALGO"; lit "VET"; lit "ICP"; lit "FIL"; lit "TRX"; lit "ETC"; lit "XLM"; lit "MANA";
    lit "HBAR"; lit "THETA"; lit "SAND"; lit "AXS"; lit "NEAR"; lit "ATOM"; lit "FLOW"; lit "EOS";
    lit "XTZ"; lit "CHZ"; lit "AAVE"; lit "MKR"; lit "SNX"; lit "COMP"; lit "YFI"; lit "SUSHI";
    lit "GRT"; lit "ENJ"; lit "BAT"; lit "ZRX"; lit "CRV"; lit "REN"; lit "LRC"; lit "STORJ";
    lit "NMR"; lit "BAND"; lit "USDC"; lit "USDT"; lit "DAI"; lit "BUSD"; lit "LUNA"; lit "UST";
    lit "FTT"; lit "CRO"; lit "LEO"; lit "HT"; lit "OKB"; lit "MIOTA"; lit "XMR"; lit "XEM";
    lit "NEO"; lit "DASH"; lit "ZEC"; lit "QTUM"; lit "OMG"; lit "ZIL"; lit "ICX"; lit "LSK";
    lit "NANO"; lit "DGB"; lit "SC"; lit "MAID"; lit "STEEM"; lit "REP"; lit "KNC"; lit "ANT";
    lit "MLN"; lit "STORJ"; lit "GNT"; lit "SALT"; lit "POWR"; lit "RCN"; lit "MTL"; lit "SNT";
    lit "ADX"; lit "PAY"; lit "TNT"; lit "CFI"; lit "BNT"; lit "FUN"; lit "DNT"; lit "MYST";
    lit "WINGS"; lit "RLC"; lit "GUP"; lit "TKN"; lit "CAKE"; lit "CREAM"; lit "ALPHA"; lit "BAKE";
    lit "AUTO"; lit "ELF"; lit "FOR"; lit "SXP"; lit "HARD"; lit "XVS"; lit "VAI"; lit "WIN";
    lit "TWT"; lit "SFP"; lit "LINA"; lit "DEGO"; lit "NBS"; lit "PROS"; lit "LIT"; lit "SLP";
    lit "PHA"; lit "DODO"; lit "SWRV"; lit "JULB"; lit "BURGER"; lit "SPARTA"; lit "WATCH"; lit "BELT";
    lit "BOR"; lit "REEF"; lit "DEXE"; lit "DF"; lit "FIS"; lit "OM"; lit "POND"; lit "DEGO";
    lit "UNFI"; lit "CVP"; lit "RAMP"; lit "PEPE"; lit "FLOKI"; lit "BABYDOGE"; lit "SAFEMOON"; lit "ELONGATE";
    lit "CATGE"; lit "HOKK"; lit "KISHU"; lit "EMAX"; lit "HUSKY"; lit "ROCKETMOON"; lit "MOONSHOT"; lit "DIAMOND";
    lit "POODL"; lit "GRUMPY"; lit "CORGI"; lit "AKITA"; lit "CORGIB"; lit "SHIBAINU"; lit "DOGEFATHER"; lit "MARS";
    lit "MOON"; lit "ROCKET" ].

Definition VALID_QUOTE_CURRENCIES : list str :=
  [
    lit "USD"; lit "EUR"; lit "GBP"; lit "JPY"; lit "CAD"; lit "AUD"; lit "CHF"; lit "CNY";
    lit "KRW"; lit "BTC"; lit "ETH"; lit "BNB"; lit "USDT"; lit "USDC"; lit "DAI"; lit "BUSD";
    lit "UST" ].

(** [s.split(sep)] for a one-character separator: every piece between
    separators, empty ones included. *)
Fixpoint split (sep : ascii) (s : str) : list str :=
  match s with
  | [] => [[]]
  | c :: r =>
      if char_eqb sep c then [] :: split sep r
      else match split sep r with
           | h :: t => (c :: h) :: t
           | [] => [[c]]
           end
  end.

Definition is_upper_alnum (c : ascii) : bool :=
  let n := N_of_ascii c in
  (((65 <=? n) && (n <=? 90)) || ((48 <=? n) && (n <=? 57)))%N.

(** [re.match(r'^[A-Z0-9]{2,10}$', s)]; [$] also matches just before one
    final newline. *)
Definition match_alnum_2_10 (s : str) : bool :=
  let body := StocksRouter.before_final_newline s in
  (2 <=? length body)%nat && (length body <=? 10)%nat && forallb is_upper_alnum body.

(** [validate_crypto_symbol] (crypto_router.py, lines 295-324). *)
Definition validate_crypto_symbol (symbol : str) : bool :=
  if (length symbol <? 5)%nat then false
  else if negb (contains_char "/"%char symbol) then false
  else
    match split "/"%char symbol with
    | [base; quote] =>
        if (length base <? 2)%nat || (length quote <? 2)%nat then false
        else
          let base_upper := upper base in
          let quote_upper := upper quote in
          if in_tuple base_upper MAJOR_CRYPTO_BASES
             && in_tuple quote_upper VALID_QUOTE_CURRENCIES then true
          else if match_alnum_2_10 base_upper
                  && in_tuple quote_upper VALID_QUOTE_CURRENCIES then true
          else false
    | _ => false
    end.

End CryptoSymbols.

Module Api.
Import PyStr.

(** [is_stock_symbol] (stocks_router.py, lines 290-292). *)
Definition is_stock_symbol (symbol : str) : bool :=
  StocksRouter._is_valid_stock_symbol symbol.

(** The market detection of [api_history] (main.py, lines 456-474): the
    market the request is served from, ["stocks"] or ["crypto"]. *)
Definition detect_market (market : string) (symbol : str) : string :=
  if String.eqb market "stocks" || String.eqb market "stock" then "stocks"%string
  else if String.eqb market "crypto" || String.eqb market "cryptocurrency" then "crypto"%string
  else if is_stock_symbol symbol then "stocks"%string
  else if CryptoSymbols.validate_crypto_symbol symbol then "crypto"%string
  else "crypto"%string.

End Api.

(** ** The recent-bars Kraken adapter *)

Module KrakenRecent.
Import PyStr Bars.

(** The upstream exchange of [fetch_recent_ohlc_kraken]: pair and interval
    of the request. *)
Definition upstream : Type := str -> Z -> KrakenRest.reply.

(** [fetch_recent_ohlc_kraken] (crypto_kraken_rest.py, lines 81-154).  An
    exception raised while the rows are decoded ends the loop, and the rows
    decoded before it are returned. *)
Definition fetch_recent_ohlc_kraken (http : upstream)
    (symbol : str) (interval limit : Z) : list Bar :=
  if negb (Kraken._is_valid_symbol symbol) then []
  else
    let pair := Kraken._to_kraken_pair symbol in
    match pair with
    | [] => []
    | _ =>
        let intr := Kraken._interval_to_kraken interval in
        match http pair intr with
        | KrakenRest.TransportError => []
        | KrakenRest.Json data =>
            if KrakenRest.has_error data then []
            else
              match KrakenRest.series data with
              | [] => []
              | series => fst (KrakenRest.parse_rows (py_slice_last limit series) [])
              end
        end
    end.

End KrakenRecent.

(** ** Vocabulary of the statements about decoded rows *)

Module Rows.
Import PyStr Bars.

(** Adjacent bars have non-decreasing timestamps. *)
Definition weakly_ascending (l : list Bar) : Prop :=
  forall (i : nat) (a b : Bar),
    l !! i = Some a -> l !! S i = Some b -> ts a <= ts b.

(** The bar a row decodes to, if it is long enough and decodes. *)
Definition decoded (min_len : nat) (parse : list cell -> conv Bar) (row : list cell)
  : option Bar :=
  if (length row <? min_len)%nat then None
  else match parse row with
       | inr b => Some b
       | inl _ => None
       end.

(** The row is long enough and raises something other than [ValueError]. *)
Definition faults (min_len : nat) (parse : list cell -> conv Bar) (row : list cell) : bool :=
  if (length row <? min_len)%nat then false
  else match parse row with
       | inl OtherError => true
       | _ => false
       end.

(** The rows before the first one that satisfies [f]. *)
Fixpoint before_first {A : Type} (f : A -> bool) (l : list A) : list A :=
  match l with
  | [] => []
  | x :: r => if f x then [] else x :: before_first f r
  end.

(** No bar of [l1] shares a timestamp with a bar of [l2]. *)
Definition disjoint_timestamps (l1 l2 : list Bar) : Prop :=
  forall a b, In a l1 -> In b l2 -> ts a <> ts b.

End Rows.

(** ** Performance statistics of the crypto router *)

Module ProviderStats.

(** One entry of [self.stats]. *)
Record entry : Type := mkEntry
  { requests : Z; failures : Z; avg_time : Q }.

(** [ProviderStats.__init__] (crypto_router.py, lines 194-195). *)
Definition init : gmap string entry :=
  list_to_map (map (fun p => (p, mkEntry 0 0 0)) CryptoRouter.PROVIDER_PRIORITY).

(** [ProviderStats.record_request] (lines 197-205). *)
Definition record_request (provider : string) (success : bool) (duration : Q)
    (stats : gmap string entry) : gmap string entry :=
  match stats !! provider with
  | None => stats
  | Some e =>
      let requests' := requests e + 1 in
      let failures' := if success then failures e else failures e + 1 in
      let current_avg := avg_time e in
      let count := requests' in
      <[provider :=
          mkEntry requests' failures'
                  ((current_avg * inject_Z (count - 1) + duration) / inject_Z count)%Q]>
        stats
  end.

(** A series of calls for one provider, oldest first. *)
Definition record_all (provider : string) (calls : list (bool * Q))
    (stats : gmap string entry) : gmap string entry :=
  fold_left (fun st call => record_request provider (fst call) (snd call) st) calls stats.

(** The sum of the durations of the calls. *)
Definition total_time (calls : list (bool * Q)) : Q :=
  fold_right Qplus 0%Q (map snd calls).

(** The number of calls that failed. *)
Definition failed (calls : list (bool * Q)) : Z :=
  Z.of_nat (length (List.filter (fun call => negb (fst call)) calls)).

End ProviderStats.

(** ** The Yahoo interval mapper *)

Module Yahoo.

(** [_interval_to_yf] (stocks_yfinance.py, lines 11-16). *)
Definition _interval_to_yf (interval : Z) : string :=
  if interval <=? 1 then "1m"%string
  else if interval <=? 5 then "5m"%string
  else if interval <=? 15 then "15m"%string
  else if interval <=? 60 then "60m"%string
  else "1d"%string.

(** The resolutions these codes name, in minutes. *)
Definition resolutions : list (Z * string) :=
  [ (1, "1m"); (5, "5m"); (15, "15m"); (60, "60m"); (1440, "1d") ]%string.

End Yahoo.

(** ** Vocabulary of the statements about prices *)

Module Prices.
Import Bars.

(** The price relations of one bar: the low is at most the open and the
    close, the high at least both, and the close at least one cent. *)
Definition well_formed (b : Bar) : Prop :=
  (low b <= open b)%Q /\ (low b <= close b)%Q /\
  (open b <= high b)%Q /\ (close b <= high b)%Q /\
  (1 # 100 <= close b)%Q.

End Prices.

(** ** The interval mappers of the stock adapters *)

Module StockIntervals.

(** The resolution mapping of [fetch_finnhub_bars] (stocks_finnhub.py,
    lines 37-49). *)
Definition finnhub_resolution (interval : Z) : string :=
  if interval =? 1 then "1"%string
  else if interval =? 5 then "5"%string
  else if interval =? 15 then "15"%string
  else if interval =? 30 then "30"%string
  else if interval =? 60 then "60"%string
  else "D"%string.

(** The interval mapping of [fetch_polygon_bars] (stocks_polygon.py,
    lines 38-50): multiplier and timespan. *)
Definition polygon_timespan (interval : Z) : Z * string :=
  if interval =? 1 then (1, "minute"%string)
  else if interval =? 5 then (5, "minute"%string)
  else if interval =? 15 then (15, "minute"%string)
  else if interval =? 30 then (30, "minute"%string)
  else if interval =? 60 then (1, "hour"%string)
  else (1, "day"%string).

(** The interval mapping of [_fetch_alpha_vantage_bars] (stocks_router.py,
    lines 195-207). *)
Definition alpha_vantage_interval (interval : Z) : string :=
  if interval =? 1 then "1min"%string
  else if interval =? 5 then "5min"%string
  else if interval =? 15 then "15min"%string
  else if interval =? 30 then "30min"%string
  else if interval =? 60 then "60min"%string
  else "daily"%string.

(** The resolutions these codes name, in minutes. *)
Definition finnhub_resolutions : list (Z * string) :=
  [ (1, "1"); (5, "5"); (15, "15"); (30, "30"); (60, "60"); (1440, "D") ]%string.

Definition polygon_resolutions : list (Z * (Z * string)) :=
  [ (1, (1, "minute")); (5, (5, "minute")); (15, (15, "minute"));
    (30, (30, "minute")); (60, (1, "hour")); (1440, (1, "day")) ]%string.

Definition alpha_vantage_resolutions : list (Z * string) :=
  [ (1, "1min"); (5, "5min"); (15, "15min"); (30, "30min"); (60, "60min");
    (1440, "daily") ]%string.

(** [code] names the smallest resolution of [table] that is at least
    [request]. *)
Definition is_ceiling_entry {C : Type} (table : list (Z * C)) (request : Z) (code : C) : Prop :=
  exists m, In (m, code) table /\ request <= m /\
  forall m' c', In (m', c') table -> request <= m' -> m <= m'.

(** The intervals the three mappers know by name. *)
Definition listed (interval : Z) : Prop := In interval [1; 5; 15; 30; 60].

End StockIntervals.

(** ** The Finnhub adapter *)

Module Finnhub.
Import PyStr Bars.

(** The body of a candle reply: whether ["s"] is ["ok"], and the columns
    ["t"], ["o"], ["h"], ["l"], ["c"], ["v"].  A column the body lacks is
    an empty one here: reading either raises inside the [try]. *)
Record payload : Type := mkPayload
  { s_ok : bool;
    col_t : list cell; col_o : list cell; col_h : list cell;
    col_l : list cell; col_c : list cell; col_v : list cell }.

Inductive reply : Type :=
| TransportError                 (* the request or [json()] raised *)
| BadStatus                      (* a status other than 200 *)
| Json (data : payload).

(** What the adapter takes from its surroundings: whether the API key is
    configured, the window [(from, to)] computed from the clock for a
    number of days ([None] when the date arithmetic raises), and the
    upstream exchange: symbol, resolution and window of the request. *)
Record env : Type := mkEnv
  { key_configured : bool;
    window : Z -> option (Z * Z);
    http : str -> string -> Z -> Z -> reply }.

(** [f(col[i])]: [IndexError] past the end of the column. *)
Definition get {A : Type} (f : cell -> conv A) (col : list cell) (i : nat) : conv A :=
  match col !! i with
  | Some c => f c
  | None => inl OtherError
  end.

(** The dict literal of lines 84-91. *)
Definition row_at (data : payload) (i : nat) : conv Bar :=
  bind (get to_int (col_t data) i) (fun t =>
  bind (get to_float (col_o data) i) (fun o =>
  bind (get to_float (col_h data) i) (fun h =>
  bind (get to_float (col_l data) i) (fun l =>
  bind (get to_float (col_c data) i) (fun c =>
  bind (get to_int (col_v data) i) (fun v =>
  inr (mkBar t o h l c (inject_Z v)))))))).

(** The loop [for i in range(len(timestamps))] (lines 83-91). *)
Fixpoint rows (data : payload) (indices : list nat) (ohlc_data : list Bar)
  : conv (list Bar) :=
  match indices with
  | [] => inr ohlc_data
  | i :: rest =>
      match row_at data i with
      | inr b => rows data rest (ohlc_data ++ [b])
      | inl e => inl e
      end
  end.

(** [fetch_finnhub_bars] (stocks_finnhub.py, lines 13-103): every
    exception inside the [try] becomes an empty list. *)
Definition fetch_finnhub_bars (e : env) (symbol : str) (interval days : Z) : list Bar :=
  if negb (key_configured e) then []
  else
    match window e days with
    | None => []
    | Some (from, to) =>
        let resolution := StockIntervals.finnhub_resolution interval in
        match http e symbol resolution from to with
        | TransportError => []
        | BadStatus => []
        | Json data =>
            if negb (s_ok data) then []
            else
              match col_t data with
              | [] => []
              | timestamps =>
                  match rows data (seq 0 (length timestamps)) [] with
                  | inl _ => []
                  | inr ohlc_data => py_slice_last 1000 (py_sorted ts ohlc_data)
                  end
              end
        end
    end.

End Finnhub.

(** ** A Finnhub reply *)

Module FinnhubScenario.
Import PyStr Bars.

(** Two candles, the later one first. *)
Definition two_candles : Finnhub.payload :=
  Finnhub.mkPayload true
    [CNum 1700000300; CNum 1700000000]
    [CNum 101; CNum 100] [CNum 103; CNum 102] [CNum 99; CNum 98]
    [CNum 102; CNum 101] [CNum 5000; CNum 4000].

Definition up : Finnhub.env :=
  Finnhub.mkEnv true (fun days => Some (1700000300 - (days + 2) * 86400, 1700000300))
                (fun _ _ _ _ => Finnhub.Json two_candles).

End FinnhubScenario.

(* ===================================================================== *)
(** * Part II — theorems                                                 *)
(* ===================================================================== *)

Import PyStr.

(** ** Case mapping on ASCII characters *)

Section CaseMapping.

Lemma upper_char_idem (c : ascii) : upper_char (upper_char c) = upper_char c.
Proof. destruct c as [[] [] [] [] [] [] [] []]; reflexivity. Qed.

Lemma upper_lower_char (c : ascii) : upper_char (lower_char c) = upper_char c.
Proof. destruct c as [[] [] [] [] [] [] [] []]; reflexivity. Qed.

Lemma slash_upper_char (c : ascii) :
  char_eqb "/" (upper_char c) = char_eqb "/" c.
Proof. destruct c as [[] [] [] [] [] [] [] []]; reflexivity. Qed.

Lemma upper_idem (s : str) : upper (upper s) = upper s.
Proof.
  unfold upper. rewrite map_map. apply map_ext. intros c. apply upper_char_idem.
Qed.

Lemma upper_lower (s : str) : upper (lower s) = upper s.
Proof.
  unfold upper, lower. rewrite map_map. apply map_ext. intros c. apply upper_lower_char.
Qed.

Lemma contains_slash_upper (s : str) :
  contains_char "/" (upper s) = contains_char "/" s.
Proof.
  unfold contains_char, upper.
  induction s as [|c r IH]; cbn [map existsb]; [reflexivity|].
  rewrite slash_upper_char. f_equal. exact IH.
Qed.

Lemma split_once_upper (s : str) :
  split_once "/" (upper s) =
  (upper (fst (split_once "/" s)), upper (snd (split_once "/" s))).
Proof.
  unfold upper.
  induction s as [|c r IH]; cbn [map split_once]; [reflexivity|].
  rewrite slash_upper_char. destruct (char_eqb "/" c); [reflexivity|].
  rewrite IH. destruct (split_once "/" r) as [a b]. reflexivity.
Qed.

(** Both normalisers see their argument only through its upper-case form. *)
Lemma binance_symbol_upper (s : str) :
  Binance._to_binance_symbol (upper s) = Binance._to_binance_symbol s.
Proof.
  destruct s as [|c r]; [reflexivity|].
  unfold Binance._to_binance_symbol.
  change (upper (c :: r)) with (upper_char c :: upper r) at 1.
  cbv iota. rewrite upper_idem, contains_slash_upper, split_once_upper.
  destruct (split_once "/" (c :: r)) as [a b]. cbn [fst snd].
  rewrite !upper_idem. reflexivity.
Qed.

Lemma kraken_pair_upper (s : str) :
  Kraken._to_kraken_pair (upper s) = Kraken._to_kraken_pair s.
Proof.
  destruct s as [|c r]; [reflexivity|].
  unfold Kraken._to_kraken_pair.
  change (upper (c :: r)) with (upper_char c :: upper r) at 1.
  cbv iota. rewrite upper_idem, contains_slash_upper, split_once_upper.
  destruct (split_once "/" (c :: r)) as [a b]. cbn [fst snd].
  rewrite !upper_idem. reflexivity.
Qed.

End CaseMapping.

(** ** The embedding on code points against the embedding on ASCII text *)

Section CodePoints.
Import Unicode.

Lemma N_of_ascii_eqb (a b : ascii) : N.eqb (N_of_ascii a) (N_of_ascii b) = char_eqb a b.
Proof.
unfold char_eqb. destruct (Ascii.eqb_spec a b) as [->|Hne]; [apply N.eqb_refl|].
apply N.eqb_neq. intros Heq. apply Hne.
rewrite <- (ascii_N_embedding a), <- (ascii_N_embedding b), Heq. reflexivity.
Qed.

Lemma text_eqb_of_ascii (a b : str) :
  text_eqb N.eqb (of_ascii a) (of_ascii b) = str_eqb a b.
Proof.
revert b. induction a as [|x a IH]; intros [|y b]; cbn [of_ascii map text_eqb str_eqb];
  try reflexivity.
rewrite N_of_ascii_eqb. f_equal. apply IH.
Qed.

Lemma startswith_of_ascii (p s : str) :
  Unicode.startswith N.eqb (of_ascii p) (of_ascii s) = PyStr.startswith p s.
Proof.
revert s. induction p as [|x p IH]; intros [|y s];
  cbn [of_ascii map Unicode.startswith PyStr.startswith]; try reflexivity.
rewrite N_of_ascii_eqb. f_equal. apply IH.
Qed.

Lemma endswith_of_ascii (p s : str) :
  Unicode.endswith N.eqb (of_ascii p) (of_ascii s) = PyStr.endswith p s.
Proof.
unfold Unicode.endswith, PyStr.endswith, of_ascii. rewrite <- !map_rev.
apply startswith_of_ascii.
Qed.

Lemma contains_of_ascii (c : ascii) (s : str) :
  contains N.eqb (N_of_ascii c) (of_ascii s) = contains_char c s.
Proof.
unfold contains, contains_char, of_ascii.
induction s as [|x s IH]; cbn [map existsb]; [reflexivity|].
rewrite N_of_ascii_eqb, IH. reflexivity.
Qed.

Lemma length_of_ascii (s : str) : length (of_ascii s) = length s.
Proof. apply length_map. Qed.

Lemma of_ascii_app (a b : str) : of_ascii (a ++ b) = of_ascii a ++ of_ascii b.
Proof. apply map_app. Qed.

Lemma replace_from_of_ascii (old new : str) (skip : nat) (s : str) :
  Unicode.replace_from N.eqb (of_ascii old) (of_ascii new) skip (of_ascii s)
  = of_ascii (PyStr.replace_from old new skip s).
Proof.
revert skip. induction s as [|c r IH]; intros skip; [reflexivity|].
change (of_ascii (c :: r)) with (N_of_ascii c :: of_ascii r).
cbn [Unicode.replace_from PyStr.replace_from].
destruct skip as [|k]; [|apply IH].
change (N_of_ascii c :: of_ascii r) with (of_ascii (c :: r)).
rewrite startswith_of_ascii.
destruct (PyStr.startswith old (c :: r)).
- rewrite length_of_ascii, IH, of_ascii_app. reflexivity.
- rewrite IH. reflexivity.
Qed.

Lemma replace_of_ascii (old new s : str) :
  Unicode.replace N.eqb (of_ascii old) (of_ascii new) (of_ascii s)
  = of_ascii (PyStr.replace old new s).
Proof. apply replace_from_of_ascii. Qed.

Lemma replace_by_nothing_of_ascii (old s : str) :
  Unicode.replace N.eqb (of_ascii old) [] (of_ascii s) = of_ascii (PyStr.replace old [] s).
Proof. exact (replace_of_ascii old [] s). Qed.

Lemma split_once_of_ascii (sep : ascii) (s : str) :
  Unicode.split_once N.eqb (N_of_ascii sep) (of_ascii s)
  = (of_ascii (fst (PyStr.split_once sep s)), of_ascii (snd (PyStr.split_once sep s))).
Proof.
induction s as [|c r IH]; [reflexivity|].
cbn [of_ascii map Unicode.split_once PyStr.split_once].
rewrite N_of_ascii_eqb. destruct (char_eqb sep c); [reflexivity|].
fold (of_ascii r). rewrite IH. destruct (PyStr.split_once sep r) as [a b]. reflexivity.
Qed.

Lemma upper_cp_of_ascii (c : ascii) : upper_cp (N_of_ascii c) = N_of_ascii (upper_char c).
Proof. destruct c as [[] [] [] [] [] [] [] []]; reflexivity. Qed.

Lemma lower_cp_of_ascii (c : ascii) : lower_cp (N_of_ascii c) = N_of_ascii (lower_char c).
Proof. destruct c as [[] [] [] [] [] [] [] []]; reflexivity. Qed.

Lemma upper_of_ascii (s : str) : Unicode.upper (of_ascii s) = of_ascii (PyStr.upper s).
Proof.
unfold Unicode.upper, PyStr.upper, of_ascii. rewrite !map_map.
apply map_ext. exact upper_cp_of_ascii.
Qed.

Lemma lower_of_ascii (s : str) : Unicode.lower (of_ascii s) = of_ascii (PyStr.lower s).
Proof.
unfold Unicode.lower, PyStr.lower, of_ascii. rewrite !map_map.
apply map_ext. exact lower_cp_of_ascii.
Qed.

Lemma is_space_of_ascii (c : ascii) : Unicode.is_space (N_of_ascii c) = PyStr.is_space c.
Proof. reflexivity. Qed.

Lemma lstrip_of_ascii (s : str) : Unicode.lstrip (of_ascii s) = of_ascii (PyStr.lstrip s).
Proof.
induction s as [|c r IH]; [reflexivity|].
cbn [of_ascii map Unicode.lstrip PyStr.lstrip]. rewrite is_space_of_ascii.
destruct (PyStr.is_space c); [exact IH | reflexivity].
Qed.

Lemma strip_of_ascii (s : str) : Unicode.strip (of_ascii s) = of_ascii (PyStr.strip s).
Proof.
unfold Unicode.strip, PyStr.strip. rewrite lstrip_of_ascii.
unfold of_ascii at 1. rewrite <- map_rev. fold (of_ascii (rev (PyStr.lstrip s))).
rewrite lstrip_of_ascii. unfold of_ascii. rewrite map_rev. reflexivity.
Qed.

Lemma dict_get_of_ascii (k : str) (d : list (str * str)) :
  Unicode.dict_get N.eqb (of_ascii k)
                   (map (fun kv => (of_ascii (fst kv), of_ascii (snd kv))) d)
  = option_map of_ascii (PyStr.dict_get k d).
Proof.
induction d as [|[k' v] d IH]; [reflexivity|].
cbn [map fst snd Unicode.dict_get PyStr.dict_get]. rewrite text_eqb_of_ascii.
destruct (str_eqb k k'); [reflexivity | exact IH].
Qed.

Lemma covered_of_ascii (s : str) : is_ascii s = true -> forallb covered (of_ascii s) = true.
Proof.
unfold is_ascii, of_ascii. intros Hs.
rewrite forallb_forall in Hs |- *. intros n Hn.
apply in_map_iff in Hn as (c & <- & Hc). unfold covered.
rewrite (Hs c Hc). reflexivity.
Qed.

Lemma is_ascii_upper (s : str) : is_ascii s = true -> is_ascii (PyStr.upper s) = true.
Proof.
unfold is_ascii, PyStr.upper. intros Hs.
rewrite forallb_forall in Hs |- *. intros c' Hc'.
apply in_map_iff in Hc' as (c & <- & Hc). specialize (Hs c Hc). revert Hs.
destruct c as [[] [] [] [] [] [] [] []]; vm_compute; intros H; (exact H || reflexivity).
Qed.

Lemma is_ascii_lower (s : str) : is_ascii s = true -> is_ascii (PyStr.lower s) = true.
Proof.
unfold is_ascii, PyStr.lower. intros Hs.
rewrite forallb_forall in Hs |- *. intros c' Hc'.
apply in_map_iff in Hc' as (c & <- & Hc). specialize (Hs c Hc). revert Hs.
destruct c as [[] [] [] [] [] [] [] []]; vm_compute; intros H; (exact H || reflexivity).
Qed.

(** On ASCII text the normaliser on code points is the normaliser on
    ASCII text. *)
Lemma binance_symbol_of_ascii (s : str) :
  is_ascii s = true ->
  Unicode._to_binance_symbol (of_ascii s) = Some (of_ascii (Binance._to_binance_symbol s)).
Proof.
intros Hs. unfold Unicode._to_binance_symbol. rewrite (covered_of_ascii s Hs). cbn [negb].
destruct s as [|c r]; [reflexivity|].
change (of_ascii (c :: r)) with (N_of_ascii c :: of_ascii r) at 1. cbv iota.
change (N_of_ascii c :: of_ascii r) with (of_ascii (c :: r)).
unfold Binance._to_binance_symbol. cbv iota. unfold Unicode.lit, Unicode.mappings.
rewrite upper_of_ascii, !replace_by_nothing_of_ascii.
rewrite dict_get_of_ascii.
destruct (PyStr.dict_get _ Binance.mappings) as [v|]; [reflexivity|]. cbn [option_map].
rewrite !endswith_of_ascii.
destruct (PyStr.endswith (PyStr.lit "USD") _ && negb (PyStr.endswith (PyStr.lit "USDT") _)).
- rewrite replace_of_ascii. reflexivity.
- change 47%N with (N_of_ascii "/"). rewrite contains_of_ascii.
  destruct (contains_char "/" (c :: r)); [|reflexivity].
  rewrite split_once_of_ascii.
  destruct (PyStr.split_once "/" (c :: r)) as [a b]. cbn [fst snd].
  rewrite !upper_of_ascii, !strip_of_ascii, !text_eqb_of_ascii.
  destruct (str_eqb (PyStr.strip (PyStr.upper b)) (PyStr.lit "USD"));
    [unfold of_ascii; rewrite map_app; reflexivity|].
  destruct (str_eqb (PyStr.strip (PyStr.upper b)) (PyStr.lit "BTC"));
    unfold of_ascii; rewrite map_app; reflexivity.
Qed.

End CodePoints.

(** C7 (counterexample). Beyond ASCII the normaliser tells the two cases
    apart.  The symbol made of the Kelvin sign U+212A and "/usd" has the
    lower-case form "k/usd" and the upper-case form of the Kelvin sign and
    "/USD"; the Binance normaliser sends the first to "KUSDT" and the
    second to the Kelvin sign followed by "USDT". *)
Lemma normalization_tells_cases_apart_beyond_ascii :
  let symbol := Unicode.KELVIN_SIGN :: Unicode.lit "/usd" in
  forallb Unicode.covered symbol = true /\
  Unicode.lower symbol = Unicode.lit "k/usd" /\
  Unicode.upper symbol = Unicode.KELVIN_SIGN :: Unicode.lit "/USD" /\
  Unicode._to_binance_symbol (Unicode.lower symbol) = Some (Unicode.lit "KUSDT") /\
  Unicode._to_binance_symbol (Unicode.upper symbol)
  = Some (Unicode.KELVIN_SIGN :: Unicode.lit "USDT") /\
  Unicode._to_binance_symbol (Unicode.lower symbol)
  <> Unicode._to_binance_symbol (Unicode.upper symbol).
Proof.
cbv zeta. repeat split; try (vm_compute; reflexivity).
vm_compute. discriminate.
Qed.

(** C7 (amended). On ASCII symbols normalisation is a function of the
    symbol alone and ignores letter case: the Binance normaliser sends
    "BTC/USD" to "BTCUSDT", and for every symbol of ASCII characters the
    lower-case form and the upper-case form are normalised to the same
    provider-native symbol, for Binance and for Kraken alike (so "btc/usd"
    and "BTC/USD" agree).  On such symbols the Binance normaliser embedded
    on code points is the one embedded on ASCII text, and ignores letter
    case as well. *)
Theorem symbol_normalization_case_insensitive :
  Binance._to_binance_symbol (lit "BTC/USD") = lit "BTCUSDT" /\
  Binance._to_binance_symbol (lit "btc/usd") = Binance._to_binance_symbol (lit "BTC/USD") /\
  (forall s : str,
      is_ascii s = true ->
      Binance._to_binance_symbol (lower s) = Binance._to_binance_symbol (upper s)) /\
  (forall s : str,
      is_ascii s = true ->
      Kraken._to_kraken_pair (lower s) = Kraken._to_kraken_pair (upper s)) /\
  (forall s : str,
      is_ascii s = true ->
      Unicode._to_binance_symbol (Unicode.of_ascii s)
      = Some (Unicode.of_ascii (Binance._to_binance_symbol s)) /\
      Unicode._to_binance_symbol (Unicode.lower (Unicode.of_ascii s))
      = Unicode._to_binance_symbol (Unicode.upper (Unicode.of_ascii s))).
Proof.
  split; [vm_compute; reflexivity|].
  split; [vm_compute; reflexivity|].
  split; [|split]; intros s Hs.
  - rewrite <- (binance_symbol_upper (lower s)), upper_lower. reflexivity.
  - rewrite <- (kraken_pair_upper (lower s)), upper_lower. reflexivity.
  - split; [apply binance_symbol_of_ascii, Hs|].
    rewrite lower_of_ascii, upper_of_ascii.
    rewrite (binance_symbol_of_ascii _ (is_ascii_lower s Hs)).
    rewrite (binance_symbol_of_ascii _ (is_ascii_upper s Hs)).
    rewrite <- (binance_symbol_upper (lower s)), upper_lower. reflexivity.
Qed.

(** The symbol "eth/BTC", in mixed case. *)
Lemma symbol_normalization_case_insensitive_witness :
  Binance._to_binance_symbol (lower (lit "eth/BTC"))
  = Binance._to_binance_symbol (upper (lit "eth/BTC")) /\
  Kraken._to_kraken_pair (lower (lit "eth/BTC"))
  = Kraken._to_kraken_pair (upper (lit "eth/BTC")) /\
  Unicode._to_binance_symbol (Unicode.of_ascii (lit "eth/BTC"))
  = Some (Unicode.of_ascii (Binance._to_binance_symbol (lit "eth/BTC"))).
Proof.
split; [|split].
- apply (proj1 (proj2 (proj2 symbol_normalization_case_insensitive)) (lit "eth/BTC")).
  vm_compute. reflexivity.
- apply (proj1 (proj2 (proj2 (proj2 symbol_normalization_case_insensitive)))
           (lit "eth/BTC")).
  vm_compute. reflexivity.
- apply (proj2 (proj2 (proj2 (proj2 symbol_normalization_case_insensitive)))
           (lit "eth/BTC")).
  vm_compute. reflexivity.
Defined.

(** ** Interval mapping *)

Section IntervalMapping.
Import Ceiling.

Local Ltac split_thresholds :=
  repeat match goal with
         | |- context [?a <=? ?b] => destruct (Z.leb_spec a b)
         end.

Lemma kraken_interval_clamped_ceiling (interval : Z) :
  is_ceiling Kraken.resolutions (Z.min interval 21600)
             (Kraken._interval_to_kraken interval).
Proof.
  unfold is_ceiling, Kraken._interval_to_kraken, Kraken.resolutions.
  split_thresholds;
    (split; [cbn; tauto | split; [lia |]]);
    intros r Hr Hle; cbn in Hr; intuition lia.
Qed.

Lemma binance_interval_clamped_ceiling (interval : Z) :
  is_ceiling_code Binance.resolutions (Z.min interval 40320)
                  (Binance._interval_to_binance interval).
Proof.
  unfold is_ceiling_code, Binance._interval_to_binance, Binance.resolutions.
  split_thresholds;
    (eexists; split; [cbn; eauto 20 | split; [lia |]]);
    intros m' c' Hin Hle; cbn in Hin;
    repeat (destruct Hin as [Hin | Hin]; [inversion Hin; subst; lia |]);
    destruct Hin.
Qed.

End IntervalMapping.

(** C5 (counterexample). A request above the provider's largest resolution
    is not mapped to a resolution that is at least the request: Kraken's
    mapper sends 30000 minutes to 21600. *)
Lemma interval_ceiling_fails_above_largest :
  Kraken._interval_to_kraken 30000 = 21600 /\
  ~ Ceiling.is_ceiling Kraken.resolutions 30000 (Kraken._interval_to_kraken 30000).
Proof.
  split; [reflexivity|].
  intros (_ & Hle & _). vm_compute in Hle. apply Hle. reflexivity.
Qed.

(** C5 (amended). Both interval mappers are total and implement the ceiling
    policy on the request clamped to the provider's largest resolution: the
    result is the smallest supported resolution that is at least
    min(request, largest) — the ceiling proper for every request up to the
    largest resolution (21600 minutes for Kraken, the month for Binance),
    and the largest resolution beyond it.  In particular 7 maps to 15,
    60 to 60 and 1 to 1. *)
Theorem interval_ceiling_clamped :
  (forall interval : Z,
      Ceiling.is_ceiling Kraken.resolutions (Z.min interval 21600)
                         (Kraken._interval_to_kraken interval)) /\
  (forall interval : Z,
      Ceiling.is_ceiling_code Binance.resolutions (Z.min interval 40320)
                              (Binance._interval_to_binance interval)) /\
  Kraken._interval_to_kraken 7 = 15 /\
  Kraken._interval_to_kraken 60 = 60 /\
  Kraken._interval_to_kraken 1 = 1 /\
  Kraken._interval_to_kraken 10 = 15 /\
  Binance._interval_to_binance 7 = "15m"%string /\
  Binance._interval_to_binance 60 = "1h"%string /\
  Binance._interval_to_binance 1 = "1m"%string.
Proof.
  split; [exact kraken_interval_clamped_ceiling|].
  split; [exact binance_interval_clamped_ceiling|].
  repeat split; reflexivity.
Qed.

(** ** The dictionary keyed by timestamp *)

Section DictByTs.
Import Bars Merged.

Lemma dict_find_set {V : Type} (d : list (Z * V)) (k k' : Z) (v : V) :
  dict_find k (dict_set d k' v) = if k' =? k then Some v else dict_find k d.
Proof.
  induction d as [|[k0 v0] d IH]; cbn [dict_set dict_find].
  - reflexivity.
  - destruct (Z.eqb_spec k0 k') as [->|Hne]; cbn [dict_find].
    + destruct (k' =? k); reflexivity.
    + rewrite IH. destruct (Z.eqb_spec k0 k) as [->|Hne'].
      * destruct (Z.eqb_spec k' k); [congruence | reflexivity].
      * reflexivity.
Qed.

Lemma dict_set_keys {V : Type} (d : list (Z * V)) (k : Z) (v : V) (x : Z) :
  In x (map fst (dict_set d k v)) <-> x = k \/ In x (map fst d).
Proof.
  induction d as [|[k0 v0] d IH]; cbn [dict_set map fst In].
  - intuition.
  - destruct (Z.eqb_spec k0 k) as [->|Hne]; cbn [map fst In].
    + intuition.
    + rewrite IH. intuition.
Qed.

Lemma dict_set_NoDup {V : Type} (d : list (Z * V)) (k : Z) (v : V) :
  NoDup (map fst d) -> NoDup (map fst (dict_set d k v)).
Proof.
  induction d as [|[k0 v0] d IH]; cbn [dict_set map fst]; intros Hnd.
  - constructor; [rewrite list_elem_of_In; intros [] | constructor].
  - apply NoDup_cons in Hnd as [Hnotin Hnd].
    rewrite list_elem_of_In in Hnotin.
    destruct (Z.eqb_spec k0 k) as [->|Hne]; cbn [map fst].
    + apply NoDup_cons. rewrite list_elem_of_In. auto.
    + apply NoDup_cons. rewrite list_elem_of_In. split; [|auto].
      rewrite dict_set_keys. intuition.
Qed.

Lemma dict_set_well_keyed (d : list (Z * Bar)) (b : Bar) :
  well_keyed d -> well_keyed (dict_set d (ts b) b).
Proof.
  intros [Hnd Hts]. split; [apply dict_set_NoDup, Hnd|].
  clear Hnd. induction d as [|[k0 v0] d IH]; cbn [dict_set].
  - repeat constructor.
  - apply Forall_cons in Hts as [H0 Hts].
    destruct (Z.eqb_spec k0 (ts b)); apply Forall_cons; split; auto.
Qed.

Lemma dict_find_In (d : list (Z * Bar)) (k : Z) (v : Bar) :
  NoDup (map fst d) -> (dict_find k d = Some v <-> In (k, v) d).
Proof.
  induction d as [|[k0 v0] d IH]; cbn [dict_find map fst In]; intros Hnd.
  - split; [discriminate | tauto].
  - apply NoDup_cons in Hnd as [Hnotin Hnd].
    rewrite list_elem_of_In in Hnotin.
    destruct (Z.eqb_spec k0 k) as [->|Hne].
    + split.
      * intros [= ->]. auto.
      * intros [[= ->]|Hin]; [reflexivity|].
        exfalso. apply Hnotin. apply in_map_iff. exists (k, v). auto.
    + rewrite IH by exact Hnd. split; [auto|].
      intros [[= -> ->]|Hin]; [congruence | exact Hin].
Qed.

Lemma fold_dict_set_find (l : list Bar) (d : list (Z * Bar)) (k : Z) :
  dict_find k (fold_left (fun d b => dict_set d (ts b) b) l d) =
  match latest k l with
  | Some x => Some x
  | None => dict_find k d
  end.
Proof.
  revert d. induction l as [|b l IH]; intros d; cbn [fold_left latest].
  - reflexivity.
  - rewrite IH, dict_find_set.
    destruct (latest k l); [reflexivity|]. destruct (ts b =? k); reflexivity.
Qed.

Lemma fold_dict_set_well_keyed (l : list Bar) (d : list (Z * Bar)) :
  well_keyed d -> well_keyed (fold_left (fun d b => dict_set d (ts b) b) l d).
Proof.
  revert d. induction l as [|b l IH]; intros d Hd; cbn [fold_left].
  - exact Hd.
  - apply IH, dict_set_well_keyed, Hd.
Qed.

Lemma dict_by_ts_find (l : list Bar) (k : Z) :
  dict_find k (dict_by_ts l) = latest k l.
Proof.
  unfold dict_by_ts. rewrite fold_dict_set_find.
  destruct (latest k l); reflexivity.
Qed.

Lemma dict_by_ts_well_keyed (l : list Bar) : well_keyed (dict_by_ts l).
Proof.
  apply fold_dict_set_well_keyed. split; [constructor | constructor].
Qed.

Lemma latest_ts (t : Z) (l : list Bar) (b : Bar) :
  latest t l = Some b -> ts b = t.
Proof.
  induction l as [|x l IH]; cbn [latest]; [discriminate|].
  destruct (latest t l) as [y|].
  - intros [= <-]. apply IH. reflexivity.
  - destruct (Z.eqb_spec (ts x) t); [intros [= <-]; assumption | discriminate].
Qed.

(** The values of the dict are exactly the latest bars. *)
Lemma dict_by_ts_values (l : list Bar) (b : Bar) :
  In b (map snd (dict_by_ts l)) <-> latest (ts b) l = Some b.
Proof.
  destruct (dict_by_ts_well_keyed l) as [Hnd Hts].
  rewrite <- dict_by_ts_find, dict_find_In by exact Hnd.
  rewrite in_map_iff. split.
  - intros ([k v] & Hv & Hin). cbn in Hv. subst v.
    rewrite Forall_forall in Hts. specialize (Hts (k, b)).
    rewrite list_elem_of_In in Hts. specialize (Hts Hin). cbn in Hts.
    rewrite Hts. exact Hin.
  - intros Hin. exists (ts b, b). auto.
Qed.

Lemma dict_by_ts_values_NoDup (l : list Bar) :
  NoDup (map ts (map snd (dict_by_ts l))).
Proof.
  destruct (dict_by_ts_well_keyed l) as [Hnd Hts].
  replace (map ts (map snd (dict_by_ts l))) with (map fst (dict_by_ts l)); [exact Hnd|].
  rewrite map_map. apply map_ext_in. intros kv Hin.
  rewrite Forall_forall in Hts. symmetry. apply Hts.
  rewrite list_elem_of_In. exact Hin.
Qed.

End DictByTs.

(** ** Sorting by timestamp *)

Section Sorting.
Import Bars Merged.
Context {A : Type} (key : A -> Z).

Lemma insert_sorted_In (x y : A) (l : list A) :
  In y (insert_sorted key x l) <-> y = x \/ In y l.
Proof.
  induction l as [|z l IH]; cbn [insert_sorted In].
  - intuition.
  - destruct (key x <=? key z); cbn [In]; [intuition | rewrite IH; intuition].
Qed.

Lemma py_sorted_In (y : A) (l : list A) :
  In y (py_sorted key l) <-> In y l.
Proof.
  induction l as [|x l IH]; cbn [py_sorted In]; [tauto|].
  rewrite insert_sorted_In, IH. intuition.
Qed.

Lemma py_sorted_length (l : list A) : length (py_sorted key l) = length l.
Proof.
  assert (Hins : forall x l', length (insert_sorted key x l') = S (length l')).
  { intros x l'. induction l' as [|z l' IH]; cbn [insert_sorted]; [reflexivity|].
    destruct (key x <=? key z); cbn [length]; [reflexivity | rewrite IH; reflexivity]. }
  induction l as [|x l IH]; cbn [py_sorted]; [reflexivity|].
  rewrite Hins, IH. reflexivity.
Qed.

Lemma insert_sorted_strict (x : A) (l : list A) :
  StronglySorted (fun a b : A => key a < key b) l ->
  (forall y, In y l -> key y <> key x) ->
  StronglySorted (fun a b : A => key a < key b) (insert_sorted key x l).
Proof.
  induction l as [|z l IH]; cbn [insert_sorted]; intros Hs Hne.
  - repeat constructor.
  - apply StronglySorted_inv in Hs as [Hs Hz].
    assert (Hzx : key z <> key x) by (apply Hne; left; reflexivity).
    destruct (Z.leb_spec (key x) (key z)) as [Hle|Hgt].
    + constructor; [constructor; assumption|].
      constructor; [lia|].
      rewrite Forall_forall in Hz |- *. intros w Hw. specialize (Hz w Hw). cbn in Hz. lia.
    + constructor.
      * apply IH; [exact Hs | intros y Hy; apply Hne; right; exact Hy].
      * rewrite Forall_forall in Hz |- *. intros w Hw.
        rewrite list_elem_of_In, insert_sorted_In in Hw.
        destruct Hw as [->|Hw]; [lia|].
        apply Hz. rewrite list_elem_of_In. exact Hw.
Qed.

Lemma py_sorted_strict (l : list A) :
  NoDup (map key l) -> StronglySorted (fun a b : A => key a < key b) (py_sorted key l).
Proof.
  induction l as [|x l IH]; cbn [py_sorted map]; intros Hnd.
  - constructor.
  - apply NoDup_cons in Hnd as [Hnotin Hnd].
    apply insert_sorted_strict; [apply IH, Hnd|].
    intros y Hy Heq. apply Hnotin. rewrite list_elem_of_In, <- Heq.
    apply in_map. apply py_sorted_In. exact Hy.
Qed.

Lemma StronglySorted_drop (n : nat) (l : list A) :
  StronglySorted (fun a b : A => key a < key b) l -> StronglySorted (fun a b : A => key a < key b) (drop n l).
Proof.
  revert l. induction n as [|n IH]; intros l Hs; [rewrite drop_0; exact Hs|].
  destruct l as [|x l]; [constructor|].
  cbn [drop]. apply IH. apply StronglySorted_inv in Hs as [Hs _]. exact Hs.
Qed.

Lemma StronglySorted_slice_last (m : Z) (l : list A) :
  StronglySorted (fun a b : A => key a < key b) l -> StronglySorted (fun a b : A => key a < key b) (py_slice_last m l).
Proof. intros Hs. unfold py_slice_last, py_slice_from. apply StronglySorted_drop, Hs. Qed.

(** For a positive [m], [l[-m:]] is the last [m] elements of [l]. *)
Lemma py_slice_last_positive (m : Z) (l : list A) :
  0 < m -> py_slice_last m l = drop (length l - Z.to_nat m) l.
Proof.
  intros Hm. unfold py_slice_last, py_slice_from.
  destruct (Z.ltb_spec (- m) 0); [|lia]. f_equal. lia.
Qed.

(** For [m = 0], [l[-0:]] is the whole list. *)
Lemma py_slice_last_zero (l : list A) : py_slice_last 0 l = l.
Proof.
  unfold py_slice_last, py_slice_from. cbn. rewrite Z.min_l by lia. reflexivity.
Qed.

End Sorting.

Section Ascending.
Import Bars Merged.

Lemma sorted_adjacent_ascending (l : list Bar) :
  StronglySorted (fun a b => ts a < ts b) l -> adjacent_ascending l.
Proof.
  induction 1 as [|x l Hs IH Hx]; intros i a b Ha Hb.
  - rewrite lookup_nil in Ha. discriminate.
  - destruct i as [|i]; cbn in Ha, Hb.
    + injection Ha as <-. rewrite Forall_forall in Hx. apply Hx.
      eapply list_elem_of_lookup_2. exact Hb.
    + eapply IH; eassumption.
Qed.

Lemma sorted_NoDup_ts (l : list Bar) :
  StronglySorted (fun a b => ts a < ts b) l -> NoDup (map ts l).
Proof.
  induction 1 as [|x l Hs IH Hx]; cbn [map]; [constructor|].
  apply NoDup_cons. split; [|exact IH].
  rewrite list_elem_of_In, in_map_iff. intros (y & Hy & Hin).
  rewrite Forall_forall in Hx. specialize (Hx y).
  rewrite list_elem_of_In in Hx. specialize (Hx Hin). cbn in Hx. lia.
Qed.

Lemma sorted_strictly_ascending (l : list Bar) :
  StronglySorted (fun a b => ts a < ts b) l -> strictly_ascending l.
Proof.
  intros Hs. split; [apply sorted_adjacent_ascending | apply sorted_NoDup_ts]; exact Hs.
Qed.

Lemma latest_app (t : Z) (l1 l2 : list Bar) :
  latest t (l1 ++ l2) =
  match latest t l2 with
  | Some x => Some x
  | None => latest t l1
  end.
Proof.
  induction l1 as [|b l1 IH]; cbn [app latest].
  - destruct (latest t l2); reflexivity.
  - rewrite IH. destruct (latest t l2); reflexivity.
Qed.

(** With the pages concatenated in the order they were fetched, the
    latest bar of a timestamp is the one of the last page that has it. *)
Lemma latest_of_pages (t : Z) (earlier later : list (list Bar)) (page : list Bar) (b : Bar) :
  latest t page = Some b ->
  Forall (fun p => latest t p = None) later ->
  latest t (concat (earlier ++ page :: later)) = Some b.
Proof.
  intros Hb Hlater. rewrite concat_app, latest_app. cbn [concat].
  rewrite latest_app.
  assert (Hnone : latest t (concat later) = None).
  { induction Hlater as [|p later Hp _ IH]; cbn [concat]; [reflexivity|].
    rewrite latest_app, IH. exact Hp. }
  rewrite Hnone, Hb. reflexivity.
Qed.

End Ascending.

(** ** The two merges *)

Section Merges.
Import Bars Merged.

Lemma omap_insert_sorted (f : Z -> option Bar) (k : Z) (b : Bar) (ks : list Z) :
  f k = Some b -> ts b = k ->
  Forall (fun k' => exists b', f k' = Some b' /\ ts b' = k') ks ->
  omap f (insert_sorted id k ks) = insert_sorted ts b (omap f ks).
Proof.
  intros Hk Hb. unfold omap in *.
  induction 1 as [|k' ks (b' & Hk' & Hb') _ IH]; cbn [insert_sorted list_omap].
  - rewrite Hk. reflexivity.
  - unfold id at 1 2. rewrite Hk'. cbn [insert_sorted].
    rewrite Hb, Hb'. destruct (k <=? k'); cbn [list_omap].
    + rewrite Hk, Hk'. reflexivity.
    + rewrite Hk', IH. reflexivity.
Qed.

Lemma omap_agree (f g : Z -> option Bar) (ks : list Z) :
  (forall x, In x ks -> f x = g x) -> omap f ks = omap g ks.
Proof.
  unfold omap. induction ks as [|x ks IH]; cbn [list_omap]; intros Hfg; [reflexivity|].
  rewrite (Hfg x) by (left; reflexivity).
  rewrite IH by (intros y Hy; apply Hfg; right; exact Hy). reflexivity.
Qed.

Lemma omap_find_cons (k : Z) (v : Bar) (d : list (Z * Bar)) (ks : list Z) :
  ~ In k ks ->
  omap (fun x => dict_find x ((k, v) :: d)) ks = omap (fun x => dict_find x d) ks.
Proof.
  intros Hnot. apply omap_agree. intros x Hx. cbn [dict_find].
  destruct (Z.eqb_spec k x) as [->|Hne]; [tauto | reflexivity].
Qed.

(** Looking the sorted keys up and sorting the values give one list. *)
Lemma sorted_keys_lookup (d : list (Z * Bar)) :
  well_keyed d ->
  omap (fun k => dict_find k d) (py_sorted id (map fst d)) = py_sorted ts (map snd d).
Proof.
  induction d as [|[k v] d IH]; intros [Hnd Hts]; [reflexivity|].
  cbn [map fst snd py_sorted] in *.
  apply NoDup_cons in Hnd as [Hnotin Hnd].
  apply Forall_cons in Hts as [Hv Hts]. cbn in Hv.
  rewrite list_elem_of_In in Hnotin.
  rewrite (omap_insert_sorted _ k v).
  - rewrite omap_find_cons; [rewrite IH by (split; assumption); reflexivity|].
    rewrite py_sorted_In. exact Hnotin.
  - cbn [dict_find]. rewrite Z.eqb_refl. reflexivity.
  - exact Hv.
  - rewrite Forall_forall. intros k' Hk'.
    rewrite list_elem_of_In, py_sorted_In, in_map_iff in Hk'.
    destruct Hk' as ([k0 v0] & Hk0 & Hin). cbn in Hk0. subst k0.
    exists v0. rewrite Forall_forall in Hts. specialize (Hts (k', v0)).
    rewrite list_elem_of_In in Hts. specialize (Hts Hin). cbn in Hts.
    split; [|exact Hts].
    cbn [dict_find]. destruct (Z.eqb_spec k k') as [->|Hne].
    + exfalso. apply Hnotin. apply in_map_iff. exists (k', v0). auto.
    + apply dict_find_In; assumption.
Qed.

(** The Kraken merge and the Binance merge are one function. *)
Lemma kraken_merge_is_binance_merge (max_bars : Z) (all_data : list Bar) :
  KrakenRest.merge max_bars all_data = BinanceRest.merge max_bars all_data.
Proof.
  unfold KrakenRest.merge, BinanceRest.merge.
  destruct all_data as [|b l]; [reflexivity|].
  rewrite sorted_keys_lookup by apply dict_by_ts_well_keyed. reflexivity.
Qed.

Lemma sorted_values_last_write_wins (all_data : list Bar) :
  last_write_wins all_data (py_sorted ts (map snd (dict_by_ts all_data))).
Proof.
  split.
  - apply py_sorted_strict, dict_by_ts_values_NoDup.
  - intros b. rewrite py_sorted_In. apply dict_by_ts_values.
Qed.

Lemma binance_merge_slice (max_bars : Z) (all_data : list Bar) :
  BinanceRest.merge max_bars all_data =
  py_slice_last max_bars (py_sorted ts (map snd (dict_by_ts all_data))).
Proof.
  destruct all_data; [|reflexivity].
  unfold py_slice_last, py_slice_from. cbn [dict_by_ts fold_left map py_sorted].
  rewrite drop_nil. reflexivity.
Qed.

Lemma binance_merge_sorted (max_bars : Z) (all_data : list Bar) :
  StronglySorted (fun a b => ts a < ts b) (BinanceRest.merge max_bars all_data).
Proof.
  rewrite binance_merge_slice. apply StronglySorted_slice_last.
  apply sorted_values_last_write_wins.
Qed.

(** For a positive cap, both merges return the last [max_bars] bars of
    the last-write-wins merge of the accumulated pages. *)
Lemma merge_last_write_wins (max_bars : Z) (all_data : list Bar) :
  0 < max_bars ->
  exists R : list Bar,
    last_write_wins all_data R /\
    BinanceRest.merge max_bars all_data = drop (length R - Z.to_nat max_bars) R /\
    KrakenRest.merge max_bars all_data = drop (length R - Z.to_nat max_bars) R.
Proof.
  intros Hpos. exists (py_sorted ts (map snd (dict_by_ts all_data))).
  split; [apply sorted_values_last_write_wins|].
  rewrite kraken_merge_is_binance_merge, binance_merge_slice.
  rewrite py_slice_last_positive by exact Hpos. auto.
Qed.

End Merges.

(** ** Results of the paginated adapters *)

Section PaginatedResults.
Import Bars Merged.

Lemma binance_days_strictly_ascending (http : BinanceRest.upstream)
    (symbol : str) (interval days max_bars : Z) :
  strictly_ascending
    (bars_of (BinanceRest.fetch_binance_ohlc_days http symbol interval days max_bars)).
Proof.
  unfold BinanceRest.fetch_binance_ohlc_days.
  destruct (interval =? 0); cbn [bars_of].
  - apply sorted_strictly_ascending. constructor.
  - apply sorted_strictly_ascending, binance_merge_sorted.
Qed.

Lemma kraken_days_strictly_ascending (http : KrakenRest.upstream) (now : Z)
    (symbol : str) (interval days max_bars : Z) :
  strictly_ascending
    (KrakenRest.fetch_ohlc_days_kraken http now symbol interval days max_bars).
Proof.
  unfold KrakenRest.fetch_ohlc_days_kraken.
  destruct (negb (Kraken._is_valid_symbol symbol));
    [apply sorted_strictly_ascending; constructor|].
  destruct (Kraken._to_kraken_pair symbol);
    [apply sorted_strictly_ascending; constructor|].
  rewrite kraken_merge_is_binance_merge.
  apply sorted_strictly_ascending, binance_merge_sorted.
Qed.

(** The scenario of the specification: two pages carry a bar at
    [ts = 1000], the later page with close 105; the merged bar has it. *)
Example overlapping_pages_keep_the_later_bar :
  map (fun b => (ts b, close b))
      (KrakenRest.fetch_ohlc_days_kraken Scenario.kraken_overlap 0 (lit "ETH/USD") 5 1 5000)
  = [(1000, 105%Q); (1060, 106%Q)].
Proof. vm_compute. reflexivity. Qed.

End PaginatedResults.

(** A cap of zero, which no caller in the repository passes (the router
    calls both adapters with the default of 5000): the Kraken history
    adapter takes one page of two bars and returns both, the slice
    [out[-0:]] being the whole list, while the Binance adapter returns the
    empty list at the same cap. *)
Remark kraken_zero_cap_returns_every_bar :
  map Bars.ts
      (KrakenRest.fetch_ohlc_days_kraken Scenario.kraken_one_page 0 (lit "ETH/USD") 5 1 0)
  = [1000; 1060] /\
  (forall l : list Bars.Bar, Bars.py_slice_last 0 l = l) /\
  (forall (http : BinanceRest.upstream) (symbol : str) (days : Z),
      BinanceRest.fetch_binance_ohlc_days http symbol 5 days 0 = Bars.Returned []).
Proof.
  split; [vm_compute; reflexivity|].
  split; [intros l; apply py_slice_last_zero|].
  intros http symbol days.
  unfold BinanceRest.fetch_binance_ohlc_days, BinanceRest.requests_needed,
    BinanceRest.total_bars_needed.
  change (5 =? 0) with false. cbv iota.
  assert (Hn : Z.to_nat ((Z.min (days * (24 * 60 / 5)) 0 + 999) / 1000) = O).
  { assert (H : (Z.min (days * (24 * 60 / 5)) 0 + 999) / 1000 <= 0); [|lia].
    assert (Hlt : (Z.min (days * (24 * 60 / 5)) 0 + 999) / 1000 < 1); [|lia].
    apply Z.div_lt_upper_bound; lia. }
  rewrite Hn. reflexivity.
Qed.

(** C6 (counterexample). With Binance and Kraken unreachable, the router in
    "auto" mode returns what the Coinbase adapter made of a payload that
    repeats a timestamp: two bars at [ts = 100], which are not strictly
    ascending. *)
Lemma history_repeats_a_timestamp :
  exists b1 b2 : Bars.Bar,
    Merged.bars_of
      (fst (CryptoRouter.fetch_history_crypto Scenario.only_coinbase (lit "ETH/USD") 5 1
                                              "auto" (CryptoRouter.loaded 1000)))
    = [b1; b2] /\
    Bars.ts b1 = 100 /\ Bars.ts b2 = 100 /\
    ~ Merged.strictly_ascending [b1; b2].
Proof.
  eexists _, _. split; [vm_compute; reflexivity|].
  split; [reflexivity|]. split; [reflexivity|].
  intros [Hadj _]. specialize (Hadj O _ _ eq_refl eq_refl). cbn in Hadj. lia.
Qed.

(** C6 (amended). Every result of the two paginated history adapters,
    [fetch_binance_ohlc_days] and [fetch_ohlc_days_kraken], is strictly
    ascending by timestamp with no timestamp twice, whatever the exchange
    answers; so is every result the router returns for the explicit
    providers "binance" and "kraken". *)
Theorem paginated_history_strictly_ascending :
  (forall (http : BinanceRest.upstream) (symbol : str) (interval days max_bars : Z),
      Merged.strictly_ascending
        (Merged.bars_of
           (BinanceRest.fetch_binance_ohlc_days http symbol interval days max_bars))) /\
  (forall (http : KrakenRest.upstream) (now : Z) (symbol : str) (interval days max_bars : Z),
      Merged.strictly_ascending
        (KrakenRest.fetch_ohlc_days_kraken http now symbol interval days max_bars)) /\
  (forall binance kraken now coinbase yf duration late symbol interval days st,
      Merged.strictly_ascending
        (Merged.bars_of
           (fst (CryptoRouter.fetch_history_crypto
                   (CryptoRouter.exchanges binance kraken now coinbase yf duration late)
                   symbol interval days "binance" st)))) /\
  (forall binance kraken now coinbase yf duration late symbol interval days st,
      Merged.strictly_ascending
        (Merged.bars_of
           (fst (CryptoRouter.fetch_history_crypto
                   (CryptoRouter.exchanges binance kraken now coinbase yf duration late)
                   symbol interval days "kraken" st)))).
Proof.
  split; [exact binance_days_strictly_ascending|].
  split; [exact kraken_days_strictly_ascending|].
  split; intros; cbn [CryptoRouter.fetch_history_crypto].
  - apply binance_days_strictly_ascending.
  - apply kraken_days_strictly_ascending.
Qed.

(** ** The pagination loops *)

Section PaginationLoops.
Import Bars Paging.

Lemma kraken_loop_sent_le (http : KrakenRest.upstream) (pair : str) (intr max_bars : Z)
    (n attempt : nat) (last : Z) (out : list Bar) :
  (snd (KrakenRest.days_loop http pair intr max_bars n attempt last out) <= n)%nat.
Proof.
  revert attempt last out. induction n as [|n IH]; intros attempt last out;
    cbn [KrakenRest.days_loop]; [cbn; lia|].
  destruct (KrakenRest.days_page http pair intr max_bars attempt last out)
    as [out'|out' new_last]; [cbn; lia|].
  specialize (IH (S attempt) new_last out').
  destruct (KrakenRest.days_loop http pair intr max_bars n (S attempt) new_last out').
  cbn [snd] in *. lia.
Qed.

(** Request [k] is sent exactly when [k] is below the cap and every turn
    before it went on. *)
Lemma kraken_loop_sent_iff (http : KrakenRest.upstream) (pair : str) (intr max_bars : Z)
    (n attempt : nat) (last : Z) (out : list Bar) (k : nat) :
  (k < snd (KrakenRest.days_loop http pair intr max_bars n attempt last out))%nat <->
  (k < n)%nat /\ is_Some (kraken_reach http pair intr max_bars k attempt last out).
Proof.
  revert attempt last out k. induction n as [|n IH]; intros attempt last out k.
  - cbn. lia.
  - cbn [KrakenRest.days_loop].
    destruct k as [|k]; cbn [kraken_reach].
    + destruct (KrakenRest.days_page http pair intr max_bars attempt last out)
        as [out'|out' new_last].
      * cbn. split; [intros _; split; [lia | eexists; reflexivity] | lia].
      * destruct (KrakenRest.days_loop http pair intr max_bars n (S attempt) new_last out').
        cbn. split; [intros _; split; [lia | eexists; reflexivity] | lia].
    + destruct (KrakenRest.days_page http pair intr max_bars attempt last out)
        as [out'|out' new_last].
      * cbn. split; [lia | intros [_ [x Hx]]; discriminate].
      * specialize (IH (S attempt) new_last out' k).
        destruct (KrakenRest.days_loop http pair intr max_bars n (S attempt) new_last out').
        cbn [snd] in *. rewrite <- Nat.succ_lt_mono, IH. intuition lia.
Qed.

Lemma cursor_check_breaks (new_last : option Z) (last : Z) (out : list Bar) :
  (exists out', KrakenRest.cursor_check new_last last out = KrakenRest.Break out') <->
  new_last = None \/ new_last = Some 0 \/ new_last = Some last.
Proof.
  unfold KrakenRest.cursor_check. destruct new_last as [nl|].
  - destruct (Z.eqb_spec nl 0) as [->|H0]; cbn [orb].
    + split; [auto | intros _; eexists; reflexivity].
    + destruct (Z.eqb_spec nl last) as [->|Hl].
      * split; [auto | intros _; eexists; reflexivity].
      * split; [intros [x Hx]; discriminate|].
        intros [H|[H|H]]; congruence.
  - split; [auto | intros _; eexists; reflexivity].
Qed.

(** A turn of the Kraken loop is the last one exactly under
    [kraken_leaves]. *)
Lemma kraken_page_breaks_iff (http : KrakenRest.upstream) (pair : str) (intr max_bars : Z)
    (attempt : nat) (last : Z) (out : list Bar) :
  (exists out', KrakenRest.days_page http pair intr max_bars attempt last out
                = KrakenRest.Break out') <->
  kraken_leaves (http attempt pair intr last) max_bars last out.
Proof.
  unfold KrakenRest.days_page, kraken_leaves.
  destruct (http attempt pair intr last) as [|[err ser nl]];
    [split; [trivial | intros _; eexists; reflexivity]|].
  cbn [KrakenRest.has_error KrakenRest.series KrakenRest.last].
  destruct err; [split; [auto | intros _; eexists; reflexivity]|].
  destruct ser as [|row rows].
  - rewrite cursor_check_breaks. intuition congruence.
  - destruct (KrakenRest.parse_rows (row :: rows) out) as [out' fault].
    cbn [fst snd]. destruct fault.
    + split; [intros _; right; left; split; [discriminate | auto]
             | intros _; eexists; reflexivity].
    + destruct (Z.leb_spec max_bars (Z.of_nat (length out'))) as [Hle|Hgt].
      * split; [intros _; right; left; split; [discriminate | auto]
               | intros _; eexists; reflexivity].
      * rewrite cursor_check_breaks. split; [intuition|].
        intros [H|[[_ [H|H]]|H]]; try discriminate; try lia; exact H.
Qed.

Lemma kraken_requests_sent_le (http : KrakenRest.upstream) (now : Z)
    (symbol : str) (interval days max_bars : Z) :
  (KrakenRest.requests_sent http now symbol interval days max_bars <= 20)%nat.
Proof.
  unfold KrakenRest.requests_sent.
  destruct (negb (Kraken._is_valid_symbol symbol)); [lia|].
  destruct (Kraken._to_kraken_pair symbol); [lia|].
  apply kraken_loop_sent_le.
Qed.

Lemma binance_loop_sent_le (http : BinanceRest.upstream) (symbol : str)
    (interval total : Z) (n i : nat) (all_data : list Bar) :
  (snd (BinanceRest.days_loop http symbol interval total n i all_data) <= n)%nat.
Proof.
  revert i all_data. induction n as [|n IH]; intros i all_data;
    cbn [BinanceRest.days_loop]; [cbn; lia|].
  destruct (BinanceRest.days_page http symbol interval total i all_data)
    as [| |all_data']; [cbn; lia | cbn; lia |].
  specialize (IH (S i) all_data').
  destruct (BinanceRest.days_loop http symbol interval total n (S i) all_data').
  cbn [snd] in *. lia.
Qed.

(** Request [k] is sent exactly when [k] is below the computed number of
    pages, every turn before it went on, and bars are still missing. *)
Lemma binance_loop_sent_iff (http : BinanceRest.upstream) (symbol : str)
    (interval total : Z) (n i : nat) (all_data : list Bar) (k : nat) :
  (k < snd (BinanceRest.days_loop http symbol interval total n i all_data))%nat <->
  (k < n)%nat /\
  exists i' all_data',
    binance_reach http symbol interval total k i all_data = Some (i', all_data') /\
    Z.of_nat (length all_data') < total.
Proof.
  revert i all_data k. induction n as [|n IH]; intros i all_data k.
  - cbn. lia.
  - cbn [BinanceRest.days_loop].
    destruct k as [|k]; cbn [binance_reach].
    + unfold BinanceRest.days_page.
      destruct (Z.leb_spec (Z.min 1000 (total - Z.of_nat (length all_data))) 0) as [Hle|Hgt].
      * cbn. split; [lia|]. intros (_ & i' & a' & [= <- <-] & Hlt). lia.
      * assert (Hlt : Z.of_nat (length all_data) < total) by lia.
        destruct (BinanceRest.fetch_binance_ohlc http i symbol interval _) as [|b batch].
        -- cbn. split; [intros _; split; [lia | eauto] | lia].
        -- destruct (BinanceRest.days_loop http symbol interval total n (S i) _).
           cbn. split; [intros _; split; [lia | eauto] | lia].
    + destruct (BinanceRest.days_page http symbol interval total i all_data)
        as [| |all_data1].
      * cbn. split; [lia | intros (_ & ? & ? & ? & _); discriminate].
      * cbn. split; [lia | intros (_ & ? & ? & ? & _); discriminate].
      * specialize (IH (S i) all_data1 k).
        destruct (BinanceRest.days_loop http symbol interval total n (S i) all_data1).
        cbn [snd] in *. rewrite <- Nat.succ_lt_mono, IH. intuition lia.
Qed.

(** A turn of the Binance loop is the last one exactly when enough bars
    are accumulated (no request is sent) or the page comes back empty. *)
Lemma binance_page_breaks_iff (http : BinanceRest.upstream) (symbol : str)
    (interval total : Z) (i : nat) (all_data : list Bar) :
  (BinanceRest.days_page http symbol interval total i all_data = BinanceRest.BreakUnsent
   <-> total <= Z.of_nat (length all_data)) /\
  (BinanceRest.days_page http symbol interval total i all_data = BinanceRest.BreakEmpty
   <-> Z.of_nat (length all_data) < total /\
       BinanceRest.fetch_binance_ohlc http i symbol interval
         (Z.min 1000 (total - Z.of_nat (length all_data))) = []).
Proof.
  unfold BinanceRest.days_page.
  destruct (Z.leb_spec (Z.min 1000 (total - Z.of_nat (length all_data))) 0) as [Hle|Hgt].
  - split; [split; [lia | reflexivity] | split; [discriminate | lia]].
  - destruct (BinanceRest.fetch_binance_ohlc http i symbol interval _) as [|b batch].
    + split; [split; [discriminate | lia] | split; [intros _; split; [lia | reflexivity] | reflexivity]].
    + split; [split; [discriminate | lia] | split; [discriminate | intros [_ H]; discriminate]].
Qed.

Lemma binance_requests_sent_le (http : BinanceRest.upstream)
    (symbol : str) (interval days max_bars : Z) :
  Z.of_nat (BinanceRest.requests_sent http symbol interval days max_bars)
  <= Z.max 0 (BinanceRest.requests_needed interval days max_bars).
Proof.
  unfold BinanceRest.requests_sent.
  pose proof (binance_loop_sent_le http symbol interval
                (BinanceRest.total_bars_needed interval days max_bars)
                (Z.to_nat (BinanceRest.requests_needed interval days max_bars)) O []).
  lia.
Qed.

Lemma binance_requests_needed_le (interval days max_bars : Z) :
  BinanceRest.requests_needed interval days max_bars <= (max_bars + 999) / 1000.
Proof.
  unfold BinanceRest.requests_needed, BinanceRest.total_bars_needed.
  apply Z.div_le_mono; lia.
Qed.

End PaginationLoops.

(** C8 (counterexample). The Kraken loop does not stop at an empty page
    whose cursor advances: with an empty first page it sends a second
    request and returns the bar of the second page.  And the Binance loop is
    not capped at 20 turns: with [max_bars = 25000] and pages of one bar it
    sends 25 requests. *)
Lemma pagination_passes_empty_page :
  Scenario.kraken_gap 0%nat (lit "ETHUSD") 5 (0 - 1 * 86400)
  = KrakenRest.Json (KrakenRest.mkBody false [] (Some 7)) /\
  KrakenRest.requests_sent Scenario.kraken_gap 0 (lit "ETH/USD") 5 1 5000 = 2%nat /\
  map Bars.ts (KrakenRest.fetch_ohlc_days_kraken Scenario.kraken_gap 0 (lit "ETH/USD") 5 1 5000)
  = [1000] /\
  BinanceRest.requests_sent Scenario.binance_trickle (lit "ETH/USD") 1 30 25000 = 25%nat.
Proof. repeat split; vm_compute; reflexivity. Qed.

(** C8 (amended). Both pagination loops terminate.  The Kraken loop sends at
    most 20 requests; request [k] is sent exactly when [k < 20] and every
    earlier turn went on, and a turn is the last one exactly when the
    exchange fails, the body reports an error, a non-empty page raises
    while decoded or brings the accumulated count to [max_bars], or the
    cursor is missing, zero or unchanged (an empty page alone does not end
    the loop).  The Binance loop sends at most
    [ceil(min(days * bars_per_day, max_bars) / 1000)] requests — at most 5
    under the default [max_bars = 5000] — and request [k] is sent exactly
    when every earlier page was non-empty and fewer than
    [min(days * bars_per_day, max_bars)] bars are accumulated; a turn is
    the last one exactly when that many bars are accumulated or its page
    comes back empty. *)
Theorem pagination_terminates :
  (forall http now symbol interval days max_bars,
      (KrakenRest.requests_sent http now symbol interval days max_bars <= 20)%nat) /\
  (forall http pair intr max_bars since k,
      (k < snd (KrakenRest.days_loop http pair intr max_bars 20 O since []))%nat <->
      (k < 20)%nat /\ is_Some (Paging.kraken_reach http pair intr max_bars k O since [])) /\
  (forall http pair intr max_bars attempt last out,
      (exists out', KrakenRest.days_page http pair intr max_bars attempt last out
                    = KrakenRest.Break out') <->
      Paging.kraken_leaves (http attempt pair intr last) max_bars last out) /\
  (forall http symbol interval days max_bars,
      Z.of_nat (BinanceRest.requests_sent http symbol interval days max_bars)
      <= Z.max 0 (BinanceRest.requests_needed interval days max_bars)
      /\ BinanceRest.requests_needed interval days max_bars <= (max_bars + 999) / 1000) /\
  (forall http symbol interval days,
      (BinanceRest.requests_sent http symbol interval days 5000 <= 5)%nat) /\
  (forall http symbol interval total n k,
      (k < snd (BinanceRest.days_loop http symbol interval total n O []))%nat <->
      (k < n)%nat /\
      exists i' all_data',
        Paging.binance_reach http symbol interval total k O [] = Some (i', all_data') /\
        Z.of_nat (length all_data') < total) /\
  (forall http symbol interval total i all_data,
      (BinanceRest.days_page http symbol interval total i all_data = BinanceRest.BreakUnsent
       <-> total <= Z.of_nat (length all_data)) /\
      (BinanceRest.days_page http symbol interval total i all_data = BinanceRest.BreakEmpty
       <-> Z.of_nat (length all_data) < total /\
           BinanceRest.fetch_binance_ohlc http i symbol interval
             (Z.min 1000 (total - Z.of_nat (length all_data))) = [])).
Proof.
  split; [exact kraken_requests_sent_le|].
  split; [intros; apply kraken_loop_sent_iff|].
  split; [intros; apply kraken_page_breaks_iff|].
  split; [intros; split; [apply binance_requests_sent_le | apply binance_requests_needed_le]|].
  split; [|split; [intros; apply binance_loop_sent_iff | intros; apply binance_page_breaks_iff]].
  intros http symbol interval days.
  pose proof (binance_requests_sent_le http symbol interval days 5000).
  pose proof (binance_requests_needed_le interval days 5000).
  change ((5000 + 999) / 1000) with 5 in *. lia.
Qed.

(** ** The crypto router *)

Section CryptoRouterFacts.
Import Bars Merged CryptoRouter.

(** What one passage through [_fetch_from_provider] does: the result is
    the dispatch's, the health table is untouched, and one attempt is
    recorded, at a time that is the new time of last request. *)
Lemma fetch_from_provider_spec (w : world) (symbol : str) (interval days : Z)
    (provider : string) (st : state) :
  exists (issued : Q) (st' : state),
    _fetch_from_provider w symbol interval days provider st
    = (dispatch w symbol interval days provider, st') /\
    PROVIDER_HEALTH st' = PROVIDER_HEALTH st /\
    LAST_REQUEST_TIME st' = <[provider := issued]> (LAST_REQUEST_TIME st) /\
    attempts st' = attempts st ++ [(provider, issued)].
Proof.
  unfold _fetch_from_provider.
  destruct (Qltb _ _); eexists _, _; (split; [reflexivity|]); cbn; auto.
Qed.

(** The loop when a provider answers with data after others gave none. *)
Lemma try_providers_first_success (w : world) (symbol : str) (interval days : Z)
    (before after : list string) (prov : string) (b : Bar) (data : list Bar) (st : state) :
  Forall (fun p => no_data (dispatch w symbol interval days p)) before ->
  dispatch w symbol interval days prov = Returned (b :: data) ->
  exists st',
    try_providers w symbol interval days (before ++ prov :: after) st
    = (Returned (b :: data), st') /\
    PROVIDER_HEALTH st' = <[prov := true]> (PROVIDER_HEALTH st) /\
    map fst (attempts st') = map fst (attempts st) ++ before ++ [prov].
Proof.
  intros Hbefore Hprov. revert st.
  induction Hbefore as [|p before Hp _ IH]; intros st; cbn [app try_providers].
  - destruct (fetch_from_provider_spec w symbol interval days prov st)
      as (issued & st1 & -> & Hh & _ & Ha).
    rewrite Hprov. eexists. split; [reflexivity|]. cbn.
    rewrite Hh, Ha, map_app. auto.
  - destruct (fetch_from_provider_spec w symbol interval days p st)
      as (issued & st1 & -> & Hh & _ & Ha).
    destruct (IH st1) as (st' & Hrun & Hh' & Ha').
    exists st'. rewrite Hh', Ha', Hh, Ha, map_app. cbn [map fst].
    rewrite <- !app_assoc. cbn [app].
    destruct Hp as [-> | ->]; auto.
Qed.

(** The loop when no provider gives data. *)
Lemma try_providers_all_fail (w : world) (symbol : str) (interval days : Z)
    (providers : list string) (st : state) :
  Forall (fun p => no_data (dispatch w symbol interval days p)) providers ->
  exists st',
    try_providers w symbol interval days providers st = (Returned [], st') /\
    PROVIDER_HEALTH st' = PROVIDER_HEALTH st /\
    map fst (attempts st') = map fst (attempts st) ++ providers.
Proof.
  intros Hall. revert st.
  induction Hall as [|p providers Hp _ IH]; intros st; cbn [try_providers].
  - exists st. rewrite app_nil_r. auto.
  - destruct (fetch_from_provider_spec w symbol interval days p st)
      as (issued & st1 & -> & Hh & _ & Ha).
    destruct (IH st1) as (st' & Hrun & Hh' & Ha').
    exists st'. rewrite Hh', Ha', Hh, Ha, map_app. cbn [map fst].
    rewrite <- app_assoc. cbn [app].
    destruct Hp as [-> | ->]; auto.
Qed.

(** The loop never takes a provider down: the table it leaves is the one
    it found, up to entries set to [True]. *)
Lemma try_providers_health (w : world) (symbol : str) (interval days : Z)
    (providers : list string) (st : state) :
  let st' := snd (try_providers w symbol interval days providers st) in
  PROVIDER_HEALTH st' = PROVIDER_HEALTH st \/
  exists prov, In prov providers /\
               PROVIDER_HEALTH st' = <[prov := true]> (PROVIDER_HEALTH st).
Proof.
  revert st. induction providers as [|p providers IH]; intros st; cbn [try_providers].
  - left. reflexivity.
  - destruct (fetch_from_provider_spec w symbol interval days p st)
      as (issued & st1 & -> & Hh & _ & _).
    destruct (dispatch w symbol interval days p) as [|[|b data]].
    + destruct (IH st1) as [H | (q & Hq & H)]; cbn zeta in *; rewrite H, Hh;
        [left | right; exists q; split; [right|]]; auto.
    + destruct (IH st1) as [H | (q & Hq & H)]; cbn zeta in *; rewrite H, Hh;
        [left | right; exists q; split; [right|]]; auto.
    + right. exists p. cbn. rewrite Hh. split; [left|]; reflexivity.
Qed.

End CryptoRouterFacts.

(** ** The stocks router *)

Section StocksRouterFacts.
Import Bars Merged StocksRouter.

Lemma stock_try_providers_first_success (w : world) (symbol : str) (interval days : Z)
    (before after : list string) (prov : string) (b : Bar) (data : list Bar) (st : state) :
  Forall (fun p => no_data (dispatch w symbol interval days p)) before ->
  dispatch w symbol interval days prov = Returned (b :: data) ->
  exists st',
    try_providers w symbol interval days (before ++ prov :: after) st
    = (Some (b :: data), st') /\
    STOCK_PROVIDER_HEALTH st' = <[prov := true]> (STOCK_PROVIDER_HEALTH st) /\
    map fst (attempts st') = map fst (attempts st) ++ before ++ [prov].
Proof.
  intros Hbefore Hprov. revert st.
  induction Hbefore as [|p before Hp _ IH]; intros st; cbn [app try_providers].
  - unfold _fetch_from_stock_provider. rewrite Hprov.
    eexists. split; [reflexivity|]. cbn. rewrite map_app. auto.
  - unfold _fetch_from_stock_provider.
    match goal with
    | |- context [mkState ?h ?c ?a] => destruct (IH (mkState h c a)) as (st' & Hrun & Hh' & Ha')
    end.
    exists st'. rewrite Hh', Ha'. cbn. rewrite map_app. cbn [map fst].
    rewrite <- !app_assoc. cbn [app].
    destruct Hp as [-> | ->]; auto.
Qed.

Lemma stock_try_providers_all_fail (w : world) (symbol : str) (interval days : Z)
    (providers : list string) (st : state) :
  Forall (fun p => no_data (dispatch w symbol interval days p)) providers ->
  exists st',
    try_providers w symbol interval days providers st = (None, st') /\
    STOCK_PROVIDER_HEALTH st' = STOCK_PROVIDER_HEALTH st /\
    map fst (attempts st') = map fst (attempts st) ++ providers.
Proof.
  intros Hall. revert st.
  induction Hall as [|p providers Hp _ IH]; intros st; cbn [try_providers].
  - exists st. rewrite app_nil_r. auto.
  - unfold _fetch_from_stock_provider.
    match goal with
    | |- context [mkState ?h ?c ?a] => destruct (IH (mkState h c a)) as (st' & Hrun & Hh' & Ha')
    end.
    exists st'. rewrite Hh', Ha'. cbn. rewrite map_app. cbn [map fst].
    rewrite <- app_assoc. cbn [app].
    destruct Hp as [-> | ->]; auto.
Qed.

Lemma stock_try_providers_health (w : world) (symbol : str) (interval days : Z)
    (providers : list string) (st : state) :
  let st' := snd (try_providers w symbol interval days providers st) in
  STOCK_PROVIDER_HEALTH st' = STOCK_PROVIDER_HEALTH st \/
  exists prov, In prov providers /\
               STOCK_PROVIDER_HEALTH st' = <[prov := true]> (STOCK_PROVIDER_HEALTH st).
Proof.
  revert st. induction providers as [|p providers IH]; intros st; cbn [try_providers].
  - left. reflexivity.
  - unfold _fetch_from_stock_provider.
    destruct (dispatch w symbol interval days p) as [|[|b data]].
    + match goal with
      | |- context [mkState ?h ?c ?a] => destruct (IH (mkState h c a)) as [H | (q & Hq & H)]
      end; cbn zeta in *; rewrite H;
        [left | right; exists q; split; [right|]]; auto.
    + match goal with
      | |- context [mkState ?h ?c ?a] => destruct (IH (mkState h c a)) as [H | (q & Hq & H)]
      end; cbn zeta in *; rewrite H;
        [left | right; exists q; split; [right|]]; auto.
    + right. exists p. cbn. split; [left|]; reflexivity.
Qed.

Lemma bars_from_length (e : MockStockData.env) (symbol : str) (interval current_time : Z)
    (n i : nat) (price : Q) :
  length (MockStockData.bars_from e symbol interval current_time n i price) = n.
Proof.
  revert i price. induction n as [|n IH]; intros i price; cbn [MockStockData.bars_from];
    [reflexivity|].
  destruct (MockStockData.make_bar e symbol interval current_time i price) as [bar next].
  cbn [length]. rewrite IH. reflexivity.
Qed.

(** The generator returns as many bars as it is asked for. *)
Lemma generator_length (e : MockStockData.env) (symbol : str) (interval count : Z) (base : Q) :
  length (MockStockData.generate_realistic_ohlcv e symbol interval count base)
  = Z.to_nat count.
Proof. unfold MockStockData.generate_realistic_ohlcv. apply bars_from_length. Qed.

(** The fallback is not empty when at least one bar is asked for. *)
Lemma mock_fallback_nonempty (w : world) (symbol : str) (interval days : Z) :
  1 <= days ->
  (1 <= interval <= 390 \/ 1440 <= interval) ->
  mock_fallback w symbol interval days <> [].
Proof.
  intros Hdays Hint Hnil.
  apply (f_equal (@length Bar)) in Hnil. cbn [length] in Hnil.
  unfold mock_fallback in Hnil.
  destruct (Z.ltb_spec interval 1440) as [Hlt|Hge].
  - destruct (Z.eqb_spec interval 0) as [->|Hne]; [lia|].
    rewrite generator_length in Hnil.
    assert (1 <= 390 / interval) by (apply Z.div_le_lower_bound; lia).
    assert (1 <= days * (390 / interval)) by nia. lia.
  - rewrite generator_length in Hnil. lia.
Qed.

End StocksRouterFacts.

(** ** Routing in "auto" mode *)

Section Candidates.
Import Bars Merged.

Lemma filter_sublist {A : Type} (f : A -> bool) (l : list A) :
  sublist (List.filter f l) l.
Proof.
  induction l as [|x l IH]; cbn [List.filter]; [constructor|].
  destruct (f x); [apply sublist_skip | apply sublist_cons]; exact IH.
Qed.

Lemma not_auto (provider : string) :
  provider <> "auto"%string -> negb (String.eqb provider "auto") = true.
Proof.
  intros Hne. destruct (String.eqb_spec provider "auto"); [contradiction | reflexivity].
Qed.

End Candidates.

(** C3 (counterexample). The stocks router does not go through its
    candidates for a symbol its format check rejects: for "BRK-B" in "auto"
    mode it returns the empty list and leaves the state as it was, no
    provider having been tried, in a world where the first candidate would
    have returned twelve bars. *)
Lemma stocks_auto_rejected_symbol_tries_nobody :
  StocksRouter._is_valid_stock_symbol (lit "BRK-B") = false /\
  length (Merged.bars_of
            (StocksRouter.dispatch Scenario.stocks_up (lit "BRK-B") 5 1 "polygon")) = 12%nat /\
  StocksRouter.fetch_stock_history Scenario.stocks_up (lit "BRK-B") 5 1 "auto"
                                   (StocksRouter.loaded 1000)
  = (Bars.Returned [], StocksRouter.loaded 1000).
Proof. repeat split; vm_compute; reflexivity. Qed.

(** C3 (amended). In "auto" mode the crypto router — and the stocks router
    for every symbol that passes its format check — goes through the
    healthy candidates in priority order: while the candidates raise or
    return an empty list the next one is tried, and the first candidate
    that returns a non-empty list has its health set to healthy and its
    list returned at once, no later candidate being tried.  For a symbol
    the stocks router's format check rejects, no candidate is tried: the
    empty list is returned and the state is left as it was. *)
Theorem auto_mode_first_success_wins :
  (forall st, sublist (CryptoRouter.healthy_providers st) CryptoRouter.PROVIDER_PRIORITY)
  /\
  (forall w symbol interval days st before prov after b data,
      CryptoRouter.healthy_providers st = before ++ prov :: after ->
      Forall (fun p => Merged.no_data (CryptoRouter.dispatch w symbol interval days p)) before ->
      CryptoRouter.dispatch w symbol interval days prov = Bars.Returned (b :: data) ->
      exists st',
        CryptoRouter.fetch_history_crypto w symbol interval days "auto" st
        = (Bars.Returned (b :: data), st') /\
        CryptoRouter.PROVIDER_HEALTH st' = <[prov := true]> (CryptoRouter.PROVIDER_HEALTH st) /\
        map fst (CryptoRouter.attempts st')
        = map fst (CryptoRouter.attempts st) ++ before ++ [prov])
  /\
  (forall st, sublist (StocksRouter.healthy_providers st) StocksRouter.STOCK_PROVIDER_PRIORITY)
  /\
  (forall w symbol interval days st before prov after b data,
      StocksRouter._is_valid_stock_symbol symbol = true ->
      StocksRouter.healthy_providers st = before ++ prov :: after ->
      Forall (fun p => Merged.no_data (StocksRouter.dispatch w symbol interval days p)) before ->
      StocksRouter.dispatch w symbol interval days prov = Bars.Returned (b :: data) ->
      exists st',
        StocksRouter.fetch_stock_history w symbol interval days "auto" st
        = (Bars.Returned (b :: data), st') /\
        StocksRouter.STOCK_PROVIDER_HEALTH st'
        = <[prov := true]> (StocksRouter.STOCK_PROVIDER_HEALTH st) /\
        map fst (StocksRouter.attempts st')
        = map fst (StocksRouter.attempts st) ++ before ++ [prov])
  /\
  (forall w symbol interval days st,
      StocksRouter._is_valid_stock_symbol symbol = false ->
      StocksRouter.fetch_stock_history w symbol interval days "auto" st
      = (Bars.Returned [], st)).
Proof.
  split; [intros st; apply filter_sublist|].
  split.
  { intros w symbol interval days st before prov after b data Hcand Hbefore Hprov.
    unfold CryptoRouter.fetch_history_crypto. cbn [String.eqb Ascii.eqb Bool.eqb negb].
    rewrite Hcand. apply try_providers_first_success; assumption. }
  split; [intros st; apply filter_sublist|].
  split.
  { intros w symbol interval days st before prov after b data Hvalid Hcand Hbefore Hprov.
    unfold StocksRouter.fetch_stock_history. rewrite Hvalid.
    cbn [String.eqb Ascii.eqb Bool.eqb negb]. rewrite Hcand.
    destruct (stock_try_providers_first_success w symbol interval days before after prov b data st
                Hbefore Hprov) as (st' & -> & Hh & Ha).
    exists st'. auto. }
  intros w symbol interval days st Hbad.
  unfold StocksRouter.fetch_stock_history. rewrite Hbad. reflexivity.
Qed.

(** Two runs in the manner of the specification's scenario.  Crypto: the
    first two candidates give nothing, the third returns bars; they come
    back, the third is marked healthy, and the fourth is never tried.
    Stocks: the first candidate raises, the second returns twelve bars;
    and "ETH/USD", which the format check rejects, has nobody tried. *)
Lemma auto_mode_first_success_wins_witness :
  (exists st',
      CryptoRouter.fetch_history_crypto Scenario.only_coinbase (lit "ETH/USD") 5 1 "auto"
                                        (CryptoRouter.loaded 1000)
      = (Bars.Returned [Bars.mkBar 100 99 110 95 50 12; Bars.mkBar 100 99 110 95 51 12], st') /\
      CryptoRouter.PROVIDER_HEALTH st'
      = <["coinbase"%string := true]> (CryptoRouter.PROVIDER_HEALTH (CryptoRouter.loaded 1000)) /\
      map fst (CryptoRouter.attempts st')
      = map fst (CryptoRouter.attempts (CryptoRouter.loaded 1000))
        ++ ["binance"; "kraken"]%string ++ ["coinbase"%string]) /\
  (exists st',
      StocksRouter.fetch_stock_history Scenario.stocks_second (lit "AAPL") 5 1 "auto"
                                       (StocksRouter.loaded 1000)
      = (Bars.Returned (Scenario.a_bar 1000
                          :: map (fun k => Scenario.a_bar (1000 + 300 * Z.of_nat k)) (seq 1 11)),
         st') /\
      StocksRouter.STOCK_PROVIDER_HEALTH st'
      = <["yfinance_improved"%string := true]>
          (StocksRouter.STOCK_PROVIDER_HEALTH (StocksRouter.loaded 1000)) /\
      map fst (StocksRouter.attempts st')
      = map fst (StocksRouter.attempts (StocksRouter.loaded 1000))
        ++ ["polygon"%string] ++ ["yfinance_improved"%string]) /\
  StocksRouter.fetch_stock_history Scenario.stocks_second (lit "ETH/USD") 5 1 "auto"
                                   (StocksRouter.loaded 1000)
  = (Bars.Returned [], StocksRouter.loaded 1000).
Proof.
  split; [|split].
  - apply (proj1 (proj2 auto_mode_first_success_wins)
             Scenario.only_coinbase (lit "ETH/USD") 5 1 (CryptoRouter.loaded 1000)
             ["binance"; "kraken"]%string "coinbase"%string ["yfinance"%string]).
    + vm_compute. reflexivity.
    + repeat constructor; right; vm_compute; reflexivity.
    + vm_compute. reflexivity.
  - apply (proj1 (proj2 (proj2 (proj2 auto_mode_first_success_wins)))
             Scenario.stocks_second (lit "AAPL") 5 1 (StocksRouter.loaded 1000)
             ["polygon"%string] "yfinance_improved"%string
             ["finnhub"; "alpaca"; "yfinance"; "alpha_vantage"]%string).
    + vm_compute. reflexivity.
    + vm_compute. reflexivity.
    + repeat constructor; left; vm_compute; reflexivity.
    + vm_compute. reflexivity.
  - apply (proj2 (proj2 (proj2 (proj2 auto_mode_first_success_wins)))).
    vm_compute. reflexivity.
Defined.

(** ** Routing to an explicit provider *)

(** C4 (counterexample). Asked for the explicit provider "yfinance" and the
    symbol "BRK-B", which its format check rejects, the stocks router
    returns the empty list without calling the provider, whose adapter
    would have returned twelve bars: the literal outcome of the adapter is
    not what the caller gets. *)
Lemma stocks_explicit_rejected_symbol_calls_nobody :
  StocksRouter._is_valid_stock_symbol (lit "BRK-B") = false /\
  length (Merged.bars_of
            (StocksRouter.dispatch Scenario.stocks_up (lit "BRK-B") 5 1 "yfinance")) = 12%nat /\
  StocksRouter.fetch_stock_history Scenario.stocks_up (lit "BRK-B") 5 1 "yfinance"
                                   (StocksRouter.loaded 1000)
  = (Bars.Returned [], StocksRouter.loaded 1000).
Proof. repeat split; vm_compute; reflexivity. Qed.

(** C4 (amended). With an explicit provider name the crypto router — and
    the stocks router for every symbol that passes its format check — makes
    exactly one attempt, on that provider; no other provider is tried, the
    health table is left alone, and the result owes nothing to the
    synthetic generator.  The caller gets the outcome of the adapter as it
    is — an empty list stays empty, an exception propagates — from the
    crypto providers "binance" and "kraken", from "coinbase" when its
    module can be imported, and from the six stock providers.  The crypto
    provider "yfinance" never raises: an exception of its adapter, and a
    zero interval, come back as the empty list; so does "coinbase" when
    its module cannot be imported.  For a symbol the stocks router's
    format check rejects, the empty list is returned without any call
    and the state is left as it was. *)
Theorem explicit_provider_is_transparent :
  (forall w symbol interval days provider st,
      provider <> "auto"%string ->
      exists issued st',
        CryptoRouter.fetch_history_crypto w symbol interval days provider st
        = (CryptoRouter.dispatch w symbol interval days provider, st') /\
        CryptoRouter.PROVIDER_HEALTH st' = CryptoRouter.PROVIDER_HEALTH st /\
        CryptoRouter.attempts st' = CryptoRouter.attempts st ++ [(provider, issued)])
  /\
  (forall w symbol interval days,
      CryptoRouter.dispatch w symbol interval days "binance"
      = CryptoRouter.binance_days w symbol interval days /\
      CryptoRouter.dispatch w symbol interval days "kraken"
      = CryptoRouter.kraken_days w symbol interval days)
  /\
  (forall w symbol interval days provider st,
      StocksRouter._is_valid_stock_symbol symbol = true ->
      provider <> "auto"%string ->
      StocksRouter.fetch_stock_history w symbol interval days provider st
      = (StocksRouter.dispatch w symbol interval days provider,
         StocksRouter.mkState (StocksRouter.STOCK_PROVIDER_HEALTH st)
                              (StocksRouter.clock st + StocksRouter.call_duration w provider)%Q
                              (StocksRouter.attempts st ++ [(provider, StocksRouter.clock st)])))
  /\
  (forall adapter duration mock1 mock2 symbol interval days provider,
      StocksRouter.dispatch (StocksRouter.mkWorld adapter duration mock1) symbol interval days provider
      = StocksRouter.dispatch (StocksRouter.mkWorld adapter duration mock2) symbol interval days provider)
  /\
  (forall w symbol interval days provider,
      StocksRouter.known_provider provider = true ->
      StocksRouter.dispatch w symbol interval days provider
      = StocksRouter.adapter w provider symbol interval days)
  /\
  (forall w symbol interval days fetch_coinbase_ohlc,
      CryptoRouter.coinbase_ohlc w = Some fetch_coinbase_ohlc ->
      interval <> 0 ->
      CryptoRouter.dispatch w symbol interval days "coinbase"
      = fetch_coinbase_ohlc symbol interval (Z.min (days * (1440 / interval)) 300))
  /\
  (forall w symbol interval days,
      CryptoRouter.coinbase_ohlc w = None ->
      CryptoRouter.dispatch w symbol interval days "coinbase" = Bars.Returned [])
  /\
  (forall w symbol interval days,
      let adapter :=
        CryptoRouter.yf_recent_ohlc w (CryptoRouter._to_yfinance_crypto_symbol symbol)
                                    interval (days * (1440 / interval)) in
      (interval <> 0 -> forall data,
         adapter = Bars.Returned data ->
         CryptoRouter.dispatch w symbol interval days "yfinance" = Bars.Returned data) /\
      (interval = 0 \/ adapter = Bars.Raised ->
       CryptoRouter.dispatch w symbol interval days "yfinance" = Bars.Returned []) /\
      CryptoRouter.dispatch w symbol interval days "yfinance" <> Bars.Raised)
  /\
  (forall w symbol interval days provider st,
      StocksRouter._is_valid_stock_symbol symbol = false ->
      StocksRouter.fetch_stock_history w symbol interval days provider st
      = (Bars.Returned [], st)).
Proof.
  split.
  { intros w symbol interval days provider st Hne.
    unfold CryptoRouter.fetch_history_crypto. rewrite (not_auto provider Hne).
    destruct (fetch_from_provider_spec w symbol interval days provider st)
      as (issued & st' & Hrun & Hh & _ & Ha).
    exists issued, st'. auto. }
  split; [intros; split; reflexivity|].
  split.
  { intros w symbol interval days provider st Hvalid Hne.
    unfold StocksRouter.fetch_stock_history. rewrite Hvalid, (not_auto provider Hne).
    reflexivity. }
  split; [reflexivity|].
  split.
  { intros w symbol interval days provider Hknown.
    unfold StocksRouter.dispatch. rewrite Hknown. reflexivity. }
  split.
  { intros w symbol interval days f Hf Hne. unfold CryptoRouter.dispatch.
    cbn [String.eqb Ascii.eqb Bool.eqb]. rewrite Hf.
    destruct (Z.eqb_spec interval 0); [contradiction | reflexivity]. }
  split.
  { intros w symbol interval days Hnone. unfold CryptoRouter.dispatch.
    cbn [String.eqb Ascii.eqb Bool.eqb]. rewrite Hnone. reflexivity. }
  split.
  { intros w symbol interval days adapter. subst adapter.
    unfold CryptoRouter.dispatch. cbn [String.eqb Ascii.eqb Bool.eqb].
    unfold CryptoRouter._fetch_yfinance_crypto.
    destruct (Z.eqb_spec interval 0) as [Hz|Hnz].
    - split; [contradiction|]. split; [reflexivity | discriminate].
    - split; [intros _ data ->; reflexivity|].
      split.
      + intros [Hz | ->]; [contradiction | reflexivity].
      + destruct (CryptoRouter.yf_recent_ohlc w _ interval _); discriminate. }
  intros w symbol interval days provider st Hbad.
  unfold StocksRouter.fetch_stock_history. rewrite Hbad. reflexivity.
Qed.

(** Explicit requests in concrete worlds: Kraken raising is what the
    caller of the crypto router sees; Polygon raising is what the caller of
    the stocks router sees for "AAPL"; the Yahoo adapter raising is an
    empty list for the caller of the crypto router. *)
Lemma explicit_provider_is_transparent_witness :
  (exists issued st',
      CryptoRouter.fetch_history_crypto Scenario.crypto_all_down (lit "ETH/USD") 5 1 "kraken"
                                        (CryptoRouter.loaded 1000)
      = (CryptoRouter.dispatch Scenario.crypto_all_down (lit "ETH/USD") 5 1 "kraken", st') /\
      CryptoRouter.PROVIDER_HEALTH st' = CryptoRouter.PROVIDER_HEALTH (CryptoRouter.loaded 1000) /\
      CryptoRouter.attempts st'
      = CryptoRouter.attempts (CryptoRouter.loaded 1000) ++ [("kraken"%string, issued)]) /\
  CryptoRouter.dispatch Scenario.crypto_all_down (lit "ETH/USD") 5 1 "kraken" = Bars.Raised /\
  StocksRouter.fetch_stock_history Scenario.stocks_second (lit "AAPL") 5 1 "polygon"
                                   (StocksRouter.loaded 1000)
  = (StocksRouter.dispatch Scenario.stocks_second (lit "AAPL") 5 1 "polygon",
     StocksRouter.mkState
       (StocksRouter.STOCK_PROVIDER_HEALTH (StocksRouter.loaded 1000))
       (StocksRouter.clock (StocksRouter.loaded 1000)
        + StocksRouter.call_duration Scenario.stocks_second "polygon")%Q
       (StocksRouter.attempts (StocksRouter.loaded 1000)
        ++ [("polygon"%string, StocksRouter.clock (StocksRouter.loaded 1000))])) /\
  StocksRouter.dispatch Scenario.stocks_second (lit "AAPL") 5 1 "polygon" = Bars.Raised /\
  CryptoRouter.yf_recent_ohlc Scenario.crypto_all_down
    (CryptoRouter._to_yfinance_crypto_symbol (lit "ETH/USD")) 5 (1 * (1440 / 5)) = Bars.Raised /\
  CryptoRouter.dispatch Scenario.crypto_all_down (lit "ETH/USD") 5 1 "yfinance"
  = Bars.Returned [].
Proof.
  split.
  - apply (proj1 explicit_provider_is_transparent). discriminate.
  - split; [reflexivity|]. split; [|split; [reflexivity|split; [reflexivity|]]].
    + apply (proj1 (proj2 (proj2 explicit_provider_is_transparent))).
      * vm_compute. reflexivity.
      * discriminate.
    + apply (proj1 (proj2 (proj2 (proj2 (proj2 (proj2 (proj2 (proj2
               explicit_provider_is_transparent)))))))
               Scenario.crypto_all_down (lit "ETH/USD") 5 1).
      right. reflexivity.
Defined.

(** ** The synthetic fallback *)

Section Fallback.
Import Bars Merged StocksRouter.

(** What the loop hands back is never an empty list. *)
Lemma stock_try_providers_some (w : world) (symbol : str) (interval days : Z)
    (providers : list string) (st : state) (data : list Bar) (st' : state) :
  try_providers w symbol interval days providers st = (Some data, st') -> data <> [].
Proof.
  revert st. induction providers as [|p providers IH]; intros st; cbn [try_providers].
  - discriminate.
  - unfold _fetch_from_stock_provider.
    destruct (dispatch w symbol interval days p) as [|[|b rest]].
    + apply IH.
    + apply IH.
    + intros [= <- _]. discriminate.
Qed.

Lemma stocks_auto_never_empty (w : world) (symbol : str) (interval days : Z) (st : state) :
  _is_valid_stock_symbol symbol = true ->
  1 <= days ->
  (1 <= interval <= 390 \/ 1440 <= interval) ->
  exists b rest st',
    fetch_stock_history w symbol interval days "auto" st = (Returned (b :: rest), st').
Proof.
  intros Hvalid Hdays Hint. unfold fetch_stock_history. rewrite Hvalid.
  cbn [String.eqb Ascii.eqb Bool.eqb negb].
  destruct (try_providers w symbol interval days (healthy_providers st) st)
    as [[data|] st'] eqn:Hrun.
  - apply stock_try_providers_some in Hrun.
    destruct data as [|b rest]; [contradiction|]. eauto.
  - pose proof (mock_fallback_nonempty w symbol interval days Hdays Hint) as Hne.
    destruct (mock_fallback w symbol interval days) as [|b rest]; [contradiction|]. eauto.
Qed.

Lemma stocks_auto_all_fail (w : world) (symbol : str) (interval days : Z) (st : state) :
  _is_valid_stock_symbol symbol = true ->
  (forall p, no_data (dispatch w symbol interval days p)) ->
  fst (fetch_stock_history w symbol interval days "auto" st)
  = Returned (mock_fallback w symbol interval days).
Proof.
  intros Hvalid Hfail. unfold fetch_stock_history. rewrite Hvalid.
  cbn [String.eqb Ascii.eqb Bool.eqb negb].
  destruct (stock_try_providers_all_fail w symbol interval days (healthy_providers st) st)
    as (st' & -> & _); [|reflexivity].
  rewrite Forall_forall. intros p _. apply Hfail.
Qed.

Lemma crypto_auto_all_fail (w : CryptoRouter.world) (symbol : str) (interval days : Z)
    (st : CryptoRouter.state) :
  (forall p, no_data (CryptoRouter.dispatch w symbol interval days p)) ->
  fst (CryptoRouter.fetch_history_crypto w symbol interval days "auto" st) = Returned [].
Proof.
  intros Hfail. unfold CryptoRouter.fetch_history_crypto.
  cbn [String.eqb Ascii.eqb Bool.eqb negb].
  destruct (try_providers_all_fail w symbol interval days
              (CryptoRouter.healthy_providers st) st) as (st' & -> & _); [|reflexivity].
  rewrite Forall_forall. intros p _. apply Hfail.
Qed.

(** The generator is asked for no bar when the interval lies strictly
    between the trading day and a calendar day: twelve-hour bars over
    thirty days come back empty once every provider has failed. *)
Example stocks_fallback_empty_for_half_day_bars :
  fst (fetch_stock_history Scenario.stocks_all_down (lit "AAPL") 720 30 "auto" (loaded 1000))
  = Returned [].
Proof. vm_compute. reflexivity. Qed.

End Fallback.

(** C1 (counterexample). The crypto router has no synthetic fallback: in
    "auto" mode, with every provider raising or returning nothing, it
    returns the empty list. *)
Lemma crypto_auto_returns_empty_when_all_fail :
  Forall (fun p => Merged.no_data
                     (CryptoRouter.dispatch Scenario.crypto_all_down (lit "ETH/USD") 5 1 p))
         CryptoRouter.PROVIDER_PRIORITY /\
  fst (CryptoRouter.fetch_history_crypto Scenario.crypto_all_down (lit "ETH/USD") 5 1 "auto"
                                         (CryptoRouter.loaded 1000))
  = Bars.Returned [].
Proof.
  split; [|vm_compute; reflexivity].
  repeat constructor; solve [left; vm_compute; reflexivity | right; vm_compute; reflexivity].
Qed.

(** C1 (amended). In "auto" mode the stocks router never returns an empty
    list for a symbol that passes its format check when at least one bar is
    to be generated — [days >= 1] and an interval of 1 to 390 minutes, or of
    a day or more: it returns the bars of a provider or, when every provider
    raises or returns nothing, the synthetic series.  The crypto router has
    no synthetic fallback and returns the empty list when every provider
    fails. *)
Theorem auto_mode_fallback :
  (forall w symbol interval days st,
      StocksRouter._is_valid_stock_symbol symbol = true ->
      1 <= days ->
      (1 <= interval <= 390 \/ 1440 <= interval) ->
      (exists b rest st',
          StocksRouter.fetch_stock_history w symbol interval days "auto" st
          = (Bars.Returned (b :: rest), st')) /\
      ((forall p, Merged.no_data (StocksRouter.dispatch w symbol interval days p)) ->
       fst (StocksRouter.fetch_stock_history w symbol interval days "auto" st)
       = Bars.Returned (StocksRouter.mock_fallback w symbol interval days) /\
       StocksRouter.mock_fallback w symbol interval days <> []))
  /\
  (forall w symbol interval days st,
      (forall p, Merged.no_data (CryptoRouter.dispatch w symbol interval days p)) ->
      fst (CryptoRouter.fetch_history_crypto w symbol interval days "auto" st)
      = Bars.Returned []).
Proof.
  split.
  - intros w symbol interval days st Hvalid Hdays Hint.
    split; [apply stocks_auto_never_empty; assumption|].
    intros Hfail. split; [apply stocks_auto_all_fail; assumption|].
    apply mock_fallback_nonempty; assumption.
  - intros. apply crypto_auto_all_fail. assumption.
Qed.

(** One day of five-minute bars for "AAPL" with every stock provider
    raising: the 78 synthetic bars come back. *)
Lemma auto_mode_fallback_witness :
  (exists b rest st',
      StocksRouter.fetch_stock_history Scenario.stocks_all_down (lit "AAPL") 5 1 "auto"
                                       (StocksRouter.loaded 1000)
      = (Bars.Returned (b :: rest), st')) /\
  fst (StocksRouter.fetch_stock_history Scenario.stocks_all_down (lit "AAPL") 5 1 "auto"
                                        (StocksRouter.loaded 1000))
  = Bars.Returned (StocksRouter.mock_fallback Scenario.stocks_all_down (lit "AAPL") 5 1) /\
  StocksRouter.mock_fallback Scenario.stocks_all_down (lit "AAPL") 5 1 <> [] /\
  length (StocksRouter.mock_fallback Scenario.stocks_all_down (lit "AAPL") 5 1) = 78%nat.
Proof.
  assert (Hvalid : StocksRouter._is_valid_stock_symbol (lit "AAPL") = true)
    by (vm_compute; reflexivity).
  assert (Hdays : 1 <= 1) by lia.
  assert (Hint : 1 <= 5 <= 390 \/ 1440 <= 5) by lia.
  destruct (proj1 auto_mode_fallback Scenario.stocks_all_down (lit "AAPL") 5 1
              (StocksRouter.loaded 1000) Hvalid Hdays Hint) as [Hsome Hall].
  split; [exact Hsome|].
  destruct Hall as [Hfst Hne].
  - intros p. left. unfold StocksRouter.dispatch.
    destruct (StocksRouter.known_provider p); reflexivity.
  - split; [exact Hfst|]. split; [exact Hne|].
    change (StocksRouter.mock_fallback Scenario.stocks_all_down (lit "AAPL") 5 1)
      with (MockStockData.generate_realistic_ohlcv Scenario.mock_env (lit "AAPL") 5 78 100).
    rewrite generator_length. reflexivity.
Defined.

(** ** The health tables *)

Section Health.
Import Bars Merged.

Lemma crypto_loaded_lookup (now : Q) (p : string) (b : bool) :
  CryptoRouter.PROVIDER_HEALTH (CryptoRouter.loaded now) !! p = Some b -> b = true.
Proof.
  cbn [CryptoRouter.loaded CryptoRouter.PROVIDER_HEALTH]. intros H.
  apply elem_of_list_to_map_2 in H. rewrite list_elem_of_In in H. cbn in H.
  repeat (destruct H as [[= _ <-]|H]; [reflexivity|]). destruct H.
Qed.

Lemma crypto_loaded_priority (now : Q) (p : string) :
  In p CryptoRouter.PROVIDER_PRIORITY ->
  CryptoRouter.PROVIDER_HEALTH (CryptoRouter.loaded now) !! p = Some true.
Proof.
  cbn. intros H.
  repeat (destruct H as [<-|H]; [vm_compute; reflexivity|]). destruct H.
Qed.

Lemma crypto_reset_table (st : CryptoRouter.state) (now : Q) :
  CryptoRouter.PROVIDER_HEALTH (CryptoRouter.reset_provider_health st)
  = CryptoRouter.PROVIDER_HEALTH (CryptoRouter.loaded now).
Proof. reflexivity. Qed.

Lemma crypto_healthy_sub (st : CryptoRouter.state) (p : string) :
  In p (CryptoRouter.healthy_providers st) -> In p CryptoRouter.PROVIDER_PRIORITY.
Proof. unfold CryptoRouter.healthy_providers. rewrite filter_In. tauto. Qed.

(** No operation of the crypto router turns an entry to [False]. *)
Lemma crypto_serve_never_demotes (r : CryptoRouter.request) (st : CryptoRouter.state)
    (p : string) :
  CryptoRouter.PROVIDER_HEALTH (snd (CryptoRouter.serve r st)) !! p = Some false ->
  CryptoRouter.PROVIDER_HEALTH st !! p = Some false.
Proof.
  destruct r as [w symbol interval days provider| | |seconds]; cbn [CryptoRouter.serve].
  - destruct (CryptoRouter.fetch_history_crypto w symbol interval days provider st)
      as [o st'] eqn:Hrun. cbn [snd].
    unfold CryptoRouter.fetch_history_crypto in Hrun.
    destruct (negb (String.eqb provider "auto")).
    + destruct (fetch_from_provider_spec w symbol interval days provider st)
        as (issued & st1 & Hspec & Hh & _).
      rewrite Hspec in Hrun. injection Hrun as _ <-. rewrite Hh. trivial.
    + pose proof (try_providers_health w symbol interval days
                    (CryptoRouter.healthy_providers st) st) as Hh.
      rewrite Hrun in Hh. cbn [snd] in Hh.
      destruct Hh as [-> | (prov & _ & ->)]; [trivial|].
      rewrite lookup_insert. case_decide; [discriminate | trivial].
  - trivial.
  - cbn [snd]. rewrite (crypto_reset_table st 0). intros H.
    apply crypto_loaded_lookup in H. discriminate.
  - trivial.
Qed.

(** Every operation keeps the all-healthy table. *)
Lemma crypto_serve_keeps_table (r : CryptoRouter.request) (st : CryptoRouter.state) (now : Q) :
  CryptoRouter.PROVIDER_HEALTH st = CryptoRouter.PROVIDER_HEALTH (CryptoRouter.loaded now) ->
  CryptoRouter.PROVIDER_HEALTH (snd (CryptoRouter.serve r st))
  = CryptoRouter.PROVIDER_HEALTH (CryptoRouter.loaded now).
Proof.
  intros Hinv.
  destruct r as [w symbol interval days provider| | |seconds]; cbn [CryptoRouter.serve].
  - destruct (CryptoRouter.fetch_history_crypto w symbol interval days provider st)
      as [o st'] eqn:Hrun. cbn [snd].
    unfold CryptoRouter.fetch_history_crypto in Hrun.
    destruct (negb (String.eqb provider "auto")).
    + destruct (fetch_from_provider_spec w symbol interval days provider st)
        as (issued & st1 & Hspec & Hh & _).
      rewrite Hspec in Hrun. injection Hrun as _ <-. rewrite Hh. exact Hinv.
    + pose proof (try_providers_health w symbol interval days
                    (CryptoRouter.healthy_providers st) st) as Hh.
      rewrite Hrun in Hh. cbn [snd] in Hh.
      destruct Hh as [-> | (prov & Hin & ->)]; [exact Hinv|].
      rewrite Hinv. apply insert_id, crypto_loaded_priority.
      eapply crypto_healthy_sub, Hin.
  - exact Hinv.
  - reflexivity.
  - exact Hinv.
Qed.

Lemma crypto_run_keeps_table (rs : list CryptoRouter.request) (st : CryptoRouter.state)
    (now : Q) :
  CryptoRouter.PROVIDER_HEALTH st = CryptoRouter.PROVIDER_HEALTH (CryptoRouter.loaded now) ->
  CryptoRouter.PROVIDER_HEALTH (CryptoRouter.run rs st)
  = CryptoRouter.PROVIDER_HEALTH (CryptoRouter.loaded now).
Proof.
  revert st. induction rs as [|r rs IH]; intros st Hinv; cbn [CryptoRouter.run fold_left].
  - exact Hinv.
  - apply IH, crypto_serve_keeps_table, Hinv.
Qed.

Lemma crypto_all_candidates (st : CryptoRouter.state) (now : Q) :
  CryptoRouter.PROVIDER_HEALTH st = CryptoRouter.PROVIDER_HEALTH (CryptoRouter.loaded now) ->
  CryptoRouter.healthy_providers st = CryptoRouter.PROVIDER_PRIORITY.
Proof.
  intros Hinv. unfold CryptoRouter.healthy_providers. rewrite Hinv.
  vm_compute. reflexivity.
Qed.

Lemma stocks_loaded_lookup (now : Q) (p : string) (b : bool) :
  StocksRouter.STOCK_PROVIDER_HEALTH (StocksRouter.loaded now) !! p = Some b -> b = true.
Proof.
  cbn [StocksRouter.loaded StocksRouter.STOCK_PROVIDER_HEALTH]. intros H.
  apply elem_of_list_to_map_2 in H. rewrite list_elem_of_In in H. cbn in H.
  repeat (destruct H as [[= _ <-]|H]; [reflexivity|]). destruct H.
Qed.

Lemma stocks_loaded_priority (now : Q) (p : string) :
  In p StocksRouter.STOCK_PROVIDER_PRIORITY ->
  StocksRouter.STOCK_PROVIDER_HEALTH (StocksRouter.loaded now) !! p = Some true.
Proof.
  cbn. intros H.
  repeat (destruct H as [<-|H]; [vm_compute; reflexivity|]). destruct H.
Qed.

Lemma stocks_healthy_sub (st : StocksRouter.state) (p : string) :
  In p (StocksRouter.healthy_providers st) -> In p StocksRouter.STOCK_PROVIDER_PRIORITY.
Proof. unfold StocksRouter.healthy_providers. rewrite filter_In. tauto. Qed.

(** The health table after one request to the stocks router: the one
    before, or the one before with a candidate set to [True]. *)
Lemma stocks_fetch_health (w : StocksRouter.world) (symbol : str) (interval days : Z)
    (provider : string) (st : StocksRouter.state) :
  let st' := snd (StocksRouter.fetch_stock_history w symbol interval days provider st) in
  StocksRouter.STOCK_PROVIDER_HEALTH st' = StocksRouter.STOCK_PROVIDER_HEALTH st \/
  exists prov, In prov StocksRouter.STOCK_PROVIDER_PRIORITY /\
               StocksRouter.STOCK_PROVIDER_HEALTH st'
               = <[prov := true]> (StocksRouter.STOCK_PROVIDER_HEALTH st).
Proof.
  unfold StocksRouter.fetch_stock_history.
  destruct (negb (StocksRouter._is_valid_stock_symbol symbol)); [left; reflexivity|].
  destruct (negb (String.eqb provider "auto")); [left; reflexivity|].
  pose proof (stock_try_providers_health w symbol interval days
                (StocksRouter.healthy_providers st) st) as Hh.
  destruct (StocksRouter.try_providers w symbol interval days
              (StocksRouter.healthy_providers st) st) as [[data|] st'].
  - cbn [snd] in *. destruct Hh as [-> | (prov & Hin & ->)]; [left; reflexivity|].
    right. exists prov. split; [eapply stocks_healthy_sub, Hin | reflexivity].
  - cbn [snd] in *. destruct Hh as [-> | (prov & Hin & ->)]; [left; reflexivity|].
    right. exists prov. split; [eapply stocks_healthy_sub, Hin | reflexivity].
Qed.

Lemma stocks_fetch_never_demotes (w : StocksRouter.world) (symbol : str) (interval days : Z)
    (provider : string) (st : StocksRouter.state) (p : string) :
  StocksRouter.STOCK_PROVIDER_HEALTH
    (snd (StocksRouter.fetch_stock_history w symbol interval days provider st)) !! p
  = Some false ->
  StocksRouter.STOCK_PROVIDER_HEALTH st !! p = Some false.
Proof.
  destruct (stocks_fetch_health w symbol interval days provider st)
    as [-> | (prov & _ & ->)]; [trivial|].
  rewrite lookup_insert. case_decide; [discriminate | trivial].
Qed.

Lemma stocks_run_keeps_table (rs : list (StocksRouter.world * str * Z * Z * string))
    (st : StocksRouter.state) (now : Q) :
  StocksRouter.STOCK_PROVIDER_HEALTH st
  = StocksRouter.STOCK_PROVIDER_HEALTH (StocksRouter.loaded now) ->
  StocksRouter.STOCK_PROVIDER_HEALTH (StocksRouter.run rs st)
  = StocksRouter.STOCK_PROVIDER_HEALTH (StocksRouter.loaded now).
Proof.
  revert st. induction rs as [|[[[[w symbol] interval] days] provider] rs IH];
    intros st Hinv; cbn [StocksRouter.run fold_left].
  - exact Hinv.
  - apply IH.
    destruct (stocks_fetch_health w symbol interval days provider st)
      as [-> | (prov & Hin & ->)]; [exact Hinv|].
    rewrite Hinv. apply insert_id, stocks_loaded_priority, Hin.
Qed.

Lemma stocks_all_candidates (st : StocksRouter.state) (now : Q) :
  StocksRouter.STOCK_PROVIDER_HEALTH st
  = StocksRouter.STOCK_PROVIDER_HEALTH (StocksRouter.loaded now) ->
  StocksRouter.healthy_providers st = StocksRouter.STOCK_PROVIDER_PRIORITY.
Proof.
  intros Hinv. unfold StocksRouter.healthy_providers. rewrite Hinv.
  vm_compute. reflexivity.
Qed.

End Health.

(** C10. The health flag is never demoted.  No operation of either router
    — a fetch in "auto" or explicit mode, whatever the adapters do, reading
    the table, or [reset_provider_health] — turns an entry of the health
    table to [False]; so from the state in which the modules are loaded,
    after any sequence of operations, the table is the all-healthy one,
    the candidate filter of "auto" mode keeps the whole priority list, and
    [get_provider_health] gives [True] for every provider. *)
Theorem provider_health_never_demoted :
  (forall r st p,
      CryptoRouter.PROVIDER_HEALTH (snd (CryptoRouter.serve r st)) !! p = Some false ->
      CryptoRouter.PROVIDER_HEALTH st !! p = Some false)
  /\
  (forall rs now,
      CryptoRouter.PROVIDER_HEALTH (CryptoRouter.run rs (CryptoRouter.loaded now))
      = CryptoRouter.PROVIDER_HEALTH (CryptoRouter.loaded now)
      /\ CryptoRouter.healthy_providers (CryptoRouter.run rs (CryptoRouter.loaded now))
         = CryptoRouter.PROVIDER_PRIORITY
      /\ (forall p, In p CryptoRouter.PROVIDER_PRIORITY ->
                    CryptoRouter.get_provider_health
                      (CryptoRouter.run rs (CryptoRouter.loaded now)) !! p = Some true)
      /\ (forall p b, CryptoRouter.get_provider_health
                        (CryptoRouter.run rs (CryptoRouter.loaded now)) !! p = Some b ->
                      b = true))
  /\
  (forall w symbol interval days provider st p,
      StocksRouter.STOCK_PROVIDER_HEALTH
        (snd (StocksRouter.fetch_stock_history w symbol interval days provider st)) !! p
      = Some false ->
      StocksRouter.STOCK_PROVIDER_HEALTH st !! p = Some false)
  /\
  (forall rs now,
      StocksRouter.STOCK_PROVIDER_HEALTH (StocksRouter.run rs (StocksRouter.loaded now))
      = StocksRouter.STOCK_PROVIDER_HEALTH (StocksRouter.loaded now)
      /\ StocksRouter.healthy_providers (StocksRouter.run rs (StocksRouter.loaded now))
         = StocksRouter.STOCK_PROVIDER_PRIORITY
      /\ (forall p, In p StocksRouter.STOCK_PROVIDER_PRIORITY ->
                    StocksRouter.STOCK_PROVIDER_HEALTH
                      (StocksRouter.run rs (StocksRouter.loaded now)) !! p = Some true)).
Proof.
  split; [exact crypto_serve_never_demotes|].
  split.
  { intros rs now.
    pose proof (crypto_run_keeps_table rs (CryptoRouter.loaded now) now eq_refl) as Htab.
    split; [exact Htab|].
    split; [apply (crypto_all_candidates _ now), Htab|].
    unfold CryptoRouter.get_provider_health. rewrite Htab.
    split; [apply crypto_loaded_priority | apply crypto_loaded_lookup]. }
  split; [exact stocks_fetch_never_demotes|].
  intros rs now.
  pose proof (stocks_run_keeps_table rs (StocksRouter.loaded now) now eq_refl) as Htab.
  split; [exact Htab|].
  split; [apply (stocks_all_candidates _ now), Htab|].
  rewrite Htab. apply stocks_loaded_priority.
Qed.

(** ** Request spacing *)

Section RequestSpacing.
Import Bars Spacing CryptoRouter.

Lemma Qltb_true (a b : Q) : Qltb a b = true -> (a < b)%Q.
Proof.
  unfold Qltb. intros H. apply negb_true_iff in H.
  destruct (Qlt_le_dec a b) as [Hlt|Hle]; [exact Hlt|].
  apply Qle_bool_iff in Hle. congruence.
Qed.

Lemma Qltb_false (a b : Q) : Qltb a b = false -> (b <= a)%Q.
Proof.
  unfold Qltb. intros H. apply negb_false_iff in H. apply Qle_bool_iff. exact H.
Qed.

(** What [_fetch_from_provider] does with the clock: the attempt is let
    through no earlier than the call came in, and no earlier than
    [MIN_REQUEST_INTERVAL] after the time of last request. *)
Lemma fetch_from_provider_waits (w : world) (symbol : str) (interval days : Z)
    (provider : string) (st : state) :
  (0 <= sleep_overshoot w provider)%Q ->
  exists (issued : Q) (st' : state),
    _fetch_from_provider w symbol interval days provider st
    = (dispatch w symbol interval days provider, st') /\
    PROVIDER_HEALTH st' = PROVIDER_HEALTH st /\
    LAST_REQUEST_TIME st' = <[provider := issued]> (LAST_REQUEST_TIME st) /\
    attempts st' = attempts st ++ [(provider, issued)] /\
    (default 0%Q (LAST_REQUEST_TIME st !! provider) + MIN_REQUEST_INTERVAL <= issued)%Q /\
    (clock st <= issued)%Q.
Proof.
  intros Hlate. unfold _fetch_from_provider.
  destruct (Qltb _ _) eqn:Hcmp; eexists _, _; (split; [reflexivity|]); cbn;
    (split; [reflexivity|]); (split; [reflexivity|]); (split; [reflexivity|]).
  - apply Qltb_true in Hcmp. unfold MIN_REQUEST_INTERVAL in *. split; lra.
  - apply Qltb_false in Hcmp. unfold MIN_REQUEST_INTERVAL in *. split; lra.
Qed.

Lemma spaced_snoc (l : list (string * Q)) (p : string) (issued : Q) :
  spaced MIN_REQUEST_INTERVAL l ->
  (forall t, In (p, t) l -> (t + MIN_REQUEST_INTERVAL <= issued)%Q) ->
  spaced MIN_REQUEST_INTERVAL (l ++ [(p, issued)]).
Proof.
  intros Hl Hnew i j q t1 t2 Hij Hi Hj.
  destruct (decide (j < length l)%nat) as [Hjl|Hjl].
  - rewrite lookup_app_l in Hi by lia. rewrite lookup_app_l in Hj by lia.
    exact (Hl i j q t1 t2 Hij Hi Hj).
  - assert (Hlen : (j < length (l ++ [(p, issued)]))%nat)
      by (eapply lookup_lt_Some; exact Hj).
    rewrite length_app in Hlen. cbn in Hlen.
    assert (j = length l) as -> by lia.
    rewrite lookup_app_r in Hj by lia. rewrite Nat.sub_diag in Hj.
    cbn in Hj. injection Hj as <- <-.
    rewrite lookup_app_l in Hi by lia.
    apply Hnew. rewrite <- list_elem_of_In. eapply list_elem_of_lookup_2. exact Hi.
Qed.

(** One attempt keeps the record consistent. *)
Lemma attempt_consistent (st st' : state) (provider : string) (issued : Q) :
  consistent st ->
  LAST_REQUEST_TIME st' = <[provider := issued]> (LAST_REQUEST_TIME st) ->
  attempts st' = attempts st ++ [(provider, issued)] ->
  (default 0%Q (LAST_REQUEST_TIME st !! provider) + MIN_REQUEST_INTERVAL <= issued)%Q ->
  consistent st'.
Proof.
  intros [Hsp Hlast] Hl Ha Hwait. unfold consistent. rewrite Hl, Ha. split.
  - apply spaced_snoc; [exact Hsp|].
    intros t Hin. destruct (Hlast provider t Hin) as (t' & Ht' & Hle).
    rewrite Ht' in Hwait. cbn in Hwait. lra.
  - intros q t Hin. apply in_app_or in Hin as [Hin|[[= <- <-]|[]]].
    + destruct (Hlast q t Hin) as (t' & Ht' & Hle).
      destruct (decide (provider = q)) as [<-|Hne].
      * exists issued. rewrite lookup_insert_eq. split; [reflexivity|].
        rewrite Ht' in Hwait. cbn in Hwait. unfold MIN_REQUEST_INTERVAL in Hwait. lra.
      * exists t'. rewrite lookup_insert_ne by exact Hne. auto.
    + exists issued. rewrite lookup_insert_eq. split; [reflexivity | lra].
Qed.

Lemma try_providers_consistent (w : world) (symbol : str) (interval days : Z)
    (providers : list string) (st : state) :
  (forall p, (0 <= sleep_overshoot w p)%Q) ->
  consistent st ->
  consistent (snd (try_providers w symbol interval days providers st)).
Proof.
  intros Hlate. revert st.
  induction providers as [|p providers IH]; intros st Hst; cbn [try_providers].
  - exact Hst.
  - destruct (fetch_from_provider_waits w symbol interval days p st (Hlate p))
      as (issued & st1 & -> & _ & Hl & Ha & Hwait & _).
    pose proof (attempt_consistent st st1 p issued Hst Hl Ha Hwait) as Hst1.
    destruct (dispatch w symbol interval days p) as [|[|b data]].
    + apply IH, Hst1.
    + apply IH, Hst1.
    + exact Hst1.
Qed.

Lemma serve_consistent (r : request) (st : state) :
  punctual r -> consistent st -> consistent (snd (serve r st)).
Proof.
  destruct r as [w symbol interval days provider| | |seconds];
    cbn [punctual serve]; intros Hlate Hst; try exact Hst.
  destruct (fetch_history_crypto w symbol interval days provider st) as [o st'] eqn:Hrun.
  cbn [snd]. unfold fetch_history_crypto in Hrun.
  destruct (negb (String.eqb provider "auto")).
  - destruct (fetch_from_provider_waits w symbol interval days provider st (Hlate provider))
      as (issued & st1 & Hspec & _ & Hl & Ha & Hwait & _).
    rewrite Hspec in Hrun. injection Hrun as _ <-.
    eapply attempt_consistent; eassumption.
  - pose proof (try_providers_consistent w symbol interval days
                  (healthy_providers st) st Hlate Hst) as H.
    rewrite Hrun in H. exact H.
Qed.

Lemma run_consistent (rs : list request) (st : state) :
  Forall punctual rs -> consistent st -> consistent (run rs st).
Proof.
  intros Hrs. revert st.
  induction Hrs as [|r rs Hr _ IH]; intros st Hst; cbn [run fold_left].
  - exact Hst.
  - apply IH, serve_consistent; assumption.
Qed.

Lemma loaded_consistent (now : Q) : consistent (loaded now).
Proof.
  split.
  - intros i j p t1 t2 _ Hi _. cbn in Hi. rewrite lookup_nil in Hi. discriminate.
  - intros p t [].
Qed.

End RequestSpacing.

(** C9 (counterexample). The stocks router keeps no time of last request
    and never suspends its caller: two requests for the same explicit
    provider, one right after the other, are both let through at time 1000,
    less than any minimum interval apart. *)
Lemma stocks_requests_are_not_spaced :
  StocksRouter.attempts
    (StocksRouter.run [ (Scenario.stocks_up, lit "AAPL", 5, 1, "polygon"%string);
                        (Scenario.stocks_up, lit "AAPL", 5, 1, "polygon"%string) ]
                      (StocksRouter.loaded 1000))
  = [("polygon"%string, 1000%Q); ("polygon"%string, 1000%Q)] /\
  ~ Spacing.spaced CryptoRouter.MIN_REQUEST_INTERVAL
      (StocksRouter.attempts
         (StocksRouter.run [ (Scenario.stocks_up, lit "AAPL", 5, 1, "polygon"%string);
                             (Scenario.stocks_up, lit "AAPL", 5, 1, "polygon"%string) ]
                           (StocksRouter.loaded 1000))).
Proof.
  assert (Heq : StocksRouter.attempts
                  (StocksRouter.run [ (Scenario.stocks_up, lit "AAPL", 5, 1, "polygon"%string);
                                      (Scenario.stocks_up, lit "AAPL", 5, 1, "polygon"%string) ]
                                    (StocksRouter.loaded 1000))
                = [("polygon"%string, 1000%Q); ("polygon"%string, 1000%Q)])
    by (vm_compute; reflexivity).
  split; [exact Heq|]. rewrite Heq. intros Hsp.
  specialize (Hsp 0%nat 1%nat "polygon"%string 1000%Q 1000%Q (Nat.lt_0_1) eq_refl eq_refl).
  unfold CryptoRouter.MIN_REQUEST_INTERVAL in Hsp. lra.
Qed.

(** C9 (amended). Request spacing is enforced for every fetch that goes
    through the crypto router, with one minimum interval of 2 seconds for
    all providers: [_fetch_from_provider] lets an attempt through no earlier
    than 2 seconds after the time of last request recorded for the provider,
    suspending the caller for the remainder when less has elapsed; so in any
    sequence of router operations served one after the other, two attempts
    on the same provider are at least 2 seconds apart, provided the sleep
    does not return early.  (The stocks router does no spacing.) *)
Theorem crypto_requests_are_spaced :
  (forall w symbol interval days provider st,
      (0 <= CryptoRouter.sleep_overshoot w provider)%Q ->
      exists issued st',
        CryptoRouter._fetch_from_provider w symbol interval days provider st
        = (CryptoRouter.dispatch w symbol interval days provider, st') /\
        CryptoRouter.LAST_REQUEST_TIME st' !! provider = Some issued /\
        CryptoRouter.attempts st' = CryptoRouter.attempts st ++ [(provider, issued)] /\
        (default 0%Q (CryptoRouter.LAST_REQUEST_TIME st !! provider)
         + CryptoRouter.MIN_REQUEST_INTERVAL <= issued)%Q /\
        (CryptoRouter.clock st <= issued)%Q)
  /\
  (forall rs now,
      Forall Spacing.punctual rs ->
      Spacing.spaced CryptoRouter.MIN_REQUEST_INTERVAL
                     (CryptoRouter.attempts (CryptoRouter.run rs (CryptoRouter.loaded now)))).
Proof.
  split.
  - intros w symbol interval days provider st Hlate.
    destruct (fetch_from_provider_waits w symbol interval days provider st Hlate)
      as (issued & st' & Hrun & _ & Hl & Ha & Hwait & Hclock).
    exists issued, st'. rewrite Hl, lookup_insert_eq. auto.
  - intros rs now Hrs.
    apply (run_consistent rs (CryptoRouter.loaded now) Hrs (loaded_consistent now)).
Qed.

(** Two requests for Kraken, one right after the other, in a world where
    calls take no time: the second is let through 2 seconds after the
    first. *)
Lemma crypto_requests_are_spaced_witness :
  CryptoRouter.attempts
    (CryptoRouter.run
       [ CryptoRouter.FetchHistory Scenario.crypto_all_down (lit "ETH/USD") 5 1 "kraken";
         CryptoRouter.FetchHistory Scenario.crypto_all_down (lit "ETH/USD") 5 1 "kraken" ]
       (CryptoRouter.loaded 1000))
  = [("kraken"%string, 1000%Q); ("kraken"%string, 1002%Q)] /\
  Spacing.spaced CryptoRouter.MIN_REQUEST_INTERVAL
    (CryptoRouter.attempts
       (CryptoRouter.run
          [ CryptoRouter.FetchHistory Scenario.crypto_all_down (lit "ETH/USD") 5 1 "kraken";
            CryptoRouter.FetchHistory Scenario.crypto_all_down (lit "ETH/USD") 5 1 "kraken" ]
          (CryptoRouter.loaded 1000))).
Proof.
  split; [vm_compute; reflexivity|].
  apply (proj2 crypto_requests_are_spaced).
  repeat constructor; intros p; cbn; lra.
Defined.

(** ** Symbol validation *)

Section SymbolValidation.
Import StocksRouter CryptoSymbols.

Lemma char_eqb_eq (a b : ascii) : char_eqb a b = true <-> a = b.
Proof. unfold char_eqb. apply Ascii.eqb_eq. Qed.

Lemma str_eqb_eq (a b : str) : str_eqb a b = true <-> a = b.
Proof.
revert b. induction a as [|x a IH]; intros [|y b]; cbn [str_eqb]; try (split; congruence).
rewrite andb_true_iff, char_eqb_eq, IH. split; [intros [-> ->]; reflexivity | intros [= -> ->]; auto].
Qed.

Lemma in_tuple_forallb (P : str -> bool) (x : str) (l : list str) :
  in_tuple x l = true -> forallb P l = true -> P x = true.
Proof.
unfold in_tuple. rewrite existsb_exists, forallb_forall.
intros (y & Hy & Heq) Hall. apply str_eqb_eq in Heq. subst y. apply Hall, Hy.
Qed.

Lemma split_once_fst_clean (sep : ascii) (s : str) :
  contains_char sep (fst (split_once sep s)) = false.
Proof.
unfold contains_char. induction s as [|c r IH]; cbn [split_once]; [reflexivity|].
destruct (char_eqb sep c) eqn:Hc; [reflexivity|].
destruct (split_once sep r) as [a b]. cbn [fst existsb] in *. rewrite Hc, IH. reflexivity.
Qed.

Lemma split_once_app_found (sep : ascii) (a b : str) :
  contains_char sep a = true ->
  split_once sep (a ++ b) = (fst (split_once sep a), snd (split_once sep a) ++ b).
Proof.
unfold contains_char. induction a as [|c a IH]; cbn [existsb app split_once]; [discriminate|].
destruct (char_eqb sep c); [reflexivity|]. cbn [orb]. intros H. rewrite (IH H).
destruct (split_once sep a) as [x y]. reflexivity.
Qed.

Lemma split_once_app_clean (sep : ascii) (a b : str) :
  contains_char sep a = false ->
  split_once sep (a ++ b) = (a ++ fst (split_once sep b), snd (split_once sep b)).
Proof.
unfold contains_char. induction a as [|c a IH]; cbn [existsb app split_once].
- intros _. destruct (split_once sep b). reflexivity.
- destruct (char_eqb sep c); [discriminate|]. cbn [orb]. intros H. rewrite (IH H).
  reflexivity.
Qed.

(** The text a [$]-terminated pattern reads is the string itself, or the
    string without its final newline. *)
Lemma before_final_newline_cases (s : str) :
  before_final_newline s = s \/ s = before_final_newline s ++ ["010"%char].
Proof.
unfold before_final_newline. destruct (rev s) as [|c r] eqn:Hrev; [left; reflexivity|].
destruct (char_eqb c "010") eqn:Hc; [right | left; reflexivity].
apply char_eqb_eq in Hc. subst c.
rewrite <- (rev_involutive s), Hrev. reflexivity.
Qed.

Lemma before_final_newline_last (s : str) (c : ascii) :
  c <> "010"%char -> before_final_newline (s ++ [c]) = s ++ [c].
Proof.
intros Hc. unfold before_final_newline. rewrite rev_app_distr. cbn [rev app].
destruct (char_eqb c "010") eqn:H; [apply char_eqb_eq in H; contradiction | reflexivity].
Qed.

Lemma before_final_newline_letters (s : str) :
  forallb is_upper_letter s = true -> before_final_newline s = s.
Proof.
intros Hall. destruct (before_final_newline_cases s) as [H|H]; [exact H|].
rewrite H in Hall. rewrite forallb_app in Hall.
apply andb_true_iff in Hall as [_ Hnl]. discriminate.
Qed.

Lemma stock_table_entries :
  forallb (fun e => match_letters_1_5 e || contains_char "." e) ALL_US_STOCKS = true.
Proof. vm_compute. reflexivity. Qed.

Lemma class_suffix_stem (u : str) :
  match_class_suffix u = true ->
  match_letters_1_5 (fst (split_once "." u)) = true.
Proof.
unfold match_class_suffix.
destruct (split_once "." (before_final_newline u)) as [stem class] eqn:Hsplit.
rewrite !andb_true_iff. intros [[[[[Hdot Hlo] Hhi] Hstem] _] _].
assert (Hfst : fst (split_once "." u) = stem).
{ destruct (before_final_newline_cases u) as [H|H].
  - rewrite H in Hsplit. rewrite Hsplit. reflexivity.
  - rewrite H, (split_once_app_found _ _ _ Hdot), Hsplit. reflexivity. }
rewrite Hfst. unfold match_letters_1_5.
rewrite (before_final_newline_letters stem Hstem), Hlo, Hstem.
apply Nat.leb_le in Hhi. replace (length stem <=? 5)%nat with true; [reflexivity|].
symmetry. apply Nat.leb_le. lia.
Qed.

(** The symbol table and the share-class pattern accept nothing that the
    letters pattern does not accept already. *)
Lemma stock_validity_by_stem (symbol : str) :
  _is_valid_stock_symbol symbol =
  match symbol with
  | [] => false
  | _ => match_letters_1_5 (fst (split_once "." (upper symbol)))
  end.
Proof.
unfold _is_valid_stock_symbol. destruct symbol as [|c r]; [reflexivity|].
set (u := upper (c :: r)).
destruct (match_letters_1_5 (fst (split_once "." u))) eqn:Hre.
- destruct (in_tuple _ _); reflexivity.
- destruct (in_tuple (fst (split_once "." u)) ALL_US_STOCKS) eqn:Hin.
  + pose proof (in_tuple_forallb _ _ _ Hin stock_table_entries) as H. cbn beta in H.
    rewrite Hre, split_once_fst_clean in H. discriminate.
  + destruct (match_class_suffix u) eqn:Hcls; [|reflexivity].
    apply class_suffix_stem in Hcls. congruence.
Qed.

End SymbolValidation.

Section CryptoSymbolValidation.
Import StocksRouter CryptoSymbols.

Lemma split_nonempty (sep : ascii) (s : str) : split sep s <> [].
Proof.
destruct s as [|c r]; cbn [split]; [discriminate|].
destruct (char_eqb sep c); [discriminate|]. destruct (split sep r); discriminate.
Qed.

Lemma split_one (sep : ascii) (s b : str) :
  split sep s = [b] <-> s = b /\ contains_char sep b = false.
Proof.
unfold contains_char. revert b. induction s as [|c r IH]; intros b; cbn [split].
- split; [intros [= <-]; auto | intros [<- _]; reflexivity].
- destruct (char_eqb sep c) eqn:Hc.
  + split.
    * intros [= _ H]. exfalso. eapply split_nonempty, H.
    * intros [<- H]. cbn [existsb] in H. rewrite Hc in H. discriminate.
  + destruct (split sep r) as [|h t] eqn:Hs; [exfalso; eapply split_nonempty, Hs|]. split.
    * intros [= <- ->]. destruct (proj1 (IH h) eq_refl) as [-> Hh].
      cbn [existsb]. rewrite Hc, Hh. auto.
    * intros [<- H]. cbn [existsb] in H. rewrite Hc in H. cbn [orb] in H.
      assert (Hsplit : h :: t = [r]) by (apply IH; auto).
      injection Hsplit as -> ->. reflexivity.
Qed.

(** Splitting gives two pieces exactly when there is one separator. *)
Lemma split_two (sep : ascii) (s a b : str) :
  split sep s = [a; b] <->
  s = a ++ sep :: b /\ contains_char sep a = false /\ contains_char sep b = false.
Proof.
revert a. induction s as [|c r IH]; intros a; cbn [split].
- split; [discriminate|]. intros (H & _). destruct a; discriminate.
- destruct (char_eqb sep c) eqn:Hc.
  + apply char_eqb_eq in Hc. symmetry in Hc. subst c. split.
    * intros [= <- Hr]. apply split_one in Hr as [-> Hb]. auto.
    * intros (Heq & Ha & Hb). destruct a as [|x a].
      -- cbn in Heq. injection Heq as ->. f_equal. apply split_one. auto.
      -- cbn in Heq. injection Heq as <- _. unfold contains_char in Ha.
         cbn [existsb] in Ha.
         rewrite (proj2 (char_eqb_eq sep sep) eq_refl) in Ha. discriminate.
  + destruct (split sep r) as [|h t] eqn:Hs; [exfalso; eapply split_nonempty, Hs|]. split.
    * intros [= <- ->]. destruct (proj1 (IH h) eq_refl) as (-> & Hh & Hb).
      split; [reflexivity|]. unfold contains_char in *. cbn [existsb]. rewrite Hc, Hh. auto.
    * intros (Heq & Ha & Hb). destruct a as [|x a].
      -- cbn in Heq. injection Heq as -> _.
         rewrite (proj2 (char_eqb_eq sep sep) eq_refl) in Hc. discriminate.
      -- cbn in Heq. injection Heq as <- ->. unfold contains_char in Ha.
         cbn [existsb] in Ha. rewrite Hc in Ha. cbn [orb] in Ha.
         assert (Hsplit : h :: t = [a; b]) by (apply IH; auto).
         injection Hsplit as -> ->. reflexivity.
Qed.

Lemma crypto_base_table_entries : forallb match_alnum_2_10 MAJOR_CRYPTO_BASES = true.
Proof. vm_compute. reflexivity. Qed.

Lemma contains_char_app (c : ascii) (a b : str) :
  contains_char c (a ++ b) = contains_char c a || contains_char c b.
Proof. unfold contains_char. apply existsb_app. Qed.

Lemma length_upper (s : str) : length (upper s) = length s.
Proof. unfold upper. apply length_map. Qed.

(** The shape of the symbols [validate_crypto_symbol] accepts. *)
Lemma crypto_validity_shape (symbol : str) :
  validate_crypto_symbol symbol = true <->
  exists base quote : str,
    symbol = base ++ "/"%char :: quote /\
    contains_char "/" base = false /\ contains_char "/" quote = false /\
    (2 <= length base)%nat /\ (2 <= length quote)%nat /\
    match_alnum_2_10 (upper base) = true /\
    in_tuple (upper quote) VALID_QUOTE_CURRENCIES = true.
Proof.
unfold validate_crypto_symbol. split.
- destruct (length symbol <? 5)%nat; [discriminate|].
  destruct (negb (contains_char "/" symbol)); [discriminate|].
  destruct (split "/" symbol) as [|base [|quote [|x l]]] eqn:Hsplit; try discriminate.
  apply split_two in Hsplit as (-> & Hb & Hq).
  destruct (Nat.ltb_spec (length base) 2); [discriminate|].
  destruct (Nat.ltb_spec (length quote) 2); [discriminate|]. cbn [orb].
  intros Hok. exists base, quote. repeat (split; [assumption || reflexivity|]).
  destruct (in_tuple (upper quote) VALID_QUOTE_CURRENCIES);
    [|rewrite !andb_false_r in Hok; discriminate].
  split; [|reflexivity]. rewrite !andb_true_r in Hok.
  destruct (in_tuple (upper base) MAJOR_CRYPTO_BASES) eqn:Hin.
  + apply (in_tuple_forallb _ _ _ Hin crypto_base_table_entries).
  + destruct (match_alnum_2_10 (upper base)); [reflexivity | discriminate].
- intros (base & quote & -> & Hb & Hq & Hlb & Hlq & Hre & Hin).
  rewrite length_app. cbn [length].
  destruct (Nat.ltb_spec (length base + S (length quote)) 5); [lia|].
  rewrite contains_char_app. cbn [contains_char existsb].
  rewrite (proj2 (char_eqb_eq "/" "/") eq_refl), orb_true_r. cbn [negb orb].
  rewrite (proj2 (split_two "/" (base ++ "/"%char :: quote) base quote));
    [|split; [reflexivity | split; assumption]].
  destruct (Nat.ltb_spec (length base) 2); [lia|].
  destruct (Nat.ltb_spec (length quote) 2); [lia|]. cbn [orb].
  rewrite Hre, Hin. destruct (in_tuple (upper base) MAJOR_CRYPTO_BASES); reflexivity.
Qed.

Lemma slash_not_letter (s : str) :
  contains_char "/" s = true -> forallb is_upper_letter s = false.
Proof.
unfold contains_char. induction s as [|c r IH]; cbn [existsb forallb]; [discriminate|].
destruct (char_eqb "/" c) eqn:Hc.
- apply char_eqb_eq in Hc. subst c. reflexivity.
- cbn [orb]. intros H. rewrite (IH H). apply andb_false_r.
Qed.

Lemma alnum_no_dot (s : str) :
  forallb is_upper_alnum s = true -> contains_char "." s = false.
Proof.
unfold contains_char. induction s as [|c r IH]; cbn [existsb forallb]; [reflexivity|].
rewrite andb_true_iff. intros [Hc Hr]. rewrite (IH Hr), orb_false_r.
destruct (char_eqb "." c) eqn:H; [|reflexivity].
apply char_eqb_eq in H. subst c. discriminate.
Qed.

Lemma match_alnum_no_dot (s : str) :
  match_alnum_2_10 s = true -> contains_char "." s = false.
Proof.
unfold match_alnum_2_10. rewrite !andb_true_iff. intros [_ Hall].
apply alnum_no_dot in Hall.
destruct (before_final_newline_cases s) as [H|H]; [rewrite <- H; exact Hall|].
rewrite H, contains_char_app, Hall. reflexivity.
Qed.

Lemma letters_pattern_no_slash (s : str) :
  contains_char "/" s = true -> match_letters_1_5 s = false.
Proof.
intros Hs. unfold match_letters_1_5.
assert (H : contains_char "/" (before_final_newline s) = true).
{ destruct (before_final_newline_cases s) as [H|H]; [rewrite H; exact Hs|].
  rewrite H, contains_char_app in Hs. apply orb_true_iff in Hs as [Hs|Hs]; [exact Hs|].
  discriminate. }
rewrite (slash_not_letter _ H). apply andb_false_r.
Qed.

(** No symbol passes both validators. *)
Lemma crypto_symbols_are_not_stock_symbols (symbol : str) :
  validate_crypto_symbol symbol = true -> _is_valid_stock_symbol symbol = false.
Proof.
intros H. apply crypto_validity_shape in H
  as (base & quote & -> & _ & _ & _ & _ & Hre & _).
rewrite stock_validity_by_stem. destruct (base ++ "/"%char :: quote) eqn:Heq;
  [reflexivity|]. rewrite <- Heq. clear Heq.
unfold upper. rewrite map_app. cbn [map].
change (map upper_char base) with (upper base).
rewrite (split_once_app_clean _ _ _ (match_alnum_no_dot _ Hre)). cbn [fst].
apply letters_pattern_no_slash.
rewrite contains_char_app. change (upper_char "/") with "/"%char.
cbn [split_once]. change (char_eqb "." "/") with false. cbv iota.
destruct (split_once "." (map upper_char quote)) as [q1 q2]. cbn [fst].
cbn [contains_char existsb]. rewrite (proj2 (char_eqb_eq "/" "/") eq_refl).
cbn [orb]. apply orb_true_r.
Qed.

End CryptoSymbolValidation.

(** X1. The stocks router accepts a symbol exactly when it is not empty and
    its upper-cased text before the first dot is one to five letters
    (followed by at most one final newline); the symbol table and the
    share-class pattern accept nothing more, and whatever follows the first
    dot is not looked at.  [is_stock_symbol] is the same test. *)
Theorem stock_symbol_valid_iff_stem_letters :
  forall symbol : str,
    (StocksRouter._is_valid_stock_symbol symbol = true <->
     symbol <> [] /\
     StocksRouter.match_letters_1_5 (fst (split_once "." (upper symbol))) = true) /\
    Api.is_stock_symbol symbol = StocksRouter._is_valid_stock_symbol symbol /\
    (forall stem rest1 rest2 : str,
        StocksRouter._is_valid_stock_symbol (stem ++ "."%char :: rest1)
        = StocksRouter._is_valid_stock_symbol (stem ++ "."%char :: rest2)).
Proof.
intros symbol. split; [|split; [reflexivity|]].
- rewrite stock_validity_by_stem. destruct symbol as [|c r].
  + split; [discriminate | intros [H _]; contradiction].
  + split; [intros H; split; [discriminate | exact H] | intros [_ H]; exact H].
- intros stem rest1 rest2. rewrite !stock_validity_by_stem.
  assert (Hstem : forall rest,
             fst (split_once "." (upper (stem ++ "."%char :: rest)))
             = fst (split_once "." (upper stem ++ ["."%char]))).
  { intros rest. unfold upper. rewrite map_app. cbn [map].
    change (upper_char ".") with "."%char.
    destruct (contains_char "." (map upper_char stem)) eqn:Hc.
    - rewrite !(split_once_app_found _ _ _ Hc). reflexivity.
    - rewrite !(split_once_app_clean _ _ _ Hc). cbn [split_once].
      change (char_eqb "." ".") with true. reflexivity. }
  rewrite (Hstem rest1), (Hstem rest2).
  destruct stem; reflexivity.
Qed.

(** X2. [validate_crypto_symbol] accepts exactly the symbols made of a base,
    one slash and a quote where the base has at least two characters and is,
    upper-cased, two to ten letters or digits (followed by at most one final
    newline), and the quote, upper-cased, is one of the seventeen quote
    currencies; the table of major bases accepts nothing more. *)
Theorem crypto_symbol_valid_iff_shape :
  forall symbol : str,
    CryptoSymbols.validate_crypto_symbol symbol = true <->
    exists base quote : str,
      symbol = base ++ "/"%char :: quote /\
      contains_char "/" base = false /\ contains_char "/" quote = false /\
      (2 <= length base)%nat /\ (2 <= length quote)%nat /\
      CryptoSymbols.match_alnum_2_10 (upper base) = true /\
      in_tuple (upper quote) CryptoSymbols.VALID_QUOTE_CURRENCIES = true.
Proof. exact crypto_validity_shape. Qed.

(** X3. No symbol is both a valid crypto symbol and a valid stock symbol;
    so the market detection of [api_history] serves every valid crypto
    symbol from the crypto router unless the caller names the stocks
    market. *)
Theorem crypto_symbols_are_served_as_crypto (market : string) (symbol : str) :
  CryptoSymbols.validate_crypto_symbol symbol = true ->
  market <> "stocks"%string -> market <> "stock"%string ->
  StocksRouter._is_valid_stock_symbol symbol = false /\
  Api.detect_market market symbol = "crypto"%string.
Proof.
intros Hvalid Hs1 Hs2.
pose proof (crypto_symbols_are_not_stock_symbols symbol Hvalid) as Hstock.
split; [exact Hstock|]. unfold Api.detect_market, Api.is_stock_symbol.
destruct (String.eqb_spec market "stocks"); [contradiction|].
destruct (String.eqb_spec market "stock"); [contradiction|]. cbn [orb].
rewrite Hstock, Hvalid.
destruct (String.eqb market "crypto" || String.eqb market "cryptocurrency"); reflexivity.
Qed.

(** "BTC/USD" with an unrecognised market name. *)
Lemma crypto_symbols_are_served_as_crypto_witness :
  StocksRouter._is_valid_stock_symbol (lit "BTC/USD") = false /\
  Api.detect_market "auto" (lit "BTC/USD") = "crypto"%string.
Proof.
apply crypto_symbols_are_served_as_crypto.
- vm_compute. reflexivity.
- discriminate.
- discriminate.
Defined.

(** ** The cap and the algebra of the merge *)

Section MergeAlgebra.
Import Bars Merged Rows.

Lemma py_slice_last_length {A : Type} (m : Z) (l : list A) :
  0 < m -> Z.of_nat (length (py_slice_last m l)) <= m.
Proof.
intros Hm. rewrite py_slice_last_positive by exact Hm. rewrite length_drop. lia.
Qed.

Lemma binance_days_within_cap (http : BinanceRest.upstream)
    (symbol : str) (interval days max_bars : Z) :
  Z.of_nat (length (bars_of
     (BinanceRest.fetch_binance_ohlc_days http symbol interval days max_bars)))
  <= Z.max 0 max_bars.
Proof.
unfold BinanceRest.fetch_binance_ohlc_days.
destruct (interval =? 0); cbn [bars_of]; [cbn; lia|].
destruct (Z.ltb_spec 0 max_bars) as [Hpos|Hneg].
- rewrite binance_merge_slice.
  pose proof (py_slice_last_length max_bars
                (py_sorted ts (map snd (dict_by_ts
                   (fst (BinanceRest.days_loop http symbol interval
                           (BinanceRest.total_bars_needed interval days max_bars)
                           (Z.to_nat (BinanceRest.requests_needed interval days max_bars))
                           O []))))) Hpos). lia.
- assert (Hn : Z.to_nat (BinanceRest.requests_needed interval days max_bars) = O).
  { pose proof (binance_requests_needed_le interval days max_bars) as Hle.
    assert ((max_bars + 999) / 1000 < 1) by (apply Z.div_lt_upper_bound; lia). lia. }
  rewrite Hn. cbn. lia.
Qed.

Lemma kraken_days_within_cap (http : KrakenRest.upstream) (now : Z)
    (symbol : str) (interval days max_bars : Z) :
  1 <= max_bars ->
  Z.of_nat (length (KrakenRest.fetch_ohlc_days_kraken http now symbol interval days max_bars))
  <= max_bars.
Proof.
intros Hpos. unfold KrakenRest.fetch_ohlc_days_kraken.
destruct (negb (Kraken._is_valid_symbol symbol)); [cbn; lia|].
destruct (Kraken._to_kraken_pair symbol); [cbn; lia|].
rewrite kraken_merge_is_binance_merge, binance_merge_slice.
apply py_slice_last_length. lia.
Qed.

(** Two lists strictly ascending by timestamp with the same bars are one
    list. *)
Lemma strictly_sorted_unique (l1 l2 : list Bar) :
  StronglySorted (fun a b => ts a < ts b) l1 ->
  StronglySorted (fun a b => ts a < ts b) l2 ->
  (forall b, In b l1 <-> In b l2) ->
  l1 = l2.
Proof.
intros H1. revert l2. induction H1 as [|x1 l1 Hs1 IH Hx1]; intros l2 H2 Hsame.
- destruct l2 as [|x2 l2]; [reflexivity|].
  exfalso. apply (proj2 (Hsame x2)). left. reflexivity.
- destruct H2 as [|x2 l2 Hs2 Hx2].
  + exfalso. apply (proj1 (Hsame x1)). left. reflexivity.
  + rewrite Forall_forall in Hx1, Hx2.
    assert (Heq : x1 = x2).
    { destruct (proj1 (Hsame x1) (or_introl eq_refl)) as [E|Hin1]; [auto|].
      destruct (proj2 (Hsame x2) (or_introl eq_refl)) as [E|Hin2]; [auto|].
      apply list_elem_of_In in Hin1. apply list_elem_of_In in Hin2.
      specialize (Hx2 x1 Hin1). specialize (Hx1 x2 Hin2). cbn in *. lia. }
    subst x2. f_equal. apply IH; [exact Hs2|].
    intros b. split; intros Hb.
    * destruct (proj1 (Hsame b) (or_intror Hb)) as [E|Hin]; [|exact Hin].
      subst b. apply list_elem_of_In in Hb. specialize (Hx1 x1 Hb). cbn in Hx1. lia.
    * destruct (proj2 (Hsame b) (or_intror Hb)) as [E|Hin]; [|exact Hin].
      subst b. apply list_elem_of_In in Hb. specialize (Hx2 x1 Hb). cbn in Hx2. lia.
Qed.

Lemma last_write_wins_unique (all_data R1 R2 : list Bar) :
  last_write_wins all_data R1 -> last_write_wins all_data R2 -> R1 = R2.
Proof.
intros [Hs1 H1] [Hs2 H2]. apply strictly_sorted_unique; [assumption..|].
intros b. rewrite H1, H2. reflexivity.
Qed.

(** The merged list depends on the accumulated bars only through the
    latest bar of every timestamp. *)
Lemma sorted_values_ext (l1 l2 : list Bar) :
  (forall t, latest t l1 = latest t l2) ->
  py_sorted ts (map snd (dict_by_ts l1)) = py_sorted ts (map snd (dict_by_ts l2)).
Proof.
intros Hsame. apply (last_write_wins_unique l1).
- apply sorted_values_last_write_wins.
- destruct (sorted_values_last_write_wins l2) as [Hs H]. split; [exact Hs|].
  intros b. rewrite H, Hsame. reflexivity.
Qed.

Lemma latest_In (t : Z) (l : list Bar) (b : Bar) :
  latest t l = Some b -> In b l.
Proof.
induction l as [|x l IH]; cbn [latest]; [discriminate|].
destruct (latest t l) as [y|].
- intros [= <-]. right. apply IH. reflexivity.
- destruct (ts x =? t); [intros [= <-]; left; reflexivity | discriminate].
Qed.

Lemma latest_None (t : Z) (l : list Bar) :
  latest t l = None <-> (forall b, In b l -> ts b <> t).
Proof.
induction l as [|x l IH]; cbn [latest In]; [split; [intros _ b [] | reflexivity]|].
destruct (latest t l) as [y|] eqn:Hl.
- split; [discriminate|]. intros H. exfalso.
  apply (H y); [right; eapply latest_In; exact Hl | eapply latest_ts; exact Hl].
- destruct (Z.eqb_spec (ts x) t) as [E|E].
  + split; [discriminate|]. intros H. exfalso. apply (H x); auto.
  + split; [|reflexivity]. intros _ b [<-|Hb]; [exact E|]. apply IH; auto.
Qed.

Lemma latest_strictly_sorted (l : list Bar) (b : Bar) :
  StronglySorted (fun a b => ts a < ts b) l ->
  (In b l <-> latest (ts b) l = Some b).
Proof.
induction 1 as [|x l Hs IH Hx]; cbn [latest In]; [split; [tauto | discriminate]|].
rewrite Forall_forall in Hx. split.
- intros [<-|Hb].
  + assert (Hnone : latest (ts x) l = None).
    { apply latest_None. intros y Hy. apply list_elem_of_In in Hy.
      specialize (Hx y Hy). cbn in Hx. lia. }
    rewrite Hnone, Z.eqb_refl. reflexivity.
  + rewrite (proj1 IH Hb). reflexivity.
- destruct (latest (ts b) l) as [y|] eqn:Hl.
  + intros [= ->]. right. apply IH. reflexivity.
  + destruct (ts x =? ts b); [intros [= <-]; left; reflexivity | discriminate].
Qed.

(** A list that is already strictly ascending is its own merge. *)
Lemma sorted_values_of_sorted (l : list Bar) :
  StronglySorted (fun a b => ts a < ts b) l ->
  py_sorted ts (map snd (dict_by_ts l)) = l.
Proof.
intros Hs. apply (last_write_wins_unique l).
- apply sorted_values_last_write_wins.
- split; [exact Hs|]. intros b. apply latest_strictly_sorted, Hs.
Qed.

Lemma py_slice_last_twice {A : Type} (m : Z) (l : list A) :
  0 <= m -> py_slice_last m (py_slice_last m l) = py_slice_last m l.
Proof.
intros Hm. destruct (Z.eq_dec m 0) as [->|Hne]; [rewrite !py_slice_last_zero; reflexivity|].
rewrite (py_slice_last_positive m (py_slice_last m l)) by lia.
pose proof (py_slice_last_length m l ltac:(lia)).
replace (length (py_slice_last m l) - Z.to_nat m)%nat with O by lia.
apply drop_0.
Qed.

Lemma merge_twice (m : Z) (l : list Bar) :
  0 <= m -> BinanceRest.merge m (BinanceRest.merge m l) = BinanceRest.merge m l.
Proof.
intros Hm. rewrite (binance_merge_slice m (BinanceRest.merge m l)).
rewrite sorted_values_of_sorted by apply binance_merge_sorted.
rewrite binance_merge_slice. apply py_slice_last_twice, Hm.
Qed.

Lemma merge_repeated (m : Z) (l : list Bar) :
  BinanceRest.merge m (l ++ l) = BinanceRest.merge m l.
Proof.
rewrite !binance_merge_slice. f_equal. apply sorted_values_ext.
intros t. rewrite latest_app. destruct (latest t l); reflexivity.
Qed.

Lemma merge_disjoint_pages (m : Z) (l1 l2 : list Bar) :
  disjoint_timestamps l1 l2 ->
  BinanceRest.merge m (l1 ++ l2) = BinanceRest.merge m (l2 ++ l1).
Proof.
intros Hdis. rewrite !binance_merge_slice. f_equal. apply sorted_values_ext.
intros t. rewrite !latest_app.
destruct (latest t l2) as [b2|] eqn:H2, (latest t l1) as [b1|] eqn:H1; try reflexivity.
exfalso. apply (Hdis b1 b2); [eapply latest_In; exact H1 | eapply latest_In; exact H2|].
rewrite (latest_ts _ _ _ H1), (latest_ts _ _ _ H2). reflexivity.
Qed.

End MergeAlgebra.

(** C2. The merge of the paginated adapters is last-write-wins by
    timestamp.  For every cap of at least one bar — the router calls both
    adapters with the default of 5000 — and every list of accumulated
    pages there is a list [R] that is strictly ascending by timestamp,
    holds exactly the bars that are the latest of their timestamp in the
    accumulated pages, and so one bar for every timestamp that occurs;
    both merges return the last [max_bars] bars of [R], and [R] itself
    when it holds no more than [max_bars] bars.  What either adapter
    returns is the merge of the pages it accumulated. *)
Theorem paginated_merge_last_write_wins (max_bars : Z) :
  1 <= max_bars ->
  (forall all_data : list Bars.Bar,
      exists R : list Bars.Bar,
        Merged.last_write_wins all_data R /\
        (forall b, In b all_data -> exists b', In b' R /\ Bars.ts b' = Bars.ts b) /\
        BinanceRest.merge max_bars all_data = drop (length R - Z.to_nat max_bars) R /\
        KrakenRest.merge max_bars all_data = drop (length R - Z.to_nat max_bars) R /\
        (Z.of_nat (length R) <= max_bars ->
         BinanceRest.merge max_bars all_data = R /\
         KrakenRest.merge max_bars all_data = R)) /\
  (forall http symbol interval days,
      exists all_data,
        Merged.bars_of (BinanceRest.fetch_binance_ohlc_days http symbol interval days max_bars)
        = BinanceRest.merge max_bars all_data) /\
  (forall http now symbol interval days,
      exists out,
        KrakenRest.fetch_ohlc_days_kraken http now symbol interval days max_bars
        = KrakenRest.merge max_bars out).
Proof.
intros Hcap. split; [|split].
- intros all_data.
  destruct (merge_last_write_wins max_bars all_data ltac:(lia)) as (R & Hlw & Hb & Hk).
  exists R. split; [exact Hlw|]. split; [|split; [exact Hb|split; [exact Hk|]]].
  + intros b Hin. destruct (Merged.latest (Bars.ts b) all_data) as [b'|] eqn:Hl.
    * exists b'. split; [|exact (latest_ts _ _ _ Hl)].
      apply (proj2 Hlw). rewrite (latest_ts _ _ _ Hl). exact Hl.
    * exfalso. exact (proj1 (latest_None _ _) Hl b Hin eq_refl).
  + intros Hlen. rewrite Hb, Hk.
    replace (length R - Z.to_nat max_bars)%nat with O by lia.
    rewrite drop_0. auto.
- intros http symbol interval days. unfold BinanceRest.fetch_binance_ohlc_days.
  destruct (interval =? 0); [exists []; reflexivity|].
  eexists. reflexivity.
- intros http now symbol interval days. unfold KrakenRest.fetch_ohlc_days_kraken.
  destruct (negb (Kraken._is_valid_symbol symbol)); [exists []; reflexivity|].
  destruct (Kraken._to_kraken_pair symbol); [exists []; reflexivity|].
  eexists. reflexivity.
Qed.

(** The cap the router passes, with three bars out of order, two of them
    at the same timestamp. *)
Lemma paginated_merge_last_write_wins_witness :
  exists R : list Bars.Bar,
    Merged.last_write_wins
      [Bars.mkBar 20 1 1 1 1 1; Bars.mkBar 10 2 2 2 2 2; Bars.mkBar 20 3 3 3 3 3] R /\
    BinanceRest.merge 5000
      [Bars.mkBar 20 1 1 1 1 1; Bars.mkBar 10 2 2 2 2 2; Bars.mkBar 20 3 3 3 3 3]
    = [Bars.mkBar 10 2 2 2 2 2; Bars.mkBar 20 3 3 3 3 3] /\
    KrakenRest.merge 5000
      [Bars.mkBar 20 1 1 1 1 1; Bars.mkBar 10 2 2 2 2 2; Bars.mkBar 20 3 3 3 3 3]
    = [Bars.mkBar 10 2 2 2 2 2; Bars.mkBar 20 3 3 3 3 3].
Proof.
destruct (proj1 (paginated_merge_last_write_wins 5000 ltac:(lia))
            [Bars.mkBar 20 1 1 1 1 1; Bars.mkBar 10 2 2 2 2 2; Bars.mkBar 20 3 3 3 3 3])
  as (R & Hlw & _ & _ & _ & _).
exists R. split; [exact Hlw|]. split; vm_compute; reflexivity.
Defined.

(** X4. The paginated adapters respect [max_bars]: [fetch_binance_ohlc_days]
    never returns more than [max(0, max_bars)] bars, and
    [fetch_ohlc_days_kraken] never more than [max_bars] bars when
    [max_bars >= 1], whatever the exchange answers. *)
Theorem paginated_history_within_cap :
  (forall http symbol interval days max_bars,
      Z.of_nat (length (Merged.bars_of
         (BinanceRest.fetch_binance_ohlc_days http symbol interval days max_bars)))
      <= Z.max 0 max_bars) /\
  (forall http now symbol interval days max_bars,
      1 <= max_bars ->
      Z.of_nat (length
         (KrakenRest.fetch_ohlc_days_kraken http now symbol interval days max_bars))
      <= max_bars).
Proof. split; [exact binance_days_within_cap | exact kraken_days_within_cap]. Qed.

(** Two pages of Kraken bars under a cap of one bar. *)
Lemma paginated_history_within_cap_witness :
  Z.of_nat (length
     (KrakenRest.fetch_ohlc_days_kraken Scenario.kraken_overlap 0 (lit "ETH/USD") 5 1 1))
  <= 1.
Proof. apply (proj2 paginated_history_within_cap). lia. Defined.

(** X5. The merge of the paginated adapters is idempotent and blind to
    repetition and to the order of pages that share no timestamp: for
    every cap, merging the accumulated bars twice over gives the merge of
    the bars, and two batches with disjoint timestamps merge to the same
    list in either order; for a cap that is not negative, merging a merged
    list again gives it back.  The Kraken merge is the same function as
    the Binance merge. *)
Theorem merge_is_idempotent :
  (forall max_bars l,
      KrakenRest.merge max_bars l = BinanceRest.merge max_bars l) /\
  (forall max_bars l,
      BinanceRest.merge max_bars (l ++ l) = BinanceRest.merge max_bars l /\
      KrakenRest.merge max_bars (l ++ l) = KrakenRest.merge max_bars l) /\
  (forall max_bars l1 l2,
      Rows.disjoint_timestamps l1 l2 ->
      BinanceRest.merge max_bars (l1 ++ l2) = BinanceRest.merge max_bars (l2 ++ l1) /\
      KrakenRest.merge max_bars (l1 ++ l2) = KrakenRest.merge max_bars (l2 ++ l1)) /\
  (forall max_bars l,
      0 <= max_bars ->
      BinanceRest.merge max_bars (BinanceRest.merge max_bars l)
      = BinanceRest.merge max_bars l /\
      KrakenRest.merge max_bars (KrakenRest.merge max_bars l)
      = KrakenRest.merge max_bars l).
Proof.
split; [exact kraken_merge_is_binance_merge|].
split; [|split].
- intros max_bars l. rewrite !kraken_merge_is_binance_merge.
  split; apply merge_repeated.
- intros max_bars l1 l2 Hdis. rewrite !kraken_merge_is_binance_merge.
  split; apply merge_disjoint_pages, Hdis.
- intros max_bars l Hm. rewrite !kraken_merge_is_binance_merge.
  split; apply merge_twice, Hm.
Qed.

(** Two batches that share no timestamp, and three bars out of order with
    a repeated timestamp merged twice. *)
Lemma merge_is_idempotent_witness :
  (BinanceRest.merge 5000 ([Scenario.a_bar 30] ++ [Scenario.a_bar 10])
   = BinanceRest.merge 5000 ([Scenario.a_bar 10] ++ [Scenario.a_bar 30]) /\
   KrakenRest.merge 5000 ([Scenario.a_bar 30] ++ [Scenario.a_bar 10])
   = KrakenRest.merge 5000 ([Scenario.a_bar 10] ++ [Scenario.a_bar 30])) /\
  (BinanceRest.merge 5000
     (BinanceRest.merge 5000 [Scenario.a_bar 20; Scenario.a_bar 10; Scenario.a_bar 20])
   = BinanceRest.merge 5000 [Scenario.a_bar 20; Scenario.a_bar 10; Scenario.a_bar 20] /\
   KrakenRest.merge 5000
     (KrakenRest.merge 5000 [Scenario.a_bar 20; Scenario.a_bar 10; Scenario.a_bar 20])
   = KrakenRest.merge 5000 [Scenario.a_bar 20; Scenario.a_bar 10; Scenario.a_bar 20]).
Proof.
split.
- apply (proj1 (proj2 (proj2 merge_is_idempotent)) 5000
           [Scenario.a_bar 30] [Scenario.a_bar 10]).
  intros a b [<-|[]] [<-|[]]. cbn. lia.
- apply (proj2 (proj2 (proj2 merge_is_idempotent)) 5000
           [Scenario.a_bar 20; Scenario.a_bar 10; Scenario.a_bar 20]).
  lia.
Defined.

(** ** Decoding the rows of a page *)

Section RowDecoding.
Import Bars Merged Rows.

Lemma omap_length_le {A B : Type} (f : A -> option B) (l : list A) :
  (length (omap f l) <= length l)%nat.
Proof.
unfold omap. induction l as [|x l IH]; cbn [list_omap length]; [lia|].
destruct (f x); cbn [length]; lia.
Qed.

Lemma before_first_length_le {A : Type} (f : A -> bool) (l : list A) :
  (length (before_first f l) <= length l)%nat.
Proof.
induction l as [|x l IH]; cbn [before_first length]; [lia|].
destruct (f x); cbn [length]; lia.
Qed.

Lemma before_first_none {A : Type} (f : A -> bool) (l : list A) :
  existsb f l = false -> before_first f l = l.
Proof.
induction l as [|x l IH]; cbn [before_first existsb]; [reflexivity|].
destruct (f x); [discriminate|]. cbn [orb]. intros H. rewrite (IH H). reflexivity.
Qed.

(** The Binance loop over the candles, as a filter: short candles and
    candles that raise [ValueError] are dropped, the others are kept in the
    order of the payload; one candle that raises anything else loses the
    page. *)
Lemma binance_parse_candles_filter (data : list (list cell)) (result : list Bar) :
  BinanceRest.parse_candles data result =
  if existsb (faults 6 BinanceRest.parse_candle) data then inl OtherError
  else inr (result ++ omap (decoded 6 BinanceRest.parse_candle) data).
Proof.
unfold omap. revert result.
induction data as [|candle rest IH]; intros result;
  cbn [BinanceRest.parse_candles existsb list_omap].
- rewrite app_nil_r. reflexivity.
- unfold faults at 1, decoded at 1.
  destruct (length candle <? 6)%nat; cbn [orb]; [apply IH|].
  destruct (BinanceRest.parse_candle candle) as [[|]|b]; cbn [orb].
  + apply IH.
  + reflexivity.
  + rewrite IH. destruct (existsb _ rest); [reflexivity|].
    rewrite <- app_assoc. reflexivity.
Qed.

Lemma coinbase_parse_candles_filter (data : list (list cell)) (result : list Bar) :
  CoinbaseRest.parse_candles data result =
  if existsb (faults 6 CoinbaseRest.parse_candle) data then inl OtherError
  else inr (result ++ omap (decoded 6 CoinbaseRest.parse_candle) data).
Proof.
unfold omap. revert result.
induction data as [|candle rest IH]; intros result;
  cbn [CoinbaseRest.parse_candles existsb list_omap].
- rewrite app_nil_r. reflexivity.
- unfold faults at 1, decoded at 1.
  destruct (length candle <? 6)%nat; cbn [orb]; [apply IH|].
  destruct (CoinbaseRest.parse_candle candle) as [[|]|b]; cbn [orb].
  + apply IH.
  + reflexivity.
  + rewrite IH. destruct (existsb _ rest); [reflexivity|].
    rewrite <- app_assoc. reflexivity.
Qed.

(** The Kraken loop over the rows: the rows before the first one that
    raises something other than [ValueError] are decoded and appended, and
    the flag tells whether there was such a row. *)
Lemma kraken_parse_rows_filter (rows : list (list cell)) (out : list Bar) :
  KrakenRest.parse_rows rows out =
  (out ++ omap (decoded 7 KrakenRest.parse_row)
               (before_first (faults 7 KrakenRest.parse_row) rows),
   existsb (faults 7 KrakenRest.parse_row) rows).
Proof.
unfold omap. revert out.
induction rows as [|row rest IH]; intros out;
  cbn [KrakenRest.parse_rows existsb before_first list_omap].
- rewrite app_nil_r. reflexivity.
- unfold faults at 1 3, decoded.
  replace (7 <=? length row)%nat with (negb (length row <? 7)%nat)
    by (destruct (Nat.leb_spec 7 (length row)), (Nat.ltb_spec (length row) 7);
        reflexivity || lia).
  destruct (length row <? 7)%nat eqn:Hlen; cbn [negb orb list_omap].
  + rewrite Hlen. apply IH.
  + destruct (KrakenRest.parse_row row) as [[|]|b] eqn:Hrow; cbn [orb list_omap].
    * rewrite Hlen, Hrow. apply IH.
    * rewrite app_nil_r. reflexivity.
    * rewrite Hlen, Hrow, IH, <- app_assoc. reflexivity.
Qed.

Lemma insert_sorted_weak {A : Type} (key : A -> Z) (x : A) (l : list A) :
  StronglySorted (fun a b => key a <= key b) l ->
  StronglySorted (fun a b => key a <= key b) (insert_sorted key x l).
Proof.
induction l as [|z l IH]; cbn [insert_sorted]; intros Hs.
- repeat constructor.
- apply StronglySorted_inv in Hs as [Hs Hz].
  destruct (Z.leb_spec (key x) (key z)) as [Hle|Hgt].
  + constructor; [constructor; assumption|].
    constructor; [lia|].
    rewrite Forall_forall in Hz |- *. intros w Hw. specialize (Hz w Hw). cbn in Hz. lia.
  + constructor; [apply IH, Hs|].
    rewrite Forall_forall in Hz |- *. intros w Hw.
    apply list_elem_of_In, insert_sorted_In in Hw.
    destruct Hw as [->|Hw]; [lia|].
    apply Hz. apply list_elem_of_In. exact Hw.
Qed.

Lemma py_sorted_weak {A : Type} (key : A -> Z) (l : list A) :
  StronglySorted (fun a b => key a <= key b) (py_sorted key l).
Proof.
induction l as [|x l IH]; cbn [py_sorted]; [constructor|].
apply insert_sorted_weak, IH.
Qed.

Lemma sorted_weakly_ascending (l : list Bar) :
  StronglySorted (fun a b => ts a <= ts b) l -> weakly_ascending l.
Proof.
induction 1 as [|x l Hs IH Hx]; intros i a b Ha Hb.
- rewrite lookup_nil in Ha. discriminate.
- destruct i as [|i]; cbn in Ha, Hb.
  + injection Ha as <-. rewrite Forall_forall in Hx. apply Hx.
    eapply list_elem_of_lookup_2. exact Hb.
  + eapply IH; eassumption.
Qed.

Lemma py_slice_to_length {A : Type} (stop : Z) (l : list A) :
  0 <= stop -> Z.of_nat (length (py_slice_to stop l)) <= stop.
Proof.
intros Hs. unfold py_slice_to. destruct (Z.ltb_spec stop 0); [lia|].
rewrite length_take. lia.
Qed.

Lemma coinbase_result_sorted (http : CoinbaseRest.upstream) (symbol : str) (interval limit : Z) :
  StronglySorted (fun a b => ts a <= ts b)
                 (CoinbaseRest.fetch_coinbase_ohlc http symbol interval limit).
Proof.
unfold CoinbaseRest.fetch_coinbase_ohlc.
destruct (CoinbaseRest._to_coinbase_symbol symbol); [constructor|].
destruct (http _ _); [constructor | constructor |].
destruct (CoinbaseRest.parse_candles _ _); [constructor | apply py_sorted_weak].
Qed.

Lemma coinbase_result_length (http : CoinbaseRest.upstream) (symbol : str) (interval limit : Z) :
  0 <= limit ->
  Z.of_nat (length (CoinbaseRest.fetch_coinbase_ohlc http symbol interval limit)) <= limit.
Proof.
intros Hl. unfold CoinbaseRest.fetch_coinbase_ohlc.
destruct (CoinbaseRest._to_coinbase_symbol symbol); [cbn; lia|].
destruct (http _ _) as [| |data]; [cbn; lia | cbn; lia |].
rewrite coinbase_parse_candles_filter.
destruct (existsb _ _); [cbn; lia|]. cbn [app].
rewrite py_sorted_length.
pose proof (omap_length_le (decoded 6 CoinbaseRest.parse_candle) (py_slice_to limit data)).
pose proof (py_slice_to_length limit data Hl). lia.
Qed.

End RowDecoding.

(** X6. [fetch_binance_ohlc] keeps the payload's order and drops bad rows
    one by one: when the exchange answers with a list of candles, the
    result is the bars of the candles that have six fields and decode, in
    the order of the payload — candles that are short or raise [ValueError]
    are skipped — unless some candle raises another exception, in which case
    the whole page is lost and the result is empty. *)
Theorem binance_page_keeps_decodable_rows
    (http : BinanceRest.upstream) (k : nat) (symbol : str) (interval limit : Z)
    (data : list (list Bars.cell)) :
  Binance._to_binance_symbol symbol <> [] ->
  http k (Binance._to_binance_symbol symbol) (Binance._interval_to_binance interval)
       (Z.min limit 1000) = BinanceRest.Klines data ->
  BinanceRest.fetch_binance_ohlc http k symbol interval limit =
  if existsb (Rows.faults 6 BinanceRest.parse_candle) data then []
  else omap (Rows.decoded 6 BinanceRest.parse_candle) data.
Proof.
intros Hsym Hreply. unfold BinanceRest.fetch_binance_ohlc.
destruct (Binance._to_binance_symbol symbol) eqn:Hs; [contradiction|].
rewrite Hreply, binance_parse_candles_filter.
destruct (existsb _ data); reflexivity.
Qed.

(** A page of a good candle, a short one, one with unreadable text and
    another good one: the two good candles come back in order. *)
Lemma binance_page_keeps_decodable_rows_witness :
  BinanceRest.fetch_binance_ohlc
    (fun _ _ _ _ => BinanceRest.Klines
       [ Scenario.binance_row 60000 100; [Bars.CNum 1]; 
         [Bars.CNum 120000; Bars.CBad; Bars.CNum 1; Bars.CNum 1; Bars.CNum 1; Bars.CNum 1];
         Scenario.binance_row 180000 101 ])
    0 (lit "ETH/USD") 5 500
  = if existsb (Rows.faults 6 BinanceRest.parse_candle)
         [ Scenario.binance_row 60000 100; [Bars.CNum 1]; 
           [Bars.CNum 120000; Bars.CBad; Bars.CNum 1; Bars.CNum 1; Bars.CNum 1; Bars.CNum 1];
           Scenario.binance_row 180000 101 ]
    then []
    else omap (Rows.decoded 6 BinanceRest.parse_candle)
         [ Scenario.binance_row 60000 100; [Bars.CNum 1]; 
           [Bars.CNum 120000; Bars.CBad; Bars.CNum 1; Bars.CNum 1; Bars.CNum 1; Bars.CNum 1];
           Scenario.binance_row 180000 101 ].
Proof.
apply binance_page_keeps_decodable_rows.
- vm_compute. discriminate.
- reflexivity.
Defined.

(** X7. [fetch_coinbase_ohlc] returns its bars in non-decreasing order of
    timestamp, and at most [limit] of them when [limit] is not negative; so
    the crypto router, which asks Coinbase for
    [min(days * (1440 // interval), 300)] bars, gets at most 300 bars from
    it for [days >= 0] and [interval >= 1]. *)
Theorem coinbase_page_sorted_and_bounded :
  (forall http symbol interval limit,
      Rows.weakly_ascending (CoinbaseRest.fetch_coinbase_ohlc http symbol interval limit)) /\
  (forall http symbol interval limit,
      0 <= limit ->
      Z.of_nat (length (CoinbaseRest.fetch_coinbase_ohlc http symbol interval limit))
      <= limit) /\
  (forall binance kraken now coinbase yf duration late symbol interval days,
      0 <= days -> 1 <= interval ->
      Z.of_nat (length (Merged.bars_of
         (CryptoRouter.dispatch
            (CryptoRouter.exchanges binance kraken now coinbase yf duration late)
            symbol interval days "coinbase")))
      <= 300).
Proof.
split; [intros; apply sorted_weakly_ascending, coinbase_result_sorted|].
split; [exact coinbase_result_length|].
intros binance kraken now coinbase yf duration late symbol interval days Hd Hi.
cbn [CryptoRouter.dispatch CryptoRouter.exchanges CryptoRouter.coinbase_ohlc
     String.eqb Ascii.eqb Bool.eqb].
destruct (Z.eqb_spec interval 0); [lia|]. cbn [Merged.bars_of].
assert (0 <= 1440 / interval) by (apply Z.div_pos; lia).
pose proof (coinbase_result_length coinbase symbol interval
              (Z.min (days * (1440 / interval)) 300) ltac:(nia)). lia.
Qed.

(** Coinbase answering with two candles, asked for one day of five-minute
    bars. *)
Lemma coinbase_page_sorted_and_bounded_witness :
  Z.of_nat (length (CoinbaseRest.fetch_coinbase_ohlc Scenario.coinbase_repeats
                      (lit "ETH/USD") 5 1)) <= 1 /\
  Z.of_nat (length (Merged.bars_of
     (CryptoRouter.dispatch Scenario.only_coinbase (lit "ETH/USD") 5 1 "coinbase"))) <= 300.
Proof.
split.
- apply (proj1 (proj2 coinbase_page_sorted_and_bounded)). lia.
- apply (proj2 (proj2 coinbase_page_sorted_and_bounded)
           Scenario.binance_down Scenario.kraken_down 0 Scenario.coinbase_repeats
           (fun _ _ _ => Bars.Returned []) (fun _ => 0%Q) (fun _ => 0%Q)); lia.
Defined.

(** X8. [fetch_recent_ohlc_kraken] decodes the last [limit] rows of the
    series in the order of the payload, skipping rows that are short or
    raise [ValueError], and stops at the first row that raises another
    exception, returning the bars decoded before it; for [limit >= 1] it
    returns at most [limit] bars.  It performs no sorting and removes no
    repeated timestamp. *)
Theorem kraken_recent_keeps_rows_before_fault
    (http : KrakenRecent.upstream) (symbol : str) (interval limit : Z)
    (row : list Bars.cell) (rows : list (list Bars.cell)) (new_last : option Z) :
  Kraken._is_valid_symbol symbol = true ->
  Kraken._to_kraken_pair symbol <> [] ->
  http (Kraken._to_kraken_pair symbol) (Kraken._interval_to_kraken interval)
  = KrakenRest.Json (KrakenRest.mkBody false (row :: rows) new_last) ->
  KrakenRecent.fetch_recent_ohlc_kraken http symbol interval limit
  = omap (Rows.decoded 7 KrakenRest.parse_row)
         (Rows.before_first (Rows.faults 7 KrakenRest.parse_row)
                            (Bars.py_slice_last limit (row :: rows))) /\
  (1 <= limit ->
   Z.of_nat (length (KrakenRecent.fetch_recent_ohlc_kraken http symbol interval limit))
   <= limit).
Proof.
intros Hvalid Hpair Hreply.
assert (Heq : KrakenRecent.fetch_recent_ohlc_kraken http symbol interval limit
              = omap (Rows.decoded 7 KrakenRest.parse_row)
                     (Rows.before_first (Rows.faults 7 KrakenRest.parse_row)
                                        (Bars.py_slice_last limit (row :: rows)))).
{ unfold KrakenRecent.fetch_recent_ohlc_kraken. rewrite Hvalid. cbn [negb].
  destruct (Kraken._to_kraken_pair symbol) eqn:Hp; [contradiction|].
  rewrite Hreply. cbn [KrakenRest.has_error KrakenRest.series].
  rewrite kraken_parse_rows_filter. reflexivity. }
split; [exact Heq|]. intros Hl. rewrite Heq.
pose proof (omap_length_le (Rows.decoded 7 KrakenRest.parse_row)
              (Rows.before_first (Rows.faults 7 KrakenRest.parse_row)
                                 (Bars.py_slice_last limit (row :: rows)))).
pose proof (before_first_length_le (Rows.faults 7 KrakenRest.parse_row)
              (Bars.py_slice_last limit (row :: rows))).
pose proof (py_slice_last_length limit (row :: rows) ltac:(lia)). lia.
Qed.

(** Three rows, the second with a null field, asked for the last three:
    only the first comes back. *)
Lemma kraken_recent_keeps_rows_before_fault_witness :
  KrakenRecent.fetch_recent_ohlc_kraken
    (fun _ _ => KrakenRest.Json (KrakenRest.mkBody false
       [ Scenario.kraken_row 1000 100;
         [Bars.CNum 1060; Bars.CNull; Bars.CNum 1; Bars.CNum 1; Bars.CNum 1; Bars.CNum 1;
          Bars.CNum 1];
         Scenario.kraken_row 1120 102 ] None))
    (lit "ETH/USD") 5 3
  = [Bars.mkBar 1000 99 110 95 100 12] /\
  Z.of_nat (length (KrakenRecent.fetch_recent_ohlc_kraken
    (fun _ _ => KrakenRest.Json (KrakenRest.mkBody false
       [ Scenario.kraken_row 1000 100;
         [Bars.CNum 1060; Bars.CNull; Bars.CNum 1; Bars.CNum 1; Bars.CNum 1; Bars.CNum 1;
          Bars.CNum 1];
         Scenario.kraken_row 1120 102 ] None))
    (lit "ETH/USD") 5 3)) <= 3.
Proof.
assert (Hvalid : Kraken._is_valid_symbol (lit "ETH/USD") = true) by (vm_compute; reflexivity).
assert (Hpair : Kraken._to_kraken_pair (lit "ETH/USD") <> []) by (vm_compute; discriminate).
destruct (kraken_recent_keeps_rows_before_fault
            (fun _ _ => KrakenRest.Json (KrakenRest.mkBody false
               [ Scenario.kraken_row 1000 100;
                 [Bars.CNum 1060; Bars.CNull; Bars.CNum 1; Bars.CNum 1; Bars.CNum 1;
                  Bars.CNum 1; Bars.CNum 1];
                 Scenario.kraken_row 1120 102 ] None))
            (lit "ETH/USD") 5 3 _ _ None Hvalid Hpair eq_refl) as [Heq Hlen].
split; [|apply Hlen; lia].
rewrite Heq. vm_compute. reflexivity.
Defined.

(** ** Performance statistics *)

Section Statistics.
Import ProviderStats.

Lemma record_request_other (p q : string) (ok : bool) (d : Q) (stats : gmap string entry) :
  p <> q -> record_request p ok d stats !! q = stats !! q.
Proof.
intros Hne. unfold record_request. destruct (stats !! p); [|reflexivity].
apply lookup_insert_ne. exact Hne.
Qed.

Lemma record_all_other (p q : string) (calls : list (bool * Q)) (stats : gmap string entry) :
  p <> q -> record_all p calls stats !! q = stats !! q.
Proof.
intros Hne. revert stats. unfold record_all.
induction calls as [|[ok d] calls IH]; intros stats; cbn [fold_left]; [reflexivity|].
rewrite IH. apply record_request_other, Hne.
Qed.

Lemma record_all_unknown (p : string) (calls : list (bool * Q)) (stats : gmap string entry) :
  stats !! p = None -> record_all p calls stats = stats.
Proof.
intros Hnone. unfold record_all.
induction calls as [|[ok d] calls IH]; cbn [fold_left]; [reflexivity|].
unfold record_request at 2. cbn [fst snd]. rewrite Hnone. exact IH.
Qed.

(** The running average is the mean: the invariant carried through a
    series of calls. *)
Lemma record_all_mean (p : string) (calls : list (bool * Q)) (stats : gmap string entry)
    (e : entry) (sum : Q) :
  stats !! p = Some e ->
  0 <= requests e ->
  (avg_time e * inject_Z (requests e) == sum)%Q ->
  exists e',
    record_all p calls stats !! p = Some e' /\
    requests e' = requests e + Z.of_nat (length calls) /\
    failures e' = failures e + failed calls /\
    (avg_time e' * inject_Z (requests e') == sum + total_time calls)%Q.
Proof.
revert stats e sum. unfold record_all, failed, total_time.
induction calls as [|[ok d] calls IH]; intros stats e sum He Hn Havg;
  cbn [fold_left map fold_right length List.filter fst snd].
- exists e. rewrite He. split; [reflexivity|]. split; [lia|]. split; [lia|].
  rewrite Havg. ring.
- set (e1 := mkEntry (requests e + 1) (if ok then failures e else failures e + 1)
                     ((avg_time e * inject_Z (requests e + 1 - 1) + d)
                      / inject_Z (requests e + 1))%Q).
  assert (Hstep : record_request p ok d stats = <[p := e1]> stats).
  { unfold record_request. rewrite He. reflexivity. }
  rewrite Hstep.
  destruct (IH (<[p := e1]> stats) e1 (sum + d)%Q) as (e' & Hl & Hr & Hf & Ha).
  + apply lookup_insert_eq.
  + cbn. lia.
  + cbn [avg_time requests e1].
    replace (requests e + 1 - 1) with (requests e) by lia.
    assert (Hnz : ~ (inject_Z (requests e + 1) == 0)%Q).
    { intros H. unfold Qeq in H. cbn in H. lia. }
    rewrite Qmult_comm, Qmult_div_r by exact Hnz. rewrite Havg. reflexivity.
  + exists e'. split; [exact Hl|]. cbn [requests failures e1] in Hr, Hf.
    split; [lia|]. split.
    * rewrite Hf. destruct ok; cbn [negb length]; lia.
    * rewrite Ha. ring.
Qed.

Lemma init_lookup (p : string) :
  In p CryptoRouter.PROVIDER_PRIORITY -> init !! p = Some (mkEntry 0 0 0).
Proof.
cbn. intros H. repeat (destruct H as [<-|H]; [vm_compute; reflexivity|]). destruct H.
Qed.

End Statistics.

(** X9. [ProviderStats.record_request] keeps, for every provider of the
    priority list, the number of calls, the number of failed calls and the
    mean duration: after any series of calls recorded for the provider,
    [requests] is the length of the series, [failures] the number of
    unsuccessful calls (never more than [requests]), and [avg_time] times
    [requests] the sum of the durations, in exact arithmetic; the entries
    of the other providers are untouched, and a provider outside the list
    is ignored. *)
Theorem provider_stats_record_the_mean :
  (forall p calls,
      In p CryptoRouter.PROVIDER_PRIORITY ->
      exists e,
        ProviderStats.record_all p calls ProviderStats.init !! p = Some e /\
        ProviderStats.requests e = Z.of_nat (length calls) /\
        ProviderStats.failures e = ProviderStats.failed calls /\
        0 <= ProviderStats.failures e <= ProviderStats.requests e /\
        (ProviderStats.avg_time e * inject_Z (ProviderStats.requests e)
         == ProviderStats.total_time calls)%Q) /\
  (forall p q calls stats,
      p <> q -> ProviderStats.record_all p calls stats !! q = stats !! q) /\
  (forall p calls stats,
      stats !! p = None -> ProviderStats.record_all p calls stats = stats).
Proof.
split; [|split; [exact record_all_other | exact record_all_unknown]].
intros p calls Hp.
destruct (record_all_mean p calls ProviderStats.init (ProviderStats.mkEntry 0 0 0) 0%Q
            (init_lookup p Hp)) as (e & Hl & Hr & Hf & Ha).
- cbn. lia.
- cbn. ring.
- exists e. cbn in Hr, Hf. split; [exact Hl|]. split; [exact Hr|]. split; [exact Hf|].
  split.
  + rewrite Hf, Hr. unfold ProviderStats.failed.
    pose proof (filter_length_le (fun call : bool * Q => negb (fst call)) calls). lia.
  + rewrite Ha. ring.
Qed.

(** Three calls recorded for Kraken, one of them failed. *)
Lemma provider_stats_record_the_mean_witness :
  exists e,
    ProviderStats.record_all "kraken" [(true, 1%Q); (false, 3%Q); (true, 2%Q)]
                             ProviderStats.init !! "kraken"%string = Some e /\
    ProviderStats.requests e = 3 /\
    ProviderStats.failures e = 1 /\
    0 <= ProviderStats.failures e <= ProviderStats.requests e /\
    (ProviderStats.avg_time e * inject_Z (ProviderStats.requests e) == 6)%Q.
Proof.
destruct (proj1 provider_stats_record_the_mean "kraken"%string
            [(true, 1%Q); (false, 3%Q); (true, 2%Q)]) as (e & Hl & Hr & Hf & Hb & Ha).
- cbn. auto.
- exists e. split; [exact Hl|]. split; [exact Hr|]. split; [exact Hf|]. split; [exact Hb|].
  rewrite Ha. reflexivity.
Defined.

(** X10. The Yahoo interval mapper implements the ceiling policy on the
    table 1, 5, 15, 60 minutes and one day, clamped at one day: the code
    returned names the smallest of these resolutions that is at least
    [min(interval, 1440)].  Thirty-minute bars are therefore served as
    sixty-minute bars. *)
Theorem yahoo_interval_ceiling_clamped :
  (forall interval : Z,
      Ceiling.is_ceiling_code Yahoo.resolutions (Z.min interval 1440)
                              (Yahoo._interval_to_yf interval)) /\
  Yahoo._interval_to_yf 30 = "60m"%string.
Proof.
split; [|reflexivity].
intros interval.
unfold Ceiling.is_ceiling_code, Yahoo._interval_to_yf, Yahoo.resolutions.
repeat match goal with
       | |- context [?a <=? ?b] => destruct (Z.leb_spec a b)
       end;
  (eexists; split; [cbn; eauto 20 | split; [lia |]]);
  intros m' c' Hin Hle; cbn in Hin;
  repeat (destruct Hin as [Hin | Hin]; [inversion Hin; subst; lia |]);
  destruct Hin.
Qed.

(** ** The synthetic generator *)

Section SyntheticBars.
Import Bars Merged Prices MockStockData.

Lemma make_bar_ts (e : env) (symbol : str) (interval current_time : Z) (i : nat) (price : Q) :
  ts (fst (make_bar e symbol interval current_time i price))
  = current_time + Z.of_nat i * interval * 60.
Proof. reflexivity. Qed.

Lemma bars_from_lookup (e : env) (symbol : str) (interval current_time : Z)
    (n i : nat) (price : Q) (k : nat) (b : Bar) :
  bars_from e symbol interval current_time n i price !! k = Some b ->
  ts b = current_time + Z.of_nat (i + k) * interval * 60.
Proof.
revert i price k. induction n as [|n IH]; intros i price k; cbn [bars_from].
- rewrite lookup_nil. discriminate.
- pose proof (make_bar_ts e symbol interval current_time i price) as Hts.
  destruct (make_bar e symbol interval current_time i price) as [bar next].
  cbn [fst] in Hts. destruct k as [|k]; cbn [lookup list_lookup].
  + intros [= <-]. rewrite Hts. f_equal. f_equal. f_equal. lia.
  + intros Hk. apply IH in Hk. rewrite Hk. f_equal. f_equal. f_equal. lia.
Qed.

Lemma bars_from_sorted (e : env) (symbol : str) (interval current_time : Z)
    (n i : nat) (price : Q) :
  1 <= interval ->
  StronglySorted (fun a b => ts a < ts b)
                 (bars_from e symbol interval current_time n i price).
Proof.
intros Hint. revert i price. induction n as [|n IH]; intros i price; cbn [bars_from].
- constructor.
- pose proof (make_bar_ts e symbol interval current_time i price) as Hts.
  destruct (make_bar e symbol interval current_time i price) as [bar next].
  cbn [fst] in Hts. constructor; [apply IH|].
  apply Forall_lookup. intros k b Hk. apply bars_from_lookup in Hk.
  rewrite Hts, Hk. nia.
Qed.

Lemma round_half_even_mono (p q : Q) :
  (p <= q)%Q -> round_half_even p <= round_half_even q.
Proof.
intros Hpq. pose proof (Qfloor_resp_le p q Hpq) as Hf. unfold round_half_even.
destruct (Z.eq_dec (Qfloor p) (Qfloor q)) as [Heq|Hne].
- rewrite <- Heq. set (f := Qfloor p).
  destruct (Qcompare_spec (p - inject_Z f) (1 # 2)) as [H1|H1|H1];
    destruct (Qcompare_spec (q - inject_Z f) (1 # 2)) as [H2|H2|H2];
    try lia; try (destruct (Z.even f); lia); exfalso; lra.
- destruct (p - inject_Z (Qfloor p) ?= 1 # 2)%Q;
    destruct (q - inject_Z (Qfloor q) ?= 1 # 2)%Q;
    repeat match goal with |- context [Z.even ?f] => destruct (Z.even f) end; lia.
Qed.

Lemma round2_mono (p q : Q) : (p <= q)%Q -> (round2 p <= round2 q)%Q.
Proof.
intros Hpq. unfold round2, Qdiv. apply Qmult_le_compat_r.
- rewrite <- Zle_Qle. apply round_half_even_mono.
  apply Qmult_le_compat_r; [exact Hpq | discriminate].
- discriminate.
Qed.

Lemma round2_cent : (round2 (1 # 100) == 1 # 100)%Q.
Proof. vm_compute. reflexivity. Qed.

Lemma make_bar_well_formed (e : env) (symbol : str) (interval current_time : Z)
    (i : nat) (price : Q) :
  well_formed (fst (make_bar e symbol interval current_time i price)).
Proof.
unfold well_formed, make_bar. cbn [fst low open close high].
repeat split.
- apply round2_mono. eapply Qle_trans; [apply Q.le_min_l | apply Q.le_min_r].
- apply round2_mono. apply Q.le_min_r.
- apply round2_mono. eapply Qle_trans; [apply Q.le_max_r | apply Q.le_max_l].
- apply round2_mono. apply Q.le_max_r.
- rewrite <- round2_cent at 1. apply round2_mono. apply Q.le_max_l.
Qed.

Lemma bars_from_well_formed (e : env) (symbol : str) (interval current_time : Z)
    (n i : nat) (price : Q) :
  Forall well_formed (bars_from e symbol interval current_time n i price).
Proof.
revert i price. induction n as [|n IH]; intros i price; cbn [bars_from].
- constructor.
- pose proof (make_bar_well_formed e symbol interval current_time i price) as Hwf.
  destruct (make_bar e symbol interval current_time i price) as [bar next].
  constructor; [exact Hwf | apply IH].
Qed.

End SyntheticBars.

(** X11. The bars of [generate_realistic_ohlcv] are evenly spaced from the
    market close on: there are [max(count, 0)] of them, the bar at index
    [k] carries the timestamp [market_close + k * interval * 60] — the
    first is the close itself and the later ones lie after it — and for
    an interval of at least one minute the list is strictly ascending with
    no timestamp twice. *)
Theorem mock_bars_evenly_spaced (e : MockStockData.env) (symbol : str)
    (interval count : Z) (base_price : Q) :
  1 <= interval ->
  let data := MockStockData.generate_realistic_ohlcv e symbol interval count base_price in
  Z.of_nat (length data) = Z.max count 0 /\
  (forall k b, data !! k = Some b ->
               Bars.ts b = MockStockData.market_close e + Z.of_nat k * interval * 60) /\
  Merged.strictly_ascending data.
Proof.
intros Hint data. subst data. split; [|split].
- rewrite generator_length. lia.
- intros k b Hk. unfold MockStockData.generate_realistic_ohlcv in Hk.
  apply bars_from_lookup in Hk. exact Hk.
- apply sorted_strictly_ascending. unfold MockStockData.generate_realistic_ohlcv.
  apply bars_from_sorted. exact Hint.
Qed.

(** Three five-minute bars for AAPL. *)
Lemma mock_bars_evenly_spaced_witness :
  let data := MockStockData.generate_realistic_ohlcv Scenario.mock_env (lit "AAPL") 5 3 100 in
  Z.of_nat (length data) = Z.max 3 0 /\
  (forall k b, data !! k = Some b ->
               Bars.ts b = MockStockData.market_close Scenario.mock_env + Z.of_nat k * 5 * 60) /\
  Merged.strictly_ascending data.
Proof.
apply (mock_bars_evenly_spaced Scenario.mock_env (lit "AAPL") 5 3 100). lia.
Defined.

(** X12. Every bar of [generate_realistic_ohlcv] is well formed, whatever
    the symbol, the starting price and the random draws: the rounded low
    is at most the rounded open and close, the rounded high at least
    both, and the close is at least one cent. *)
Theorem mock_bars_are_well_formed (e : MockStockData.env) (symbol : str)
    (interval count : Z) (base_price : Q) :
  Forall Prices.well_formed
         (MockStockData.generate_realistic_ohlcv e symbol interval count base_price).
Proof.
unfold MockStockData.generate_realistic_ohlcv. apply bars_from_well_formed.
Qed.

(** X13. The synthetic fallback of the stocks router holds at most 1000
    bars, and for an interval of at least one minute they are strictly
    ascending; it is what "auto" mode returns for a symbol that passes
    the format check when no provider has data. *)
Theorem stocks_fallback_bounded_and_ascending (w : StocksRouter.world) (symbol : str)
    (interval days : Z) (st : StocksRouter.state) :
  1 <= interval ->
  StocksRouter._is_valid_stock_symbol symbol = true ->
  (forall p, Merged.no_data (StocksRouter.dispatch w symbol interval days p)) ->
  exists data,
    fst (StocksRouter.fetch_stock_history w symbol interval days "auto" st) = Bars.Returned data /\
    (length data <= 1000)%nat /\
    Merged.strictly_ascending data.
Proof.
intros Hint Hvalid Hfail.
exists (StocksRouter.mock_fallback w symbol interval days).
split; [apply stocks_auto_all_fail; assumption|].
unfold StocksRouter.mock_fallback.
destruct (Z.ltb_spec interval 1440) as [Hlt|Hge].
- destruct (Z.eqb_spec interval 0) as [->|Hne]; [lia|].
  split; [rewrite generator_length; lia|].
  apply sorted_strictly_ascending. unfold MockStockData.generate_realistic_ohlcv.
  apply bars_from_sorted. exact Hint.
- split; [rewrite generator_length; lia|].
  apply sorted_strictly_ascending. unfold MockStockData.generate_realistic_ohlcv.
  apply bars_from_sorted. exact Hint.
Qed.

(** AAPL at five minutes over thirty days, with every provider down. *)
Lemma stocks_fallback_bounded_and_ascending_witness :
  exists data,
    fst (StocksRouter.fetch_stock_history Scenario.stocks_all_down (lit "AAPL") 5 30 "auto"
                                          (StocksRouter.loaded 0)) = Bars.Returned data /\
    (length data <= 1000)%nat /\
    Merged.strictly_ascending data.
Proof.
apply (stocks_fallback_bounded_and_ascending Scenario.stocks_all_down (lit "AAPL") 5 30
         (StocksRouter.loaded 0)).
- lia.
- vm_compute. reflexivity.
- intros p. unfold StocksRouter.dispatch.
  destruct (StocksRouter.known_provider p); left; reflexivity.
Defined.

(** ** The candidate loop, whatever the adapters return or raise *)

Section AutoMode.
Import Bars Merged.

(** How the loop of the crypto router ends: with the empty list after
    every candidate gave nothing, or with the list of the first candidate
    that had one. *)
Lemma crypto_try_providers_cases (w : CryptoRouter.world) (symbol : str) (interval days : Z)
    (providers : list string) (st : CryptoRouter.state) :
  exists (data : list Bar) (st' : CryptoRouter.state) (tried rest : list string),
    CryptoRouter.try_providers w symbol interval days providers st = (Returned data, st') /\
    providers = tried ++ rest /\
    map fst (CryptoRouter.attempts st') = map fst (CryptoRouter.attempts st) ++ tried /\
    ((data = [] /\ rest = [] /\
      Forall (fun p => no_data (CryptoRouter.dispatch w symbol interval days p)) tried) \/
     (exists before p,
         tried = before ++ [p] /\
         Forall (fun p => no_data (CryptoRouter.dispatch w symbol interval days p)) before /\
         CryptoRouter.dispatch w symbol interval days p = Returned data /\
         data <> [])).
Proof.
revert st. induction providers as [|p providers IH]; intros st;
  cbn [CryptoRouter.try_providers].
- exists [], st, [], []. split; [reflexivity|]. split; [reflexivity|].
  split; [rewrite app_nil_r; reflexivity|]. left. repeat split. constructor.
- destruct (fetch_from_provider_spec w symbol interval days p st)
    as (issued & st1 & -> & _ & _ & Ha).
  destruct (CryptoRouter.dispatch w symbol interval days p) as [|[|b data]] eqn:Hp.
  + destruct (IH st1) as (data' & st' & tried & rest & Hrun & Hsplit & Hnames & Hcases).
    exists data', st', (p :: tried), rest. split; [exact Hrun|].
    split; [rewrite Hsplit; reflexivity|]. split.
    * rewrite Hnames, Ha, map_app. cbn [map fst]. rewrite <- app_assoc. reflexivity.
    * destruct Hcases as [(Hd & Hr & Hall) | (before & q & Ht & Hall & Hq & Hne)].
      -- left. repeat split; [exact Hd | exact Hr |].
         constructor; [left; exact Hp | exact Hall].
      -- right. exists (p :: before), q. rewrite Ht. repeat split; try assumption.
         constructor; [left; exact Hp | exact Hall].
  + destruct (IH st1) as (data' & st' & tried & rest & Hrun & Hsplit & Hnames & Hcases).
    exists data', st', (p :: tried), rest. split; [exact Hrun|].
    split; [rewrite Hsplit; reflexivity|]. split.
    * rewrite Hnames, Ha, map_app. cbn [map fst]. rewrite <- app_assoc. reflexivity.
    * destruct Hcases as [(Hd & Hr & Hall) | (before & q & Ht & Hall & Hq & Hne)].
      -- left. repeat split; [exact Hd | exact Hr |].
         constructor; [right; exact Hp | exact Hall].
      -- right. exists (p :: before), q. rewrite Ht. repeat split; try assumption.
         constructor; [right; exact Hp | exact Hall].
  + exists (b :: data), (CryptoRouter.mark_healthy p st1), [p], providers.
    split; [reflexivity|]. split; [reflexivity|]. split.
    * cbn [CryptoRouter.mark_healthy CryptoRouter.attempts].
      rewrite Ha, map_app. reflexivity.
    * right. exists [], p. repeat split; [constructor | exact Hp | discriminate].
Qed.

(** The same for the loop of the stocks router, which ends with no list
    when every candidate gave nothing. *)
Lemma stock_try_providers_cases (w : StocksRouter.world) (symbol : str) (interval days : Z)
    (providers : list string) (st : StocksRouter.state) :
  exists (tried rest : list string),
    providers = tried ++ rest /\
    map fst (StocksRouter.attempts
               (snd (StocksRouter.try_providers w symbol interval days providers st)))
    = map fst (StocksRouter.attempts st) ++ tried /\
    ((fst (StocksRouter.try_providers w symbol interval days providers st) = None /\
      rest = [] /\
      Forall (fun p => no_data (StocksRouter.dispatch w symbol interval days p)) tried) \/
     (exists before p data,
         tried = before ++ [p] /\
         Forall (fun p => no_data (StocksRouter.dispatch w symbol interval days p)) before /\
         StocksRouter.dispatch w symbol interval days p = Returned data /\
         data <> [] /\
         fst (StocksRouter.try_providers w symbol interval days providers st) = Some data)).
Proof.
revert st. induction providers as [|p providers IH]; intros st;
  cbn [StocksRouter.try_providers].
- exists [], []. split; [reflexivity|].
  split; [cbn [snd]; rewrite app_nil_r; reflexivity|]. left. repeat split. constructor.
- unfold StocksRouter._fetch_from_stock_provider.
  destruct (StocksRouter.dispatch w symbol interval days p) as [|[|b data]] eqn:Hp.
  + match goal with
    | |- context [StocksRouter.mkState ?h ?c ?a] =>
        destruct (IH (StocksRouter.mkState h c a))
          as (tried & rest & Hsplit & Hnames & Hcases)
    end.
    exists (p :: tried), rest. split; [rewrite Hsplit; reflexivity|]. split.
    * rewrite Hnames. cbn [StocksRouter.attempts].
      rewrite map_app, <- app_assoc. reflexivity.
    * destruct Hcases as [(Hd & Hr & Hall) | (before & q & data & Ht & Hall & Hq & Hne & Hd)].
      -- left. repeat split; [exact Hd | exact Hr |].
         constructor; [left; exact Hp | exact Hall].
      -- right. exists (p :: before), q, data. rewrite Ht. repeat split; try assumption.
         constructor; [left; exact Hp | exact Hall].
  + match goal with
    | |- context [StocksRouter.mkState ?h ?c ?a] =>
        destruct (IH (StocksRouter.mkState h c a))
          as (tried & rest & Hsplit & Hnames & Hcases)
    end.
    exists (p :: tried), rest. split; [rewrite Hsplit; reflexivity|]. split.
    * rewrite Hnames. cbn [StocksRouter.attempts].
      rewrite map_app, <- app_assoc. reflexivity.
    * destruct Hcases as [(Hd & Hr & Hall) | (before & q & data & Ht & Hall & Hq & Hne & Hd)].
      -- left. repeat split; [exact Hd | exact Hr |].
         constructor; [right; exact Hp | exact Hall].
      -- right. exists (p :: before), q, data. rewrite Ht. repeat split; try assumption.
         constructor; [right; exact Hp | exact Hall].
  + exists [p], providers. split; [reflexivity|]. split.
    * cbn [snd StocksRouter.mark_healthy StocksRouter.attempts].
      rewrite map_app. reflexivity.
    * right. exists [], p, (b :: data).
      repeat split; [constructor | exact Hp | discriminate].
Qed.

Lemma prefix_length_le {A : Type} (tried rest l : list A) (n : nat) :
  l = tried ++ rest -> (length l <= n)%nat -> (length tried <= n)%nat.
Proof. intros ->. rewrite length_app. lia. Qed.

End AutoMode.

(** X14. In "auto" mode no exception of an adapter leaves either router,
    and the providers tried are a prefix of the healthy candidates, in
    order.  ([Raised] stands for an exception of class [Exception]; a
    cancellation or another [BaseException], which [except Exception]
    lets through, is outside the embedding.)  The crypto router returns a
    list after trying the candidates [tried]: either all of the healthy
    ones, each of which raised or returned nothing, and then the list is
    empty; or up to the first one that returned a list that is not empty,
    and then this is the list.  It makes at most four attempts.  The
    stocks router does the same for a symbol that passes its format check,
    with the synthetic series in place of the empty list and at most six
    attempts; for a symbol the check rejects it tries nobody, returns the
    empty list and leaves the state as it was. *)
Theorem auto_mode_never_raises :
  (forall (w : CryptoRouter.world) (symbol : str) (interval days : Z)
          (st : CryptoRouter.state),
      exists (data : list Bars.Bar) (st' : CryptoRouter.state) (tried rest : list string),
        CryptoRouter.fetch_history_crypto w symbol interval days "auto" st
        = (Bars.Returned data, st') /\
        CryptoRouter.healthy_providers st = tried ++ rest /\
        map fst (CryptoRouter.attempts st') = map fst (CryptoRouter.attempts st) ++ tried /\
        ((data = [] /\ rest = [] /\
          Forall (fun p => Merged.no_data (CryptoRouter.dispatch w symbol interval days p))
                 tried) \/
         (exists before p,
             tried = before ++ [p] /\
             Forall (fun p => Merged.no_data (CryptoRouter.dispatch w symbol interval days p))
                    before /\
             CryptoRouter.dispatch w symbol interval days p = Bars.Returned data /\
             data <> [])) /\
        (length (CryptoRouter.attempts st') <= length (CryptoRouter.attempts st) + 4)%nat) /\
  (forall (w : StocksRouter.world) (symbol : str) (interval days : Z)
          (st : StocksRouter.state),
      StocksRouter._is_valid_stock_symbol symbol = true ->
      exists (data : list Bars.Bar) (st' : StocksRouter.state) (tried rest : list string),
        StocksRouter.fetch_stock_history w symbol interval days "auto" st
        = (Bars.Returned data, st') /\
        StocksRouter.healthy_providers st = tried ++ rest /\
        map fst (StocksRouter.attempts st') = map fst (StocksRouter.attempts st) ++ tried /\
        ((data = StocksRouter.mock_fallback w symbol interval days /\ rest = [] /\
          Forall (fun p => Merged.no_data (StocksRouter.dispatch w symbol interval days p))
                 tried) \/
         (exists before p,
             tried = before ++ [p] /\
             Forall (fun p => Merged.no_data (StocksRouter.dispatch w symbol interval days p))
                    before /\
             StocksRouter.dispatch w symbol interval days p = Bars.Returned data /\
             data <> [])) /\
        (length (StocksRouter.attempts st') <= length (StocksRouter.attempts st) + 6)%nat) /\
  (forall (w : StocksRouter.world) (symbol : str) (interval days : Z)
          (st : StocksRouter.state),
      StocksRouter._is_valid_stock_symbol symbol = false ->
      StocksRouter.fetch_stock_history w symbol interval days "auto" st
      = (Bars.Returned [], st)).
Proof.
split; [|split].
- intros w symbol interval days st. unfold CryptoRouter.fetch_history_crypto.
  cbn [String.eqb Ascii.eqb Bool.eqb negb].
  destruct (crypto_try_providers_cases w symbol interval days
              (CryptoRouter.healthy_providers st) st)
    as (data & st' & tried & rest & Hrun & Hsplit & Hnames & Hcases).
  exists data, st', tried, rest.
  split; [exact Hrun|]. split; [exact Hsplit|]. split; [exact Hnames|].
  split; [exact Hcases|].
  apply (f_equal (@length string)) in Hnames.
  rewrite length_app, !length_map in Hnames. rewrite Hnames.
  pose proof (filter_length_le
                (fun p => default true (CryptoRouter.PROVIDER_HEALTH st !! p))
                CryptoRouter.PROVIDER_PRIORITY) as Hf.
  cbn [length CryptoRouter.PROVIDER_PRIORITY] in Hf.
  pose proof (prefix_length_le tried rest _ 4 Hsplit Hf). lia.
- intros w symbol interval days st Hvalid. unfold StocksRouter.fetch_stock_history.
  rewrite Hvalid. cbn [String.eqb Ascii.eqb Bool.eqb negb].
  destruct (stock_try_providers_cases w symbol interval days
              (StocksRouter.healthy_providers st) st)
    as (tried & rest & Hsplit & Hnames & Hcases).
  pose proof (filter_length_le
                (fun p => default true (StocksRouter.STOCK_PROVIDER_HEALTH st !! p))
                StocksRouter.STOCK_PROVIDER_PRIORITY) as Hf.
  cbn [length StocksRouter.STOCK_PROVIDER_PRIORITY] in Hf.
  pose proof (prefix_length_le tried rest _ 6 Hsplit Hf) as Hlen.
  destruct (StocksRouter.try_providers w symbol interval days
              (StocksRouter.healthy_providers st) st) as [[data|] st'];
    cbn [fst snd] in Hnames, Hcases.
  + exists data, st', tried, rest. split; [reflexivity|].
    split; [exact Hsplit|]. split; [exact Hnames|]. split.
    * destruct Hcases as [(Hd & _) | (before & q & data' & Ht & Hall & Hq & Hne & Hd)];
        [discriminate|].
      injection Hd as <-. right. exists before, q. auto.
    * apply (f_equal (@length string)) in Hnames.
      rewrite length_app, !length_map in Hnames. lia.
  + exists (StocksRouter.mock_fallback w symbol interval days), st', tried, rest.
    split; [reflexivity|]. split; [exact Hsplit|]. split; [exact Hnames|]. split.
    * destruct Hcases as [(_ & Hr & Hall) | (before & q & data' & _ & _ & _ & _ & Hd)];
        [|discriminate].
      left. auto.
    * apply (f_equal (@length string)) in Hnames.
      rewrite length_app, !length_map in Hnames. lia.
- intros w symbol interval days st Hbad. unfold StocksRouter.fetch_stock_history.
  rewrite Hbad. reflexivity.
Qed.

(** Every crypto provider down: the four of them are tried.  A stock
    symbol with every provider down: the six of them are tried. *)
Lemma auto_mode_never_raises_witness :
  (exists (st' : CryptoRouter.state),
      CryptoRouter.fetch_history_crypto Scenario.crypto_all_down (lit "BTC/USD") 5 1 "auto"
                                        (CryptoRouter.loaded 0)
      = (Bars.Returned [], st') /\
      map fst (CryptoRouter.attempts st') = CryptoRouter.PROVIDER_PRIORITY) /\
  (exists data st' tried rest,
      StocksRouter.fetch_stock_history Scenario.stocks_all_down (lit "AAPL") 5 1 "auto"
                                       (StocksRouter.loaded 0)
      = (Bars.Returned data, st') /\
      StocksRouter.healthy_providers (StocksRouter.loaded 0) = tried ++ rest /\
      (length (StocksRouter.attempts st') <= 6)%nat) /\
  StocksRouter.fetch_stock_history Scenario.stocks_all_down (lit "ETH/USD") 5 1 "auto"
                                   (StocksRouter.loaded 0)
  = (Bars.Returned [], StocksRouter.loaded 0).
Proof.
split; [|split].
- destruct (proj1 auto_mode_never_raises Scenario.crypto_all_down (lit "BTC/USD") 5 1
              (CryptoRouter.loaded 0))
    as (data & st' & tried & rest & Hrun & Hsplit & Hnames & Hcases & _).
  assert (Hdata : data = []).
  { apply (f_equal fst) in Hrun. vm_compute in Hrun. injection Hrun as <-. reflexivity. }
  subst data. exists st'. split; [exact Hrun|].
  destruct Hcases as [(_ & -> & _) | (before & q & _ & _ & _ & Hne)]; [|congruence].
  rewrite app_nil_r in Hsplit. rewrite Hnames, <- Hsplit. vm_compute. reflexivity.
- destruct (proj1 (proj2 auto_mode_never_raises) Scenario.stocks_all_down (lit "AAPL") 5 1
              (StocksRouter.loaded 0))
    as (data & st' & tried & rest & Hrun & Hsplit & _ & _ & Hlen).
  + vm_compute. reflexivity.
  + exists data, st', tried, rest. split; [exact Hrun|]. split; [exact Hsplit|].
    cbn [StocksRouter.loaded StocksRouter.attempts length] in Hlen. lia.
- apply (proj2 (proj2 auto_mode_never_raises)). vm_compute. reflexivity.
Defined.

(** ** The rate limiter *)

(** X15. The rate limiter of the crypto router delays a request no longer
    than the spacing needs: when [asyncio.sleep] wakes on time, the
    request to a provider is let through at the later of the time the
    call came in and [MIN_REQUEST_INTERVAL] after the recorded time of the
    last request to that provider, and the call ends [call_duration]
    after that; a request that comes in when the interval has passed is
    not delayed at all. *)
Theorem rate_limit_waits_exactly (w : CryptoRouter.world) (symbol : str)
    (interval days : Z) (provider : string) (st : CryptoRouter.state) :
  (CryptoRouter.sleep_overshoot w provider == 0)%Q ->
  let last := default 0%Q (CryptoRouter.LAST_REQUEST_TIME st !! provider) in
  exists (issued : Q) (st' : CryptoRouter.state),
    CryptoRouter._fetch_from_provider w symbol interval days provider st
    = (CryptoRouter.dispatch w symbol interval days provider, st') /\
    CryptoRouter.attempts st' = CryptoRouter.attempts st ++ [(provider, issued)] /\
    CryptoRouter.LAST_REQUEST_TIME st' !! provider = Some issued /\
    (issued == Qmax (CryptoRouter.clock st) (last + CryptoRouter.MIN_REQUEST_INTERVAL))%Q /\
    (CryptoRouter.clock st' == issued + CryptoRouter.call_duration w provider)%Q /\
    ((last + CryptoRouter.MIN_REQUEST_INTERVAL <= CryptoRouter.clock st)%Q ->
     issued = CryptoRouter.clock st).
Proof.
intros Hlate last. unfold CryptoRouter._fetch_from_provider. fold last.
destruct (CryptoRouter.Qltb (CryptoRouter.clock st - last) CryptoRouter.MIN_REQUEST_INTERVAL)
  eqn:Hcmp; eexists _, _; (split; [reflexivity|]);
  cbn [CryptoRouter.attempts CryptoRouter.LAST_REQUEST_TIME CryptoRouter.clock CryptoRouter.sleep];
  (split; [reflexivity|]); (split; [apply lookup_insert_eq|]).
- apply Qltb_true in Hcmp. unfold CryptoRouter.MIN_REQUEST_INTERVAL in *.
  split; [|split; [reflexivity|]].
  + rewrite Q.max_r by lra. rewrite Hlate. ring.
  + intros Hle. exfalso. lra.
- apply Qltb_false in Hcmp. unfold CryptoRouter.MIN_REQUEST_INTERVAL in *.
  split; [|split; [reflexivity|reflexivity]].
  rewrite Q.max_l by lra. reflexivity.
Qed.

(** A second request to Binance one second after the first. *)
Lemma rate_limit_waits_exactly_witness :
  let w := Scenario.crypto_all_down in
  let st := CryptoRouter.mkState ∅ (<["binance"%string := 10%Q]> ∅) 11%Q [] in
  exists (issued : Q) (st' : CryptoRouter.state),
    CryptoRouter._fetch_from_provider w (lit "BTC/USD") 5 1 "binance" st
    = (CryptoRouter.dispatch w (lit "BTC/USD") 5 1 "binance", st') /\
    CryptoRouter.attempts st' = CryptoRouter.attempts st ++ [("binance"%string, issued)] /\
    CryptoRouter.LAST_REQUEST_TIME st' !! "binance"%string = Some issued /\
    (issued == 12)%Q.
Proof.
intros w st.
destruct (rate_limit_waits_exactly w (lit "BTC/USD") 5 1 "binance" st)
  as (issued & st' & Hrun & Ha & Hl & Hi & _).
- reflexivity.
- exists issued, st'. split; [exact Hrun|]. split; [exact Ha|]. split; [exact Hl|].
  rewrite Hi. vm_compute. reflexivity.
Defined.

(** ** Symbols the Kraken adapter refuses *)

Section KrakenAlphabet.
Import Bars Kraken.

Lemma kraken_invalid_char (symbol : str) (c : ascii) :
  In c symbol -> allowed_char (upper_char c) = false -> _is_valid_symbol symbol = false.
Proof.
intros Hin Hc. unfold _is_valid_symbol.
destruct (length symbol <? 3)%nat; [reflexivity|].
destruct (forallb allowed_char (upper symbol)) eqn:Hall; [|reflexivity].
rewrite forallb_forall in Hall.
specialize (Hall (upper_char c) (in_map upper_char symbol c Hin)). congruence.
Qed.

End KrakenAlphabet.

(** X16. The Kraken adapters refuse every symbol that holds a character
    other than a letter, a digit or a slash — a dash or an underscore,
    for one, although [_to_kraken_pair] would strip a dash: both fetchers
    return the empty list and send no request, and so does the crypto
    router when asked for "kraken". *)
Theorem kraken_refuses_symbols_outside_alphabet (symbol : str) (c : ascii) :
  In c symbol ->
  Kraken.allowed_char (upper_char c) = false ->
  (forall http now interval days max_bars,
      KrakenRest.fetch_ohlc_days_kraken http now symbol interval days max_bars = [] /\
      KrakenRest.requests_sent http now symbol interval days max_bars = O) /\
  (forall http interval limit,
      KrakenRecent.fetch_recent_ohlc_kraken http symbol interval limit = []) /\
  (forall binance kraken now coinbase yf duration late interval days st,
      fst (CryptoRouter.fetch_history_crypto
             (CryptoRouter.exchanges binance kraken now coinbase yf duration late)
             symbol interval days "kraken" st) = Bars.Returned []).
Proof.
intros Hin Hc. pose proof (kraken_invalid_char symbol c Hin Hc) as Hbad.
assert (Hdays : forall http now interval days max_bars,
           KrakenRest.fetch_ohlc_days_kraken http now symbol interval days max_bars = []).
{ intros. unfold KrakenRest.fetch_ohlc_days_kraken. rewrite Hbad. reflexivity. }
split; [|split].
- intros. split; [apply Hdays|].
  unfold KrakenRest.requests_sent. rewrite Hbad. reflexivity.
- intros. unfold KrakenRecent.fetch_recent_ohlc_kraken. rewrite Hbad. reflexivity.
- intros.
  unfold CryptoRouter.fetch_history_crypto. cbn [String.eqb Ascii.eqb Bool.eqb negb].
  destruct (fetch_from_provider_spec
              (CryptoRouter.exchanges binance kraken now coinbase yf duration late)
              symbol interval days "kraken" st) as (issued & st' & -> & _).
  cbn [fst]. unfold CryptoRouter.dispatch. cbn [String.eqb Ascii.eqb Bool.eqb].
  unfold CryptoRouter.exchanges. cbn [CryptoRouter.kraken_days]. rewrite Hdays. reflexivity.
Qed.

(** "BTC-USD", which [_to_kraken_pair] maps to "XBTUSD". *)
Lemma kraken_refuses_symbols_outside_alphabet_witness :
  Kraken._to_kraken_pair (lit "BTC-USD") = lit "XBTUSD" /\
  (forall http now interval days max_bars,
      KrakenRest.fetch_ohlc_days_kraken http now (lit "BTC-USD") interval days max_bars = [] /\
      KrakenRest.requests_sent http now (lit "BTC-USD") interval days max_bars = O).
Proof.
split; [vm_compute; reflexivity|].
apply (kraken_refuses_symbols_outside_alphabet (lit "BTC-USD") "-"%char).
- vm_compute. auto.
- vm_compute. reflexivity.
Defined.

(** ** The tickers sent to Yahoo and Coinbase *)

Section DashedTickers.

Lemma replace_slash_by_dash (s : str) :
  replace (lit "/") (lit "-") s
  = map (fun c => if char_eqb "/" c then "-"%char else c) s.
Proof.
unfold replace. induction s as [|c r IH]; [reflexivity|].
cbn [replace_from map]. change (lit "/") with ["/"%char] in *.
change (lit "-") with ["-"%char] in *.
cbn [startswith length Nat.pred app]. rewrite andb_true_r.
destruct (char_eqb "/" c); cbn [app]; rewrite IH; reflexivity.
Qed.

Lemma replace_slash_no_slash (s : str) :
  contains_char "/" (replace (lit "/") (lit "-") s) = false.
Proof.
rewrite replace_slash_by_dash. unfold contains_char.
induction s as [|c r IH]; [reflexivity|]. cbn [map existsb]. rewrite IH, orb_false_r.
destruct (char_eqb "/" c) eqn:Hc; [reflexivity | exact Hc].
Qed.

Lemma replace_slash_has_dash (s : str) :
  contains_char "/" s = true ->
  contains_char "-" (replace (lit "/") (lit "-") s) = true.
Proof.
rewrite replace_slash_by_dash. unfold contains_char.
induction s as [|c r IH]; [discriminate|]. cbn [map existsb].
destruct (char_eqb "/" c) eqn:Hc; [reflexivity|].
cbn [orb]. intros Hr. rewrite (IH Hr). apply orb_true_r.
Qed.

Lemma dash_upper_char (c : ascii) : char_eqb "-" (upper_char c) = char_eqb "-" c.
Proof.
destruct c as [[] [] [] [] [] [] [] []]; reflexivity.
Qed.

Lemma contains_dash_upper (s : str) :
  contains_char "-" (upper s) = contains_char "-" s.
Proof.
unfold contains_char, upper.
induction s as [|c r IH]; cbn [map existsb]; [reflexivity|].
rewrite dash_upper_char. f_equal. exact IH.
Qed.

Lemma dict_get_In {V : Type} (k : str) (d : list (str * V)) (v : V) :
  dict_get k d = Some v -> In v (map snd d).
Proof.
induction d as [|[k' v'] d IH]; cbn [dict_get map snd]; [discriminate|].
destruct (str_eqb k k'); [intros [= ->]; left; reflexivity | intros H; right; apply IH, H].
Qed.

Lemma table_values (P : str -> bool) (k : str) (d : list (str * str)) (v : str) :
  forallb P (map snd d) = true -> dict_get k d = Some v -> P v = true.
Proof.
intros Hall Hget. rewrite forallb_forall in Hall. apply Hall.
apply (dict_get_In k d v Hget).
Qed.

Lemma yahoo_table_dashed :
  forallb (fun v => negb (contains_char "/" v) && contains_char "-" v)
          (map snd CryptoRouter.yf_mappings) = true.
Proof. vm_compute. reflexivity. Qed.

Lemma coinbase_table_dashed :
  forallb (fun v => negb (contains_char "/" v) && contains_char "-" v)
          (map snd CoinbaseRest.mappings) = true.
Proof. vm_compute. reflexivity. Qed.

End DashedTickers.

(** X17. The tickers the routers send to Yahoo and Coinbase never hold a
    slash: [_to_yfinance_crypto_symbol] returns, for every symbol, a
    ticker without a slash and with a dash, and [_to_coinbase_symbol] a
    product id without a slash, which has a dash whenever the symbol has
    at least three characters. *)
Theorem yahoo_and_coinbase_tickers_are_dashed (symbol : str) :
  contains_char "/" (CryptoRouter._to_yfinance_crypto_symbol symbol) = false /\
  contains_char "-" (CryptoRouter._to_yfinance_crypto_symbol symbol) = true /\
  contains_char "/" (CoinbaseRest._to_coinbase_symbol symbol) = false /\
  ((3 <= length symbol)%nat ->
   contains_char "-" (CoinbaseRest._to_coinbase_symbol symbol) = true).
Proof.
assert (Hy : contains_char "/" (CryptoRouter._to_yfinance_crypto_symbol symbol) = false /\
             contains_char "-" (CryptoRouter._to_yfinance_crypto_symbol symbol) = true).
{ unfold CryptoRouter._to_yfinance_crypto_symbol.
  destruct (dict_get (upper symbol) CryptoRouter.yf_mappings) as [v|] eqn:Hget.
  - pose proof (table_values _ _ _ _ yahoo_table_dashed Hget) as Hv. cbn beta in Hv.
    apply andb_true_iff in Hv as [Hv1 Hv2]. apply negb_true_iff in Hv1. auto.
  - destruct (contains_char "/" symbol) eqn:Hslash.
    + split; [apply replace_slash_no_slash|].
      apply replace_slash_has_dash. rewrite contains_slash_upper. exact Hslash.
    + rewrite !contains_char_app, contains_slash_upper, Hslash. split; [reflexivity|].
      apply orb_true_r. }
destruct Hy as [Hy1 Hy2]. split; [exact Hy1|]. split; [exact Hy2|].
unfold CoinbaseRest._to_coinbase_symbol.
destruct symbol as [|c0 r]; [split; [reflexivity | cbn; lia]|].
set (symbol := c0 :: r) in *.
destruct (dict_get (upper symbol) CoinbaseRest.mappings) as [v|] eqn:Hget.
- pose proof (table_values _ _ _ _ coinbase_table_dashed Hget) as Hv. cbn beta in Hv.
  apply andb_true_iff in Hv as [Hv1 Hv2]. apply negb_true_iff in Hv1. auto.
- destruct (contains_char "/" symbol) eqn:Hslash.
  + split; [apply replace_slash_no_slash|]. intros _.
    apply replace_slash_has_dash. rewrite contains_slash_upper. exact Hslash.
  + destruct (contains_char "-" symbol) eqn:Hdash; cbn [negb andb].
    * rewrite contains_slash_upper, contains_dash_upper. auto.
    * destruct (Nat.leb_spec 3 (length symbol)) as [Hlen|Hlen].
      -- rewrite !contains_char_app, contains_slash_upper, Hslash. split; [reflexivity|].
         intros _. apply orb_true_r.
      -- rewrite contains_slash_upper. split; [exact Hslash | lia].
Qed.

(** "sol/usd" on both, and a symbol with two slashes. *)
Lemma yahoo_and_coinbase_tickers_are_dashed_witness :
  CryptoRouter._to_yfinance_crypto_symbol (lit "sol/usd") = lit "SOL1-USD" /\
  CoinbaseRest._to_coinbase_symbol (lit "sol/usd") = lit "SOL-USD" /\
  CoinbaseRest._to_coinbase_symbol (lit "a/b/c") = lit "A-B-C" /\
  contains_char "-" (CoinbaseRest._to_coinbase_symbol (lit "sol/usd")) = true.
Proof.
split; [vm_compute; reflexivity|]. split; [vm_compute; reflexivity|].
split; [vm_compute; reflexivity|].
apply (yahoo_and_coinbase_tickers_are_dashed (lit "sol/usd")). vm_compute. lia.
Defined.

(** ** The interval mappers of the stock adapters *)

Section StockIntervalMappers.
Import StockIntervals.

Lemma listed_cases (interval : Z) :
  listed interval <->
  interval = 1 \/ interval = 5 \/ interval = 15 \/ interval = 30 \/ interval = 60.
Proof. unfold listed. cbn [In]. intuition lia. Qed.

(** A mapper that knows five intervals by name and answers the daily
    code otherwise, against the ceiling policy on its table. *)
Lemma exact_or_daily_ceiling {C : Type} (c1 c5 c15 c30 c60 cd : C) (interval : Z) :
  cd <> c1 -> cd <> c5 -> cd <> c15 -> cd <> c30 -> cd <> c60 ->
  let code :=
    if interval =? 1 then c1 else if interval =? 5 then c5
    else if interval =? 15 then c15 else if interval =? 30 then c30
    else if interval =? 60 then c60 else cd in
  is_ceiling_entry [(1, c1); (5, c5); (15, c15); (30, c30); (60, c60); (1440, cd)]
                   (Z.min interval 1440) code
  <-> listed interval \/ 60 < interval.
Proof.
intros N1 N5 N15 N30 N60 code. rewrite listed_cases. unfold is_ceiling_entry. split.
- intros (m & Hin & Hle & Hmin).
  destruct (Z.le_gt_cases interval 60) as [Hs|Hs]; [|right; exact Hs]. left.
  subst code.
  destruct (Z.eqb_spec interval 1); [lia|].
  destruct (Z.eqb_spec interval 5); [lia|].
  destruct (Z.eqb_spec interval 15); [lia|].
  destruct (Z.eqb_spec interval 30); [lia|].
  destruct (Z.eqb_spec interval 60); [lia|].
  exfalso.
  assert (Hm : m = 1440).
  { cbn [In] in Hin.
    destruct Hin as [Hin|[Hin|[Hin|[Hin|[Hin|[Hin|[]]]]]]];
      injection Hin; intros; congruence. }
  subst m.
  assert (H60 : In (60, c60) [(1, c1); (5, c5); (15, c15); (30, c30); (60, c60); (1440, cd)]).
  { cbn [In]. auto 10. }
  specialize (Hmin 60 c60 H60). lia.
- intros Hcase. subst code.
  assert (Hall : forall m, (forall (m' : Z) (c' : C),
             In (m', c') [(1, c1); (5, c5); (15, c15); (30, c30); (60, c60); (1440, cd)] ->
             Z.min interval 1440 <= m' -> m <= m')
             <-> (Z.min interval 1440 <= 1 -> m <= 1) /\
                 (Z.min interval 1440 <= 5 -> m <= 5) /\
                 (Z.min interval 1440 <= 15 -> m <= 15) /\
                 (Z.min interval 1440 <= 30 -> m <= 30) /\
                 (Z.min interval 1440 <= 60 -> m <= 60) /\
                 (Z.min interval 1440 <= 1440 -> m <= 1440)).
  { intros m. split.
    - intros H. repeat apply conj; intros Hle;
        [apply (H 1 c1) | apply (H 5 c5) | apply (H 15 c15) | apply (H 30 c30)
         | apply (H 60 c60) | apply (H 1440 cd)]; cbn [In]; auto 10.
    - intros (A1 & A5 & A15 & A30 & A60 & Ad) m' c' Hin. cbn [In] in Hin.
      destruct Hin as [Hin|[Hin|[Hin|[Hin|[Hin|[Hin|[]]]]]]];
        injection Hin as <- _; assumption. }
  destruct (Z.eqb_spec interval 1) as [->|?];
    [exists 1; rewrite Hall; cbn [In]; split; [auto 10 | lia]|].
  destruct (Z.eqb_spec interval 5) as [->|?];
    [exists 5; rewrite Hall; cbn [In]; split; [auto 10 | lia]|].
  destruct (Z.eqb_spec interval 15) as [->|?];
    [exists 15; rewrite Hall; cbn [In]; split; [auto 10 | lia]|].
  destruct (Z.eqb_spec interval 30) as [->|?];
    [exists 30; rewrite Hall; cbn [In]; split; [auto 10 | lia]|].
  destruct (Z.eqb_spec interval 60) as [->|?];
    [exists 60; rewrite Hall; cbn [In]; split; [auto 10 | lia]|].
  exists 1440. rewrite Hall. cbn [In]. split; [auto 10 | lia].
Qed.

End StockIntervalMappers.

(** X18. The interval mappers of the stock adapters Finnhub, Polygon and
    Alpha Vantage know the intervals 1, 5, 15, 30 and 60 by name and
    answer every other interval with the daily resolution.  They agree
    with the clamped ceiling policy exactly on those five intervals and
    above sixty minutes: for any other interval of at most sixty minutes
    (ten minutes, or zero) the resolution they pick is not the smallest
    one that is at least the request. *)
Theorem stock_interval_mappers_exact_or_daily (interval : Z) :
  (StockIntervals.is_ceiling_entry StockIntervals.finnhub_resolutions (Z.min interval 1440)
     (StockIntervals.finnhub_resolution interval)
   <-> StockIntervals.listed interval \/ 60 < interval) /\
  (StockIntervals.is_ceiling_entry StockIntervals.polygon_resolutions (Z.min interval 1440)
     (StockIntervals.polygon_timespan interval)
   <-> StockIntervals.listed interval \/ 60 < interval) /\
  (StockIntervals.is_ceiling_entry StockIntervals.alpha_vantage_resolutions
     (Z.min interval 1440) (StockIntervals.alpha_vantage_interval interval)
   <-> StockIntervals.listed interval \/ 60 < interval) /\
  (~ StockIntervals.listed interval ->
   StockIntervals.finnhub_resolution interval = "D"%string /\
   StockIntervals.polygon_timespan interval = (1, "day"%string) /\
   StockIntervals.alpha_vantage_interval interval = "daily"%string).
Proof.
split; [|split; [|split]].
- apply (exact_or_daily_ceiling "1"%string "5"%string "15"%string "30"%string "60"%string
           "D"%string interval); discriminate.
- apply (exact_or_daily_ceiling (1, "minute"%string) (5, "minute"%string)
           (15, "minute"%string) (30, "minute"%string) (1, "hour"%string)
           (1, "day"%string) interval); discriminate.
- apply (exact_or_daily_ceiling "1min"%string "5min"%string "15min"%string "30min"%string
           "60min"%string "daily"%string interval); discriminate.
- rewrite listed_cases. intros Hn.
  unfold StockIntervals.finnhub_resolution, StockIntervals.polygon_timespan,
    StockIntervals.alpha_vantage_interval.
  destruct (Z.eqb_spec interval 1); [lia|].
  destruct (Z.eqb_spec interval 5); [lia|].
  destruct (Z.eqb_spec interval 15); [lia|].
  destruct (Z.eqb_spec interval 30); [lia|].
  destruct (Z.eqb_spec interval 60); [lia|].
  auto.
Qed.

(** Ten minutes: none of the three answers with fifteen. *)
Lemma stock_interval_mappers_exact_or_daily_witness :
  StockIntervals.finnhub_resolution 10 = "D"%string /\
  StockIntervals.polygon_timespan 10 = (1, "day"%string) /\
  StockIntervals.alpha_vantage_interval 10 = "daily"%string.
Proof.
apply (stock_interval_mappers_exact_or_daily 10).
unfold StockIntervals.listed. cbn [In]. lia.
Defined.

(** ** The Finnhub adapter *)

Section FinnhubPage.
Import Bars Rows Finnhub.

Lemma get_inr {A : Type} (f : cell -> conv A) (col : list cell) (i : nat) (a : A) :
  get f col i = inr a -> (i < length col)%nat.
Proof.
unfold get. destruct (col !! i) as [c|] eqn:Hc; [|discriminate].
intros _. apply lookup_lt_Some in Hc. exact Hc.
Qed.

Lemma row_at_inr (data : payload) (i : nat) (b : Bar) :
  row_at data i = inr b ->
  (i < length (col_o data))%nat /\ (i < length (col_h data))%nat /\
  (i < length (col_l data))%nat /\ (i < length (col_c data))%nat /\
  (i < length (col_v data))%nat.
Proof.
unfold row_at.
destruct (get to_int (col_t data) i) as [?|t] eqn:Ht; cbn [bind]; [discriminate|].
destruct (get to_float (col_o data) i) as [?|o] eqn:Ho; cbn [bind]; [discriminate|].
destruct (get to_float (col_h data) i) as [?|h] eqn:Hh; cbn [bind]; [discriminate|].
destruct (get to_float (col_l data) i) as [?|l] eqn:Hl; cbn [bind]; [discriminate|].
destruct (get to_float (col_c data) i) as [?|c] eqn:Hc; cbn [bind]; [discriminate|].
destruct (get to_int (col_v data) i) as [?|v] eqn:Hv; cbn [bind]; [discriminate|].
intros _. apply get_inr in Ho, Hh, Hl, Hc, Hv. auto.
Qed.

Lemma rows_inr (data : payload) (indices : list nat) (acc result : list Bar) :
  rows data indices acc = inr result ->
  length result = (length acc + length indices)%nat /\
  forall i, In i indices -> exists b, row_at data i = inr b.
Proof.
revert acc. induction indices as [|i indices IH]; intros acc; cbn [rows].
- intros [= <-]. split; [cbn; lia | intros i []].
- destruct (row_at data i) as [?|b] eqn:Hrow; [discriminate|].
  intros Hrest. apply IH in Hrest as [Hlen Hall]. split.
  + rewrite Hlen, length_app. cbn [length]. lia.
  + intros j [<-|Hj]; [exists b; exact Hrow | apply Hall, Hj].
Qed.

Lemma weakly_sorted_drop {A : Type} (key : A -> Z) (n : nat) (l : list A) :
  StronglySorted (fun a b => key a <= key b) l ->
  StronglySorted (fun a b => key a <= key b) (drop n l).
Proof.
revert l. induction n as [|n IH]; intros l Hs; [rewrite drop_0; exact Hs|].
destruct l as [|x l]; [constructor|].
cbn [drop]. apply IH. apply StronglySorted_inv in Hs as [Hs _]. exact Hs.
Qed.

Lemma finnhub_result_sorted (e : env) (symbol : str) (interval days : Z) :
  StronglySorted (fun a b => ts a <= ts b) (fetch_finnhub_bars e symbol interval days).
Proof.
unfold fetch_finnhub_bars.
destruct (key_configured e); cbn [negb]; [|constructor].
destruct (window e days) as [[from to]|]; [|constructor].
destruct (http e symbol _ from to) as [| |data]; [constructor | constructor |].
destruct (s_ok data); cbn [negb]; [|constructor].
destruct (col_t data) as [|t0 timestamps]; [constructor|].
destruct (rows data _ []) as [?|ohlc_data]; [constructor|].
unfold py_slice_last, py_slice_from. apply weakly_sorted_drop, py_sorted_weak.
Qed.

Lemma finnhub_result_length (e : env) (symbol : str) (interval days : Z) :
  (length (fetch_finnhub_bars e symbol interval days) <= 1000)%nat.
Proof.
unfold fetch_finnhub_bars.
destruct (key_configured e); cbn [negb length]; [|lia].
destruct (window e days) as [[from to]|]; cbn [length]; [|lia].
destruct (http e symbol _ from to) as [| |data]; cbn [length]; [lia | lia |].
destruct (s_ok data); cbn [negb length]; [|lia].
destruct (col_t data) as [|t0 timestamps]; cbn [length]; [lia|].
destruct (rows data _ []) as [?|ohlc_data]; cbn [length]; [lia|].
pose proof (py_slice_last_length 1000 (py_sorted ts ohlc_data)). lia.
Qed.

End FinnhubPage.

(** X19. What [fetch_finnhub_bars] returns is sorted by timestamp, holds
    at most 1000 bars, and is all of the reply or nothing: when the list
    is not empty it has one bar for every entry of the timestamp column
    (the last 1000 of them), and every other column is at least as long
    as that one — a single missing or unreadable cell anywhere in the
    reply empties the result. *)
Theorem finnhub_page_is_all_or_nothing (e : Finnhub.env) (symbol : str) (interval days : Z) :
  let result := Finnhub.fetch_finnhub_bars e symbol interval days in
  Rows.weakly_ascending result /\
  (length result <= 1000)%nat /\
  (forall from to data,
      Finnhub.window e days = Some (from, to) ->
      Finnhub.http e symbol (StockIntervals.finnhub_resolution interval) from to
      = Finnhub.Json data ->
      result <> [] ->
      length result = Nat.min 1000 (length (Finnhub.col_t data)) /\
      (forall i, (i < length (Finnhub.col_t data))%nat ->
                 exists b, Finnhub.row_at data i = inr b) /\
      Forall (fun col => (length (Finnhub.col_t data) <= length col)%nat)
             [Finnhub.col_o data; Finnhub.col_h data; Finnhub.col_l data;
              Finnhub.col_c data; Finnhub.col_v data]).
Proof.
intros result. split; [apply sorted_weakly_ascending, finnhub_result_sorted|].
split; [apply finnhub_result_length|].
intros from to data Hwindow Hhttp. subst result. unfold Finnhub.fetch_finnhub_bars.
destruct (Finnhub.key_configured e); cbn [negb]; [|congruence].
rewrite Hwindow, Hhttp.
destruct (Finnhub.s_ok data); cbn [negb]; [|congruence].
destruct (Finnhub.col_t data) as [|t0 timestamps] eqn:Ht; [congruence|].
rewrite <- Ht.
destruct (Finnhub.rows data (seq 0 (length (Finnhub.col_t data))) []) as [?|ohlc_data]
  eqn:Hrows; [congruence|].
intros _. apply rows_inr in Hrows as [Hlen Hall]. rewrite length_seq in Hlen.
cbn [length Nat.add] in Hlen.
assert (Hrow : forall i, (i < length (Finnhub.col_t data))%nat ->
                         exists b, Finnhub.row_at data i = inr b).
{ intros i Hi. apply Hall. apply in_seq. lia. }
split; [|split; [exact Hrow|]].
- rewrite py_slice_last_positive by lia. rewrite length_drop, py_sorted_length. lia.
- assert (Hcol : forall col : list Bars.cell,
             (forall i b, Finnhub.row_at data i = inr b -> (i < length col)%nat) ->
             (length (Finnhub.col_t data) <= length col)%nat).
  { intros col Hin. destruct (Nat.le_gt_cases (length (Finnhub.col_t data)) (length col))
      as [Hle|Hgt]; [exact Hle|].
    destruct (Hrow (length col) Hgt) as (b & Hb). apply Hin in Hb. lia. }
  repeat constructor; apply Hcol; intros i b Hb; apply row_at_inr in Hb; tauto.
Qed.

(** A reply of two candles, the later one first. *)
Lemma finnhub_page_is_all_or_nothing_witness :
  let result := Finnhub.fetch_finnhub_bars FinnhubScenario.up (lit "AAPL") 5 1 in
  map Bars.ts result = [1700000000; 1700000300] /\
  length result = Nat.min 1000 (length (Finnhub.col_t FinnhubScenario.two_candles)).
Proof.
intros result. split; [vm_compute; reflexivity|].
destruct (finnhub_page_is_all_or_nothing FinnhubScenario.up (lit "AAPL") 5 1)
  as (_ & _ & Hall).
destruct (Hall (1700000300 - (1 + 2) * 86400) 1700000300 FinnhubScenario.two_candles
               eq_refl eq_refl) as (Hlen & _).
- vm_compute. discriminate.
- exact Hlen.
Defined.
